(** * scouting-charts: a shallow embedding of the market scanner

    The development follows the repository file by file:

    - [Py]            the fragment of the Python run time the code relies on
                      (exceptions, [int(...)] on strings, floor division,
                      binary64 floats, list slicing and sorting);
    - [Pandas]        the Series operations the analyzers call
                      ([rolling(..).mean()], [diff], [ffill], [resample]);
    - [DataFetcher]   src/data_fetcher.py, the arithmetic of the request;
    - [Snapshot]      the record src/market_storage.py writes and reads;
    - [Runtime]       the clock, the files, the exchange and the log, as a
                      state-and-exception monad over oracles;
    - [MarketB]       src/market_b.py  (Moving-Average pipeline);
    - [MarketA]       src/market_a.py  (Volatility-Band pipeline);
    - [Fetcher]       src/data_fetcher.py, the cache and the scan;
    - [MarketStorage] src/market_storage.py;
    - [Main]          src/main.py.

    Python [int] is [Z]; Python / numpy [float] is the kernel's binary64
    [float] (so rounding is the machine's, not the reals'); a [dict] is an
    association list in insertion order; a pandas column is a [list]. *)

From Stdlib Require Import ZArith List Ascii Bool Lia Floats.
From Stdlib Require Import Permutation Sorted QArith.
From Stdlib Require String Finite DecimalString.
Import ListNotations.
Import String.StringSyntax.

Abbreviation string := String.string.
Abbreviation String := String.String.
Abbreviation EmptyString := String.EmptyString.

Local Open Scope string_scope.
Local Open Scope Z_scope.

(* ================================================================== *)
(** * The Python fragment *)
(* ================================================================== *)

Module Py.

(** Exceptions the modelled code can raise.  [ApiError] stands for whatever
    the exchange client throws (network, authentication, malformed payload)
    and [OSError] for a failed file operation: the code never inspects
    them, it only catches [Exception]. *)
Inductive exn : Type :=
| KeyError (key : string)
| ValueError
| ZeroDivisionError
| IndexError
| TypeError
| OverflowError
| OSError
| ApiError.

(** The outcome of evaluating a Python expression: a value or a raised
    exception. *)
Inductive result (A : Type) : Type :=
| Ok (a : A)
| Raise (e : exn).

Arguments Ok {A} a.
Arguments Raise {A} e.

Definition bind {A B : Type} (r : result A) (k : A -> result B) : result B :=
  match r with
  | Ok a => k a
  | Raise e => Raise e
  end.

Definition is_ok {A : Type} (r : result A) : bool :=
  match r with Ok _ => true | Raise _ => false end.

Declare Scope py_scope.
Delimit Scope py_scope with py.

Notation "x <- c ;; k" := (bind c (fun x => k))
  (at level 61, c at next level, right associativity) : py_scope.

(** ** [int(s)] for a string [s]

    Python strips surrounding white space, reads an optional sign and then
    decimal digits, where single underscores may separate digits; anything
    else is a [ValueError]. *)

Definition is_space (c : ascii) : bool :=
  let n := nat_of_ascii c in
  ((9 <=? n) && (n <=? 13) || (n =? 32))%nat.

Definition digit_of (c : ascii) : option Z :=
  let n := nat_of_ascii c in
  if ((48 <=? n) && (n <=? 57))%nat then Some (Z.of_nat n - 48) else None.

Fixpoint lstrip (s : string) : string :=
  match s with
  | String c s' => if is_space c then lstrip s' else s
  | EmptyString => EmptyString
  end.

Fixpoint all_space (s : string) : bool :=
  match s with
  | String c s' => is_space c && all_space s'
  | EmptyString => true
  end.

(** [digits acc after_digit s]: [acc] is the number read so far,
    [after_digit] tells whether the previous character was a digit (an
    underscore is legal only between two digits). *)
Fixpoint digits (acc : Z) (after_digit : bool) (s : string) : option Z :=
  match s with
  | EmptyString => if after_digit then Some acc else None
  | String c s' =>
      match digit_of c with
      | Some d => digits (10 * acc + d) true s'
      | None =>
          if (nat_of_ascii c =? 95)%nat then
            if after_digit then
              match s' with
              | String c' _ =>
                  match digit_of c' with
                  | Some _ => digits acc false s'
                  | None => None
                  end
              | EmptyString => None
              end
            else None
          else if after_digit && all_space s then Some acc else None
      end
  end.

Definition int_of_str (s : string) : result Z :=
  let body (neg : bool) (t : string) :=
    match digits 0 false t with
    | Some n => Ok (if neg then - n else n)
    | None => Raise ValueError
    end in
  match lstrip s with
  | String "-" t => body true t
  | String "+" t => body false t
  | t => body false t
  end.

(** ** [a // b] on integers: floor division, [ZeroDivisionError] on 0.
    [Z.div] rounds towards minus infinity for a positive divisor and agrees
    with Python for a negative one as well. *)
Definition floordiv (a b : Z) : result Z :=
  if b =? 0 then Raise ZeroDivisionError else Ok (a / b).

(** ** Floats

    Python's [float] and numpy's [float64] are IEEE 754 binary64, which is
    what the kernel's [float] is: [NaN] is pandas' missing-value marker, an
    ordered comparison with [NaN] is [false] and [!=] with it is [true]. *)

Definition fadd : float -> float -> float := PrimFloat.add.
Definition fsub : float -> float -> float := PrimFloat.sub.
Definition fmul : float -> float -> float := PrimFloat.mul.
Definition fdiv : float -> float -> float := PrimFloat.div.
Definition fabs : float -> float := PrimFloat.abs.
(** [x < y], [x > y], [x != y] *)
Definition flt (x y : float) : bool := PrimFloat.ltb x y.
Definition fgt (x y : float) : bool := PrimFloat.ltb y x.
Definition fne (x y : float) : bool := negb (PrimFloat.eqb x y).
Definition isnan (x : float) : bool := PrimFloat.is_nan x.

(** [float(z)]: exact below 2^53 in magnitude and correctly rounded below
    2^63, which covers every count and code the program converts. *)
Definition float_of_Z (z : Z) : float :=
  if z <? 0 then PrimFloat.opp (PrimFloat.of_uint63 (Uint63.of_Z (- z)))
  else PrimFloat.of_uint63 (Uint63.of_Z z).

Definition float_of_nat (n : nat) : float := float_of_Z (Z.of_nat n).

(** [int(x)] for a float: truncation towards zero, [ValueError] on NaN and
    [OverflowError] on an infinity. *)
Definition int_of_float (x : float) : result Z :=
  match Prim2SF x with
  | S754_zero _ => Ok 0
  | S754_finite s m e =>
      let a := if 0 <=? e then Z.pos m * 2 ^ e else Z.pos m / 2 ^ (- e) in
      Ok (if s then - a else a)
  | S754_infinity _ => Raise OverflowError
  | S754_nan => Raise ValueError
  end.

(** ** Scalars and dictionaries

    The scalars the analyzers store in the per-asset dictionaries: they come
    out of pandas, so a number is a [numpy.int64] or a [numpy.float64]
    (whose division by zero yields an infinity or [NaN] instead of
    raising), and an absent value is [None]. *)
Inductive value : Type :=
| VInt (z : Z)
| VFloat (f : float)
| VNone.

(** Python's own numbers, as the market statistics hold them. *)
Inductive pynum : Type :=
| PInt (z : Z)
| PFloat (f : float).

(** A [dict] with string keys, in insertion order. *)
Definition dict (A : Type) : Type := list (string * A).

Fixpoint dict_find {A : Type} (d : dict A) (k : string) : option A :=
  match d with
  | [] => None
  | (k', v) :: d' => if String.eqb k' k then Some v else dict_find d' k
  end.

(** [d[k]] *)
Definition dict_get {A : Type} (d : dict A) (k : string) : result A :=
  match dict_find d k with
  | Some v => Ok v
  | None => Raise (KeyError k)
  end.

(** [d[k] = v]: an existing key keeps its position. *)
Fixpoint dict_set {A : Type} (d : dict A) (k : string) (v : A) : dict A :=
  match d with
  | [] => [(k, v)]
  | (k', v') :: d' =>
      if String.eqb k' k then (k', v) :: d' else (k', v') :: dict_set d' k v
  end.

Definition keys {A : Type} (d : dict A) : list string := map fst d.

(** [str(z)] inside an f-string *)
Definition string_of_Z (z : Z) : string :=
  DecimalString.NilZero.string_of_int (Z.to_int z).

(** [needle in hay] on strings *)
Fixpoint contains (needle hay : string) : bool :=
  String.prefix needle hay
  || match hay with
     | String _ hay' => contains needle hay'
     | EmptyString => false
     end.

(** [s.endswith(suffix)] *)
Definition ends_with (suffix s : string) : bool :=
  let n := String.length s in
  let m := String.length suffix in
  (m <=? n)%nat && String.eqb (String.substring (n - m) m s) suffix.

(** ** Sequences *)

Fixpoint zip_with {A B C : Type} (f : A -> B -> C) (l1 : list A) (l2 : list B)
  : list C :=
  match l1, l2 with
  | a :: l1', b :: l2' => f a b :: zip_with f l1' l2'
  | _, _ => []
  end.

(** [xs.iloc[i]] (and [xs[i]] on a list): a negative index counts from the
    end, and an index outside the sequence raises [IndexError]. *)
Definition iloc {A : Type} (xs : list A) (i : Z) : result A :=
  let n := Z.of_nat (length xs) in
  let j := if i <? 0 then n + i else i in
  if (j <? 0) || (n <=? j) then Raise IndexError
  else match nth_error xs (Z.to_nat j) with
       | Some x => Ok x
       | None => Raise IndexError
       end.

(** [xs[:n]]: the first [n] items, or all but the last [-n] when [n] is
    negative. *)
Definition slice_to {A : Type} (xs : list A) (n : Z) : list A :=
  if n <? 0 then firstn (length xs - Z.to_nat (- n)) xs
  else firstn (Z.to_nat n) xs.

(** [df.tail(n)]: the last [n] rows, or all but the first [-n] when [n] is
    negative. *)
Definition tail_rows {A : Type} (xs : list A) (n : Z) : list A :=
  if n <? 0 then skipn (Z.to_nat (- n)) xs
  else skipn (length xs - Z.to_nat n) xs.

(** A stable sort by a key, ascending when [before a b] reads "a's key is
    strictly below b's": an item moves in front of the sorted rest only as
    far as the items strictly before it allow, so equal keys keep their
    order.  Python's [list.sort] and pandas' merge sort are stable, hence
    agree with it whenever the keys are totally ordered. *)
Fixpoint insert_by {A : Type} (before : A -> A -> bool) (x : A) (l : list A)
  : list A :=
  match l with
  | [] => [x]
  | y :: l' => if before y x then y :: insert_by before x l' else x :: l
  end.

Definition sort_by {A : Type} (before : A -> A -> bool) (l : list A) : list A :=
  fold_right (insert_by before) [] l.

End Py.

Import Py.
Local Open Scope py_scope.

(* ================================================================== *)
(** * src/data_fetcher.py: point counts *)
(* ================================================================== *)

Module DataFetcher.

(** The [interval] argument is annotated [str] but the code tests
    [isinstance(interval, str)] and the Volatility-Band script passes the
    integer [60]: both shapes are values it can receive. *)
Inductive interval_arg : Type :=
| IStr (s : string)
| IInt (n : Z).

Definition interval_eq_str (i : interval_arg) (s : string) : bool :=
  match i with
  | IStr t => String.eqb t s
  | IInt _ => false
  end.

(** [interval in ['D', 'W', 'M']] *)
Definition is_calendar (i : interval_arg) : bool :=
  interval_eq_str i "D" || interval_eq_str i "W" || interval_eq_str i "M".

(** [int(interval) if isinstance(interval, str) else interval] *)
Definition interval_minutes (i : interval_arg) : result Z :=
  match i with
  | IStr s => int_of_str s
  | IInt n => Ok n
  end.

(** [BybitDataFetcher.calculate_required_points], lines 53-77. *)
Definition calculate_required_points (days : Z) (interval : interval_arg)
  : result Z :=
  points <-
    (if is_calendar interval then
       if interval_eq_str interval "D" then Ok days
       else if interval_eq_str interval "W" then
         q <- floordiv days 7 ;; Ok (q + 1)
       else
         q <- floordiv days 30 ;; Ok (q + 1)
     else
       m <- interval_minutes interval ;;
       floordiv (days * 24 * 60) m) ;;
  Ok (Z.min points 1000).

(** The interval codes of the docstring. *)
Inductive interval_kind : Type :=
| Daily
| Weekly
| Monthly
| Minutes (m : Z).

Definition supported_intervals : list (string * interval_kind) :=
  [ ("1", Minutes 1); ("3", Minutes 3); ("5", Minutes 5);
    ("15", Minutes 15); ("30", Minutes 30); ("60", Minutes 60);
    ("120", Minutes 120); ("240", Minutes 240); ("360", Minutes 360);
    ("720", Minutes 720); ("D", Daily); ("W", Weekly); ("M", Monthly) ].

(** The formula as the specification words it, before the clamp. *)
Definition spec_points (k : interval_kind) (days : Z) : Z :=
  match k with
  | Daily => days
  | Weekly => days / 7 + 1
  | Monthly => days / 30 + 1
  | Minutes m => days * 1440 / m
  end.

(** The clamp as the specification words it. *)
Definition spec_clamp (v : Z) : Z :=
  if 1000 <? v then 1000 else v.

End DataFetcher.

(* ================================================================== *)
(** * The pandas operations the analyzers call *)
(* ================================================================== *)

Module Pandas.

(** One row of the kline table [get_kline_data] builds: the bar's opening
    instant (milliseconds since the epoch, as the exchange sends it) and six
    [float64] cells, [NaN] where the source text did not parse. *)
Record candle : Type := {
  timestamp : Z;
  open : float;
  high : float;
  low : float;
  close : float;
  volume : float;
  turnover : float
}.

(** A DataFrame of klines; a column is [map field df].  [[]] stands for
    any frame without rows, the column-less [pd.DataFrame()] that a failed
    fetch returns among them: the program only ever tests such a frame for
    emptiness.  The analyzers raise on it, in the model as in the code;
    which exception it is depends on the columns the frame has and is not
    tracked. *)
Definition table : Type := list candle.

(** [s.shift()] *)
Definition shift (xs : list float) : list float :=
  match xs with
  | [] => []
  | _ :: _ => nan :: removelast xs
  end.

(** [s.diff()]: [NaN] in the first row, then [s[i] - s[i-1]]. *)
Definition diff (xs : list float) : list float :=
  match xs with
  | [] => []
  | _ :: t => nan :: zip_with fsub t xs
  end.

(** ** [s.rolling(window=w).mean()]

    pandas does not add up each window afresh: [roll_mean]
    (pandas/_libs/window/aggregations.pyx) slides one running sum along the
    column, an infinite cell having first been replaced by [NaN], and the
    state it carries is this record. *)
Record roll : Type := {
  nobs : nat;
  sum_x : float;
  neg_ct : nat;
  compensation_add : float;
  compensation_remove : float;
  num_consecutive_same_value : nat;
  prev_value : float
}.

Definition finite_or_nan (x : float) : float :=
  if PrimFloat.is_infinity x then nan else x.

(** The state a window is set up with; [prev_value = values[s]]. *)
Definition roll_setup (first : float) : roll :=
  {| nobs := 0; sum_x := zero; neg_ct := 0;
     compensation_add := zero; compensation_remove := zero;
     num_consecutive_same_value := 0; prev_value := first |}.

(** [add_mean]: a cell that is not [NaN] enters the sum, with Kahan's
    compensation. *)
Definition add_mean (val : float) (st : roll) : roll :=
  if isnan val then st
  else
    let y := fsub val (compensation_add st) in
    let t := fadd (sum_x st) y in
    {| nobs := S (nobs st);
       sum_x := t;
       neg_ct := if PrimFloat.get_sign val then S (neg_ct st) else neg_ct st;
       compensation_add := fsub (fsub t (sum_x st)) y;
       compensation_remove := compensation_remove st;
       num_consecutive_same_value :=
         if PrimFloat.eqb val (prev_value st)
         then S (num_consecutive_same_value st) else 1%nat;
       prev_value := val |}.

(** [remove_mean]: a cell that is not [NaN] leaves the sum. *)
Definition remove_mean (val : float) (st : roll) : roll :=
  if isnan val then st
  else
    let y := fsub (PrimFloat.opp val) (compensation_remove st) in
    let t := fadd (sum_x st) y in
    {| nobs := pred (nobs st);
       sum_x := t;
       neg_ct := if PrimFloat.get_sign val then pred (neg_ct st) else neg_ct st;
       compensation_add := compensation_add st;
       compensation_remove := fsub (fsub t (sum_x st)) y;
       num_consecutive_same_value := num_consecutive_same_value st;
       prev_value := prev_value st |}.

(** [calc_mean]: [NaN] unless [minp] cells are in the window; a window of
    equal cells yields that cell, and a sum whose sign the cells exclude
    yields 0. *)
Definition calc_mean (minp : nat) (st : roll) : float :=
  if ((minp <=? nobs st) && (0 <? nobs st))%nat then
    let result := fdiv (sum_x st) (float_of_nat (nobs st)) in
    if (nobs st <=? num_consecutive_same_value st)%nat then prev_value st
    else if (neg_ct st =? 0)%nat && flt result zero then zero
    else if (neg_ct st =? nobs st)%nat && fgt result zero then zero
    else result
  else nan.

(** The state after row [i] of a fixed window of [w >= 1] rows, whose
    bounds are [max (i + 1 - w) 0] and [i + 1]: the window is set up anew at
    row 0 and whenever it shares no row with the one before ([w = 1]);
    otherwise row [i - w] leaves, if there is one, and row [i] enters. *)
Fixpoint roll_at (w : nat) (values : list float) (i : nat) : roll :=
  match i with
  | O => add_mean (nth 0 values nan) (roll_setup (nth 0 values nan))
  | S j =>
      if (w <=? 1)%nat
      then add_mean (nth i values nan) (roll_setup (nth i values nan))
      else
        let st := roll_at w values j in
        let st := if (w <=? i)%nat
                  then remove_mean (nth (i - w) values nan) st else st in
        add_mean (nth i values nan) st
  end.

(** [min_periods] defaults to the window [w]; a window of no rows never
    holds a cell, so every row is [NaN]. *)
Definition rolling_mean (w : nat) (xs : list float) : list float :=
  let values := map finite_or_nan xs in
  map (fun i => if (w =? 0)%nat then nan else calc_mean w (roll_at w values i))
      (seq 0 (length xs)).

(** The cells an aggregation sees: pandas skips [NaN]. *)
Definition valid (xs : list float) : list float :=
  filter (fun x => negb (isnan x)) xs.

(** The group aggregations ['first'], ['last'], ['max'], ['min'], ['sum'];
    [max_valid] is also the row-wise [max(axis=1)]. *)
Definition first_valid (xs : list float) : float := hd nan (valid xs).
Definition last_valid (xs : list float) : float := last (valid xs) nan.

Definition max_valid (xs : list float) : float :=
  match valid xs with
  | [] => nan
  | vs => fold_left (fun m v => if fgt v m then v else m) vs neg_infinity
  end.

Definition min_valid (xs : list float) : float :=
  match valid xs with
  | [] => nan
  | vs => fold_left (fun m v => if flt v m then v else m) vs infinity
  end.

(** The ['sum'] of a group is [group_sum] (pandas/_libs/groupby.pyx):
    Kahan's compensated sum of the cells that are not [NaN], the
    compensation being reset to 0 when an infinity has made it [NaN]; a
    group without such a cell sums to 0. *)
Definition kahan_add (acc : float * float) (val : float) : float * float :=
  let (sumx, compensation) := acc in
  let y := fsub val compensation in
  let t := fadd sumx y in
  let c := fsub (fsub t sumx) y in
  (t, if isnan c then zero else c).

Definition sum_valid (xs : list float) : float :=
  fst (fold_left kahan_add (valid xs) (zero, zero)).

(** ** [s.mean()]

    [nanops.nanmean] replaces the [NaN] cells by 0, takes numpy's [sum] of
    the column and divides by the number of cells that were not [NaN]; the
    mean is [NaN] when there is none.  numpy's [sum] of a contiguous float
    column is the pairwise summation of umath/loops_utils.h, added to the
    identity 0: fewer than 8 cells are added from left to right; up to
    [PW_BLOCKSIZE] cells go into eight interleaved accumulators, which
    are then added in pairs, and the [n mod 8] cells left over are added
    one by one; a longer column is cut at [n / 2] rounded down to a multiple
    of 8 and the sums of the two parts are added. *)
Definition total (xs : list float) : float := fold_left fadd xs zero.

Definition PW_BLOCKSIZE : nat := 128.

(** [groups] rounds of [r[k] += a[i + k]] for [k = 0 .. 7]; returns the
    accumulators and the cells not yet read. *)
Fixpoint accumulate8 (groups : nat) (r xs : list float)
  : list float * list float :=
  match groups with
  | O => (r, xs)
  | S g => accumulate8 g (zip_with fadd r (firstn 8 xs)) (skipn 8 xs)
  end.

Definition block_sum (xs : list float) : float :=
  let n := length xs in
  if (n <? 8)%nat then total xs
  else
    match accumulate8 (n / 8 - 1) (firstn 8 xs) (skipn 8 xs) with
    | ([r0; r1; r2; r3; r4; r5; r6; r7], rest) =>
        fold_left fadd rest
          (fadd (fadd (fadd r0 r1) (fadd r2 r3))
                (fadd (fadd r4 r5) (fadd r6 r7)))
    | _ => nan
    end.

(** Each cut leaves two shorter parts, so [length xs] levels of recursion
    are never used up ([pairwise_sum_fuel] below). *)
Fixpoint pairwise_sum (fuel : nat) (xs : list float) : float :=
  match fuel with
  | O => block_sum xs
  | S fuel' =>
      let n := length xs in
      if (n <=? PW_BLOCKSIZE)%nat then block_sum xs
      else
        let n2 := (n / 2 - (n / 2) mod 8)%nat in
        fadd (pairwise_sum fuel' (firstn n2 xs))
             (pairwise_sum fuel' (skipn n2 xs))
  end.

Definition numpy_sum (xs : list float) : float :=
  fadd zero (pairwise_sum (length xs) xs).

Definition mean (xs : list float) : float :=
  let count := length (valid xs) in
  if (count =? 0)%nat then nan
  else fdiv (numpy_sum (map (fun x => if isnan x then zero else x) xs))
            (float_of_nat count).

(** [s.ffill()]: a [NaN] cell takes the last value seen above it. *)
Fixpoint ffill_from (prev : float) (xs : list float) : list float :=
  match xs with
  | [] => []
  | x :: t =>
      let v := if isnan x then prev else x in
      v :: ffill_from v t
  end.

Definition ffill (xs : list float) : list float := ffill_from nan xs.

(** [s.reindex(index)] for a series [s] given by its labels and cells: each
    label of [index] takes the cell stored under it, [NaN] when [s] has no
    such label. *)
Fixpoint cell_at (labels : list Z) (cells : list float) (t : Z) : float :=
  match labels, cells with
  | l :: labels', c :: cells' => if l =? t then c else cell_at labels' cells' t
  | _, _ => nan
  end.

Definition reindex (labels : list Z) (cells : list float) (index : list Z)
  : list float :=
  map (cell_at labels cells) index.

(** [trend[mask] = v] *)
Definition mask_set (trend : list Z) (mask : list bool) (v : Z) : list Z :=
  zip_with (fun t (m : bool) => if m then v else t) trend mask.

(** [(s.diff() != 0).sum()] for an integer series [s]: [diff] turns it into
    floats with a leading [NaN], and [NaN != 0] holds. *)
Definition count_changes (s : list Z) : Z :=
  Z.of_nat (length (filter (fun d => fne d zero) (diff (map float_of_Z s)))).

End Pandas.

(* ================================================================== *)
(** * The world the scripts run in *)
(* ================================================================== *)

(** The record [save_analysis] writes, field by field as the JSON file has
    it. *)
Module Snapshot.

Record trending_asset : Type := {
  symbol : string;
  trend : string;
  price : value;
  sma : value;
  distance : float
}.

Record market_summary : Type := {
  total_assets : Z;
  assets_in_uptrend : Z;
  assets_in_downtrend : Z;
  assets_in_neutral : Z;
  uptrend_percentage : pynum;
  downtrend_percentage : pynum;
  neutral_percentage : pynum
}.

Record analysis_data : Type := {
  timestamp : string;
  interval : string;
  summary : market_summary;
  top_trending_assets : list trending_asset
}.

End Snapshot.

Module Runtime.
Import Pandas.

(** *** Files *)

(** A file of the cache directory: a table written by [to_parquet], the
    symbol list written by [json.dump], or bytes that neither reader
    accepts. *)
Inductive cache_content : Type :=
| Parquet (df : table)
| SymbolList (symbols : list string)
| Unreadable.

Record cache_file : Type := {
  cache_name : string;
  cache_mtime : Z;
  cache_data : cache_content
}.

(** A file of the snapshot directory: a record [json.load] parses, or text
    it rejects (a dump that stopped half-way, say). *)
Inductive snapshot_content : Type :=
| Json (record : Snapshot.analysis_data)
| Unparsable.

Record snapshot_file : Type := {
  snapshot_name : string;
  snapshot_mtime : Z;
  snapshot_data : snapshot_content
}.

(** *** What the process emits *)

Inductive message : Type :=
| Fetching_data (symbol : string) (idx total : Z)
| Fetching_points (points : Z) (symbol : string)
| No_kline_data (symbol : string)
| Error_fetching_kline (symbol : string) (e : exn)
| Error_reading_cache (symbol : string) (e : exn)
| Error_saving_cache (symbol : string) (e : exn)
| Error_reading_symbols_cache (e : exn)
| Error_saving_symbols_cache (e : exn)
| Fetched_symbols (count : Z)
| Error_fetching_symbols (e : exn)
| No_symbols_fetched
| Saved_analysis (filename : string)
| No_analysis_found (interval : string)
| Error_loading_analysis (e : exn).

Inductive line : Type :=
| Starting (days : Z) (interval : string)
| Validating
| Skipping (symbol : string)
| Analyzing (count : Z)
| Results (record : Snapshot.analysis_data)
| Comparison_header
| Uptrend_change (delta : float)
| Downtrend_change (delta : float).

Inductive event : Type :=
| Log_info (m : message)
| Log_warning (m : message)
| Log_error (m : message)
| Printed (l : line)
| Slept (milliseconds : Z).

(** *** What the outside answers

    Everything the code asks of the operating system and of the exchange
    is an oracle indexed by the number of questions asked so far, so that
    no two answers need agree. *)

(** The longest file name the file system takes, in bytes. *)
Definition NAME_MAX : nat := 255.

Inductive kline_reply : Type :=
| Kline_raises (e : exn)
| Kline_response (rows : option (list (list string))).

Inductive instruments_reply : Type :=
| Instruments_raise (e : exn)
| Instruments_response (symbols : list string).

Record env : Type := {
  (** the system clock, in milliseconds *)
  clock : nat -> Z;
  (** [strftime('%Y%m%d_%H%M%S')] and [isoformat()] of an instant *)
  strftime : Z -> string;
  isoformat : Z -> string;
  (** [session.get_kline(category, symbol, interval, start, end, limit)] *)
  get_kline : nat -> string -> DataFetcher.interval_arg -> Z -> Z -> Z
              -> kline_reply;
  (** [session.get_instruments_info(category, status)] *)
  get_instruments_info : nat -> instruments_reply;
  (** whether creating the named file (or, for a cache file, writing it)
      fails: nothing is left behind *)
  write_fails : nat -> string -> bool;
  (** whether [json.dump] into a file just created is cut short by the
      device: what was written so far stays *)
  dump_fails : nat -> string -> bool;
  (** [pd.to_numeric] on one cell, and [pd.to_numeric] followed by
      [pd.to_datetime(unit='ms')] on one cell: [None] when pandas refuses
      the text.  The empty text also stands for the [None] that pads a short
      row; pandas reads either as a missing value. *)
  to_numeric : string -> option float;
  to_timestamp : string -> option Z;
  (** no file can be created under a name longer than [NAME_MAX] *)
  long_names_refused :
    forall (k : nat) (name : string),
      (NAME_MAX < String.length name)%nat -> write_fails k name = true
}.

Record state : Type := {
  ticks : nat;
  cache_dir : list cache_file;
  base_dir : list snapshot_file;
  trace : list event
}.

(** *** The monad: state, and exceptions that keep the state reached *)

Definition M (A : Type) : Type := env -> state -> result A * state.

Definition ret {A : Type} (a : A) : M A := fun _ s => (Ok a, s).

Definition raise {A : Type} (e : exn) : M A := fun _ s => (Raise e, s).

Definition mbind {A B : Type} (c : M A) (k : A -> M B) : M B :=
  fun w s =>
    match c w s with
    | (Ok a, s') => k a w s'
    | (Raise e, s') => (Raise e, s')
    end.

(** [try: c  except Exception as e: h e] *)
Definition try_except {A : Type} (c : M A) (h : exn -> M A) : M A :=
  fun w s =>
    match c w s with
    | (Ok a, s') => (Ok a, s')
    | (Raise e, s') => h e w s'
    end.

Definition lift {A : Type} (r : result A) : M A := fun _ s => (r, s).

Declare Scope run_scope.
Delimit Scope run_scope with run.

Notation "x <~ c ;; k" := (mbind c (fun x => k))
  (at level 61, c at next level, right associativity) : run_scope.
Notation "c ;;; k" := (mbind c (fun _ => k))
  (at level 61, right associativity) : run_scope.

Local Open Scope run_scope.

Definition emit (e : event) : M unit :=
  fun _ s =>
    (Ok tt, {| ticks := ticks s; cache_dir := cache_dir s;
               base_dir := base_dir s; trace := trace s ++ [e] |}).

(** The index of the next question to the outside. *)
Definition tick : M nat :=
  fun _ s =>
    (Ok (ticks s),
     {| ticks := S (ticks s); cache_dir := cache_dir s;
        base_dir := base_dir s; trace := trace s |}).

Definition ask {A : Type} (q : env -> nat -> A) : M A :=
  fun w s => mbind tick (fun k => ret (q w k)) w s.

(** [time.time()], [datetime.now()] *)
Definition now : M Z := ask clock.

Definition sleep (milliseconds : Z) : M unit := emit (Slept milliseconds).

Fixpoint find_cache (files : list cache_file) (name : string)
  : option cache_file :=
  match files with
  | [] => None
  | f :: files' =>
      if String.eqb (cache_name f) name then Some f
      else find_cache files' name
  end.

(** [path.exists()] and [path.stat()].  A name that is in the directory is
    found; for one that is not, [exists()] answers [False] unless the name is
    longer than the file system takes: then the system call fails with
    [ENAMETOOLONG], which pathlib does not take for an answer and lets out
    as an [OSError]. *)
Definition stat_cache (name : string) : M (option cache_file) :=
  fun _ s =>
    match find_cache (cache_dir s) name with
    | Some f => (Ok (Some f), s)
    | None =>
        if (NAME_MAX <? String.length name)%nat then (Raise OSError, s)
        else (Ok None, s)
    end.

(** Writing a file replaces the one of that name or adds a new one. *)
Fixpoint put_cache (files : list cache_file) (f : cache_file)
  : list cache_file :=
  match files with
  | [] => [f]
  | g :: files' =>
      if String.eqb (cache_name g) (cache_name f) then f :: files'
      else g :: put_cache files' f
  end.

Fixpoint put_snapshot (files : list snapshot_file) (f : snapshot_file)
  : list snapshot_file :=
  match files with
  | [] => [f]
  | g :: files' =>
      if String.eqb (snapshot_name g) (snapshot_name f) then f :: files'
      else g :: put_snapshot files' f
  end.

Definition store_cache (f : cache_file) : M unit :=
  fun _ s =>
    (Ok tt, {| ticks := ticks s; cache_dir := put_cache (cache_dir s) f;
               base_dir := base_dir s; trace := trace s |}).

Definition store_snapshot (f : snapshot_file) : M unit :=
  fun _ s =>
    (Ok tt, {| ticks := ticks s; cache_dir := cache_dir s;
               base_dir := put_snapshot (base_dir s) f;
               trace := trace s |}).

(** Writing a whole cache file: it fails as a whole or is stamped with the
    time of writing. *)
Definition write_cache (name : string) (data : cache_content) : M unit :=
  failed <~ ask (fun w k => write_fails w k name) ;;
  if failed : bool then raise OSError
  else
    t <~ now ;;
    store_cache {| cache_name := name; cache_mtime := t;
                   cache_data := data |}.

Definition list_snapshots : M (list snapshot_file) :=
  fun _ s => (Ok (base_dir s), s).

(** [for x in items: body x] with the loop variables in [acc]. *)
Fixpoint for_loop {S A : Type} (body : S -> A -> M S) (acc : S)
  (items : list A) : M S :=
  match items with
  | [] => ret acc
  | x :: items' => acc' <~ body acc x ;; for_loop body acc' items'
  end.

End Runtime.

(* ================================================================== *)
(** * src/market_b.py: the Moving-Average pipeline *)
(* ================================================================== *)

Module MarketB.
Import Pandas.

(** [SMAIndicator(period)]; a negative window is refused by pandas, so the
    period is a natural number. *)
Record SMAIndicator : Type := { period : nat }.

(** The frame [SMAIndicator.calculate] returns: the input rows (their column
    names capitalised) and the new ['SMA'] column. *)
Record sma_frame : Type := {
  sma_rows : table;
  sma_SMA : list float
}.

(** [SMAIndicator.calculate], lines 28-39. *)
Definition calculate (self : SMAIndicator) (df : table) : sma_frame :=
  {| sma_rows := df;
     sma_SMA := rolling_mean (period self) (map close df) |}.

Record TrendDetector : Type := { sma_indicator : SMAIndicator }.

(** The frame [detect_trend] returns. *)
Record trend_frame : Type := {
  rows : table;
  SMA : list float;
  SMA_Change : list float;
  Trend : list Z
}.

(** The two boolean masks of [detect_trend]. *)
Definition up_mask (closes sma change : list float) : list bool :=
  zip_with andb (zip_with fgt closes sma) (map (fun c => fgt c zero) change).

Definition down_mask (closes sma change : list float) : list bool :=
  zip_with andb (zip_with flt closes sma) (map (fun c => flt c zero) change).

(** [TrendDetector.detect_trend], lines 45-71. *)
Definition detect_trend (self : TrendDetector) (df : table) : trend_frame :=
  let result_df := calculate (sma_indicator self) df in
  let sma := sma_SMA result_df in
  let closes := map close (sma_rows result_df) in
  let change := diff sma in
  let trend := map (fun _ => 0) df in
  let trend := mask_set trend (up_mask closes sma change) 1 in
  let trend := mask_set trend (down_mask closes sma change) (-1) in
  {| rows := sma_rows result_df;
     SMA := sma;
     SMA_Change := change;
     Trend := trend |}.

Record MarketAnalyzer : Type := { trend_detector : TrendDetector }.

(** [(last / earlier - 1) * 100] *)
Definition pct_change (last earlier : float) : float :=
  fmul (fsub (fdiv last earlier) one) (float_of_Z 100).

(** [MarketAnalyzer.analyze_asset], lines 122-143.  The entries of the dict
    literal are evaluated in the order written. *)
Definition analyze_asset (self : MarketAnalyzer) (df : table)
  : result (dict value) :=
  let analysis_df := detect_trend (trend_detector self) df in
  let closes := map close (rows analysis_df) in
  current_trend <- iloc (Trend analysis_df) (-1) ;;
  let trend_changes := count_changes (Trend analysis_df) in
  last_price <- iloc closes (-1) ;;
  price_change_24h <-
    (if 24 <=? Z.of_nat (length (rows analysis_df)) then
       last <- iloc closes (-1) ;;
       earlier <- iloc closes (-24) ;;
       Ok (VFloat (pct_change last earlier))
     else Ok VNone) ;;
  sma <- iloc (SMA analysis_df) (-1) ;;
  Ok [ ("current_trend", VInt current_trend);
       ("trend_changes", VInt trend_changes);
       ("last_price", VFloat last_price);
       ("price_change_24h", price_change_24h);
       ("sma", VFloat sma) ].

(** The [market_stats] dict literal always has these four keys; a percentage
    is the integer [0] when no asset qualified and a float otherwise. *)
Record market_stats : Type := {
  total_assets : Z;
  uptrend_percentage : pynum;
  downtrend_percentage : pynum;
  neutral_percentage : pynum
}.

(** [(count / valid_assets * 100) if valid_assets > 0 else 0]: true division
    of two ints, then a float product. *)
Definition percentage (count valid_assets : Z) : pynum :=
  if 0 <? valid_assets then
    PFloat (fmul (fdiv (float_of_Z count) (float_of_Z valid_assets))
                 (float_of_Z 100))
  else PInt 0.

(** The loop state of [analyze_market]. *)
Record tally : Type := {
  assets_analysis : dict (dict value);
  valid_assets : Z;
  uptrend_count : Z;
  downtrend_count : Z
}.

(** [v == z] for an integer literal [z] *)
Definition value_is (v : value) (z : Z) : bool :=
  match v with
  | VInt n => n =? z
  | VFloat f => PrimFloat.eqb f (float_of_Z z)
  | VNone => false
  end.

(** Lines 99-105 (and 189-195 of src/market_a.py): the asset is stored and
    the counters move. *)
Definition record_asset (acc : tally) (symbol : string)
  (analysis : dict value) (trend : value) : tally :=
  {| assets_analysis := dict_set (assets_analysis acc) symbol analysis;
     valid_assets := valid_assets acc + 1;
     uptrend_count :=
       if value_is trend 1 then uptrend_count acc + 1
       else uptrend_count acc;
     downtrend_count :=
       if value_is trend 1 then downtrend_count acc
       else if value_is trend (-1) then downtrend_count acc + 1
       else downtrend_count acc |}.

(** One iteration of the loop of [analyze_market], lines 93-105. *)
Definition analyze_step (self : MarketAnalyzer) (acc : tally)
  (item : string * table) : result tally :=
  let (symbol, df) := item in
  if (length df <? period (sma_indicator (trend_detector self)))%nat
  then Ok acc
  else
    analysis <- analyze_asset self df ;;
    trend <- dict_get analysis "current_trend" ;;
    Ok (record_asset acc symbol analysis trend).

Fixpoint for_each {S A : Type} (step : S -> A -> result S) (acc : S)
  (items : list A) : result S :=
  match items with
  | [] => Ok acc
  | x :: items' => acc' <- step acc x ;; for_each step acc' items'
  end.

(** [MarketAnalyzer.analyze_market], lines 83-120. *)
Definition analyze_market (self : MarketAnalyzer) (market_data : dict table)
  : result (market_stats * dict (dict value)) :=
  t <- for_each (analyze_step self)
         {| assets_analysis := []; valid_assets := 0;
            uptrend_count := 0; downtrend_count := 0 |}
         market_data ;;
  let n := valid_assets t in
  Ok ({| total_assets := n;
         uptrend_percentage := percentage (uptrend_count t) n;
         downtrend_percentage := percentage (downtrend_count t) n;
         neutral_percentage :=
           percentage (n - uptrend_count t - downtrend_count t) n |},
      assets_analysis t).

End MarketB.

(* ================================================================== *)
(** * src/market_a.py: the Volatility-Band pipeline *)
(* ================================================================== *)

Module MarketA.
Import Pandas.

(** [ModifiedATR(period, resample_interval, multiplier)] *)
Record ModifiedATR : Type := {
  period : nat;
  resample_interval : Z;
  multiplier : float
}.

Definition day_ms : Z := 86400000.
Definition minute_ms : Z := 60000.

Definition ts_min (ts : list Z) : Z := fold_right Z.min (hd 0 ts) ts.
Definition ts_max (ts : list Z) : Z := fold_right Z.max (hd 0 ts) ts.

(** The left edge of the first bucket: pandas anchors the bins of
    [df.resample('<n>min')] at midnight of the first row's day (the default
    [origin='start_day']) and starts with the bin holding the earliest
    row. *)
Definition first_edge (width : Z) (ts : list Z) : Z :=
  let first := ts_min ts in
  let origin := first / day_ms * day_ms in
  first - (first - origin) mod width.

(** The bins run up to the one holding the latest row, empty ones
    included. *)
Definition bucket_count (width : Z) (ts : list Z) : nat :=
  Z.to_nat ((ts_max ts - first_edge width ts) / width + 1).

(** The label of a bin is its left edge ([label='left'], the default). *)
Definition bucket_label (width : Z) (ts : list Z) (k : nat) : Z :=
  first_edge width ts + Z.of_nat k * width.

(** Whether a row falls in the bin labelled [lo]: bins are closed on the
    left ([closed='left'], the default). *)
Definition in_bucket (width lo : Z) (r : candle) : bool :=
  (lo <=? timestamp r) && (timestamp r <? lo + width).

(** One row of the resampled frame. *)
Record ohlcv : Type := {
  label : Z;
  Open : float;
  High : float;
  Low : float;
  Close : float;
  Volume : float
}.

(** [.agg({'Open': 'first', 'High': 'max', 'Low': 'min', 'Close': 'last',
    'Volume': 'sum'})] on the rows of one bin. *)
Definition aggregate (lo : Z) (members : table) : ohlcv :=
  {| label := lo;
     Open := first_valid (map open members);
     High := max_valid (map high members);
     Low := min_valid (map low members);
     Close := last_valid (map close members);
     Volume := sum_valid (map volume members) |}.

Definition by_timestamp (a b : candle) : bool := timestamp a <? timestamp b.

(** The frame [df.resample(...).agg(...)] yields for a positive bin width
    (in milliseconds): pandas sorts the rows by time, stably, before
    binning them. *)
Definition bucket_rows (width : Z) (df : table) : list ohlcv :=
  let ts := map timestamp df in
  let sorted := sort_by by_timestamp df in
  match df with
  | [] => []
  | _ :: _ =>
      map (fun k =>
             let lo := bucket_label width ts k in
             aggregate lo (filter (in_bucket width lo) sorted))
          (seq 0 (bucket_count width ts))
  end.

(** [ModifiedATR.resample_to_interval], lines 42-65.  pandas has no bins
    for a width that is not positive: anchoring the first bin divides by
    the width, which raises [ZeroDivisionError] for ['0min'], and a negative
    width leaves no bin to put the rows in, a [ValueError]. *)
Definition resample_to_interval (self : ModifiedATR) (df : table)
  : result (list ohlcv) :=
  if resample_interval self =? 0 then Raise ZeroDivisionError
  else if resample_interval self <? 0 then Raise ValueError
  else Ok (bucket_rows (resample_interval self * minute_ms) df).

(** [_calculate_true_range], lines 30-35: the row-wise maximum of the three
    ranges, a [NaN] one skipped. *)
Definition _calculate_true_range (high low close : list float) : list float :=
  let tr1 := zip_with fsub high low in
  let tr2 := map fabs (zip_with fsub high (shift close)) in
  let tr3 := map fabs (zip_with fsub low (shift close)) in
  zip_with (fun a bc => max_valid [a; fst bc; snd bc]) tr1 (combine tr2 tr3).

(** [_calculate_atr], lines 37-40. *)
Definition _calculate_atr (self : ModifiedATR) (high low close : list float)
  : list float :=
  rolling_mean (period self) (_calculate_true_range high low close).

(** The frame [ModifiedATR.calculate] returns: the input rows and one
    [Resample_<interval>_<col>] column per column of the resampled frame. *)
Record atr_frame : Type := {
  rows : table;
  Resample_Open : list float;
  Resample_High : list float;
  Resample_Low : list float;
  Resample_Close : list float;
  Resample_Volume : list float;
  Resample_ATR : list float;
  Resample_CloseChange : list float;
  Resample_AbsCloseChange : list float
}.

(** [resampled[col].reindex(df.index).ffill()], lines 99-102: a row whose
    timestamp is a bin label takes that bin's cell, the others start as
    [NaN], and the forward fill then runs over the original row order. *)
Definition carry_back (labels : list Z) (cells : list float) (df : table)
  : list float :=
  ffill (reindex labels cells (map timestamp df)).

(** Lines 86-93 of [ModifiedATR.calculate]: the three indicator columns
    added to the resampled frame. *)
Definition atr_column (self : ModifiedATR) (resampled : list ohlcv)
  : list float :=
  map (fun a => fmul a (multiplier self))
      (_calculate_atr self (map High resampled) (map Low resampled)
         (map Close resampled)).

Definition close_change_column (resampled : list ohlcv) : list float :=
  diff (map Close resampled).

Definition abs_close_change_column (resampled : list ohlcv) : list float :=
  map fabs (close_change_column resampled).

(** Lines 95-102 of [ModifiedATR.calculate]: every column of the resampled
    frame is merged back. *)
Definition merge_back (self : ModifiedATR) (df : table)
  (resampled : list ohlcv) : atr_frame :=
  let labels := map label resampled in
  {| rows := df;
     Resample_Open := carry_back labels (map Open resampled) df;
     Resample_High := carry_back labels (map High resampled) df;
     Resample_Low := carry_back labels (map Low resampled) df;
     Resample_Close := carry_back labels (map Close resampled) df;
     Resample_Volume := carry_back labels (map Volume resampled) df;
     Resample_ATR := carry_back labels (atr_column self resampled) df;
     Resample_CloseChange :=
       carry_back labels (close_change_column resampled) df;
     Resample_AbsCloseChange :=
       carry_back labels (abs_close_change_column resampled) df |}.

(** The columns of the resampled frame and of the returned frame, in the
    order in which the loop of lines 99-102 visits them. *)
Definition resampled_columns (self : ModifiedATR) (resampled : list ohlcv)
  : list (list float) :=
  [ map Open resampled; map High resampled; map Low resampled;
    map Close resampled; map Volume resampled; atr_column self resampled;
    close_change_column resampled; abs_close_change_column resampled ].

Definition carried_columns (f : atr_frame) : list (list float) :=
  [ Resample_Open f; Resample_High f; Resample_Low f; Resample_Close f;
    Resample_Volume f; Resample_ATR f; Resample_CloseChange f;
    Resample_AbsCloseChange f ].

(** [ModifiedATR.calculate], lines 67-109. *)
Definition calculate (self : ModifiedATR) (df : table) : result atr_frame :=
  resampled <- resample_to_interval self df ;;
  Ok (merge_back self df resampled).

(** [TrendDetector(volatility_indicator, trend_period,
    volatility_multiplier)] *)
Record TrendDetector : Type := {
  volatility_indicator : ModifiedATR;
  trend_period : nat;
  volatility_multiplier : float
}.

(** The frame [detect_trend] returns. *)
Record trend_frame : Type := {
  frame : atr_frame;
  MA : list float;
  UpperBand : list float;
  LowerBand : list float;
  Trend : list Z
}.

(** Lines 125-145 of [TrendDetector.detect_trend]: the bands around the
    moving average of the resampled close, and the classification. *)
Definition bands (self : TrendDetector) (df : table) (result_df : atr_frame)
  : trend_frame :=
  let atr := Resample_ATR result_df in
  let closes := Resample_Close result_df in
  let ma := rolling_mean (trend_period self) closes in
  let offset := map (fun a => fmul a (volatility_multiplier self)) atr in
  let upper_band := zip_with fadd ma offset in
  let lower_band := zip_with fsub ma offset in
  let trend := map (fun _ => 0) df in
  let trend := mask_set trend (zip_with fgt closes upper_band) 1 in
  let trend := mask_set trend (zip_with flt closes lower_band) (-1) in
  {| frame := result_df;
     MA := ma;
     UpperBand := upper_band;
     LowerBand := lower_band;
     Trend := trend |}.

(** [TrendDetector.detect_trend], lines 120-147. *)
Definition detect_trend (self : TrendDetector) (df : table)
  : result trend_frame :=
  result_df <- calculate (volatility_indicator self) df ;;
  Ok (bands self df result_df).

Record MarketAnalyzer : Type := {
  trend_detector : TrendDetector;
  min_volatility : option float
}.

(** [(last / earlier - 1) * 100] *)
Definition pct_change (last earlier : float) : float :=
  fmul (fsub (fdiv last earlier) one) (float_of_Z 100).

(** [MarketAnalyzer.analyze_asset], lines 212-253.  The resampled ATR
    column is always among the columns [calculate] adds, so the two
    [if volatility_col in analysis_df.columns] tests hold. *)
Definition analyze_asset (self : MarketAnalyzer) (df : table)
  : result (dict value) :=
  analysis_df <- detect_trend (trend_detector self) df ;;
  let volatility := Resample_ATR (frame analysis_df) in
  let closes := map close (rows (frame analysis_df)) in
  current_trend <- iloc (Trend analysis_df) (-1) ;;
  let avg_volatility := mean volatility in
  current_volatility <- iloc volatility (-1) ;;
  let trend_changes := count_changes (Trend analysis_df) in
  last_price <- iloc closes (-1) ;;
  price_change_24h <-
    (if 24 <=? Z.of_nat (length (rows (frame analysis_df))) then
       last <- iloc closes (-1) ;;
       earlier <- iloc closes (-24) ;;
       Ok (VFloat (pct_change last earlier))
     else Ok VNone) ;;
  Ok [ ("current_trend", VInt current_trend);
       ("avg_volatility", VFloat avg_volatility);
       ("current_volatility", VFloat current_volatility);
       ("trend_changes", VInt trend_changes);
       ("last_price", VFloat last_price);
       ("price_change_24h", price_change_24h) ].

(** The statistics record, the percentage expression and the loop state are
    those of the Moving-Average pipeline: the two files spell them
    identically. *)
Definition market_stats : Type := MarketB.market_stats.
Definition percentage : Z -> Z -> pynum := MarketB.percentage.

(** [analysis['avg_volatility'] < self.min_volatility] *)
Definition below_threshold (v : value) (threshold : float) : result bool :=
  match v with
  | VFloat f => Ok (flt f threshold)
  | VInt z => Ok (flt (float_of_Z z) threshold)
  | VNone => Raise TypeError
  end.

(** One iteration of the loop of [analyze_market], lines 177-195. *)
Definition analyze_step (self : MarketAnalyzer) (acc : MarketB.tally)
  (item : string * table) : result MarketB.tally :=
  let (symbol, df) := item in
  if (length df <? 20)%nat then Ok acc
  else
    analysis <- analyze_asset self df ;;
    skip <-
      (match min_volatility self with
       | Some threshold =>
           v <- dict_get analysis "avg_volatility" ;;
           below_threshold v threshold
       | None => Ok false
       end) ;;
    if skip : bool then Ok acc
    else
      trend <- dict_get analysis "current_trend" ;;
      Ok (MarketB.record_asset acc symbol analysis trend).

(** [MarketAnalyzer.analyze_market], lines 163-210. *)
Definition analyze_market (self : MarketAnalyzer) (market_data : dict table)
  : result (market_stats * dict (dict value)) :=
  t <- MarketB.for_each (analyze_step self)
         (MarketB.Build_tally [] 0 0 0) market_data ;;
  let n := MarketB.valid_assets t in
  Ok (MarketB.Build_market_stats n
        (percentage (MarketB.uptrend_count t) n)
        (percentage (MarketB.downtrend_count t) n)
        (percentage (n - MarketB.uptrend_count t - MarketB.downtrend_count t)
           n),
      MarketB.assets_analysis t).

End MarketA.

(* ================================================================== *)
(** * src/data_fetcher.py: the cached scan *)
(* ================================================================== *)

Module Fetcher.
Import Pandas Runtime DataFetcher.
Local Open Scope run_scope.

(** [_get_cache_path], lines 39-43, relative to the cache directory. *)
Definition _get_cache_path (symbol : string) (interval : interval_arg)
  : string :=
  let interval_str :=
    match interval with
    | IStr s => s
    | IInt n => String.append (string_of_Z n) "min"
    end in
  String.append symbol
    (String.append "_" (String.append interval_str ".parquet")).

(** [self.cache_duration], four hours, in milliseconds. *)
Definition cache_duration : Z := 4 * 60 * 60 * 1000.


(** [_is_cache_valid], lines 45-51: the clock is read only when the file
    exists.  Line 50 raises on a modification time that
    [datetime.fromtimestamp] does not convert; the age is computed here
    for any stamp, which is the age the code computes for the
    [representable] ones. *)
Definition _is_cache_valid (name : string) : M bool :=
  found <~ stat_cache name ;;
  match found with
  | None => ret false
  | Some f => t <~ now ;; ret (t - cache_mtime f <? cache_duration)
  end.

(** [pd.read_parquet(cache_path)] *)
Definition read_parquet (name : string) : M table :=
  found <~ stat_cache name ;;
  match found with
  | Some {| cache_data := Parquet df |} => ret df
  | _ => raise OSError
  end.

(** Lines 133-147: the frame built from the rows of the response.

    [pd.DataFrame(rows, columns=[...])] makes the frame as wide as the
    longest row, padding the shorter ones with [None], and raises
    [ValueError] when that width is not the seven columns named.  Then
    [pd.to_numeric] raises on a timestamp it cannot read, and with
    [errors='coerce'] turns any other cell it cannot read into [NaN]. *)
Definition width (rows : list (list string)) : nat :=
  fold_right (fun r m => Nat.max (length r) m) 0%nat rows.

(** The text of a cell, empty where the row was padded. *)
Definition cell (cells : list string) (i : nat) : string :=
  nth i cells EmptyString.

Definition coerce (cell : option float) : float :=
  match cell with
  | Some x => x
  | None => nan
  end.

(** The cells are kept as floats.  A column whose texts are all integer
    literals is an [int64] column in pandas, holding the same numbers; the
    analyzers compute the same from it. *)
Definition parse_row (w : env) (cells : list string) : result candle :=
  match to_timestamp w (cell cells 0) with
  | Some ts =>
      Ok {| timestamp := ts;
            open := coerce (to_numeric w (cell cells 1));
            high := coerce (to_numeric w (cell cells 2));
            low := coerce (to_numeric w (cell cells 3));
            close := coerce (to_numeric w (cell cells 4));
            volume := coerce (to_numeric w (cell cells 5));
            turnover := coerce (to_numeric w (cell cells 6)) |}
  | None => Raise ValueError
  end.

Fixpoint parse_cells (w : env) (rows : list (list string))
  : result table :=
  match rows with
  | [] => Ok []
  | r :: rows' =>
      (c <- parse_row w r ;; df <- parse_cells w rows' ;; Ok (c :: df))%py
  end.

Definition parse_rows (w : env) (rows : list (list string))
  : result table :=
  if (width rows =? 7)%nat then parse_cells w rows else Raise ValueError.

(** [df.sort_values('timestamp').reset_index(drop=True)]; rows with equal
    timestamps are left in the order received. *)
Definition build_frame (rows : list (list string)) : M table :=
  fun w s =>
    lift ((df <- parse_rows w rows ;;
           Ok (sort_by (fun a b => timestamp a <? timestamp b) df))%py) w s.

(** Lines 96-104 of [get_kline_data]: the cached table, when it is fresh,
    readable and long enough. *)
Definition from_cache (symbol : string) (interval : interval_arg) (days : Z)
  (use_cache : bool) : M (option table) :=
  let cache_path := _get_cache_path symbol interval in
  valid <~ (if use_cache then _is_cache_valid cache_path else ret false) ;;
  if valid : bool then
    try_except
      (df <~ read_parquet cache_path ;;
       required_points <~ lift (calculate_required_points days interval) ;;
       if required_points <=? Z.of_nat (length df)
       then ret (Some (tail_rows df required_points))
       else ret None)
      (fun e => emit (Log_warning (Error_reading_cache symbol e)) ;;;
                ret None)
  else ret None.

(** Lines 107-160 of [get_kline_data]: the fresh fetch. *)
Definition fetch_fresh (symbol : string) (interval : interval_arg) (days : Z)
  (use_cache : bool) : M table :=
  try_except
    (end_time <~ now ;;
     points_needed <~ lift (calculate_required_points days interval) ;;
     start_time <~
       (if is_calendar interval
        then ret (end_time - days * 24 * 60 * 60 * 1000)
        else
          minutes <~ lift (interval_minutes interval) ;;
          ret (end_time - minutes * 60 * 1000 * points_needed)) ;;
     emit (Log_info (Fetching_points points_needed symbol)) ;;;
     response <~
       ask (fun w k =>
              get_kline w k symbol interval start_time end_time
                points_needed) ;;
     match response with
     | Kline_raises e => raise e
     | Kline_response None | Kline_response (Some []) =>
         emit (Log_warning (No_kline_data symbol)) ;;; ret []
     | Kline_response (Some rows) =>
         df <~ build_frame rows ;;
         (if use_cache then
            try_except
              (write_cache (_get_cache_path symbol interval) (Parquet df))
              (fun e => emit (Log_warning (Error_saving_cache symbol e)))
          else ret tt) ;;;
         ret df
     end)
    (fun e => emit (Log_error (Error_fetching_kline symbol e)) ;;; ret []).

(** [BybitDataFetcher.get_kline_data], lines 79-160. *)
Definition get_kline_data (symbol : string) (interval : interval_arg)
  (days : Z) (use_cache : bool) : M table :=
  cached <~ from_cache symbol interval days use_cache ;;
  match cached with
  | Some df => ret df
  | None => fetch_fresh symbol interval days use_cache
  end.

Definition symbols_cache : string := "symbols.json".

(** [BybitDataFetcher.get_all_symbols], lines 162-197. *)
Definition get_all_symbols : M (list string) :=
  valid <~ _is_cache_valid symbols_cache ;;
  cached <~
    (if valid : bool then
       try_except
         (found <~ stat_cache symbols_cache ;;
          match found with
          | Some {| cache_data := SymbolList l |} => ret (Some l)
          | _ => raise ValueError
          end)
         (fun e => emit (Log_warning (Error_reading_symbols_cache e)) ;;;
                   ret None)
     else ret None) ;;
  match cached with
  | Some l => ret l
  | None =>
      try_except
        (response <~ ask get_instruments_info ;;
         match response with
         | Instruments_raise e => raise e
         | Instruments_response listed =>
             let symbols := filter (contains "USDT") listed in
             try_except
               (write_cache symbols_cache (SymbolList symbols))
               (fun e =>
                  emit (Log_warning (Error_saving_symbols_cache e))) ;;;
             emit (Log_info (Fetched_symbols (Z.of_nat (length symbols)))) ;;;
             ret symbols
         end)
        (fun e => emit (Log_error (Error_fetching_symbols e)) ;;; ret [])
  end.

(** The body of the loop of [fetch_all_market_data], lines 220-228; the
    loop variables are the dict and the running index. *)
Definition scan_step (interval : interval_arg) (days total : Z)
  (acc : dict table * Z) (symbol : string) : M (dict table * Z) :=
  let (market_data, idx) := acc in
  emit (Log_info (Fetching_data symbol idx total)) ;;;
  df <~ get_kline_data symbol interval days true ;;
  let market_data :=
    match df with
    | [] => market_data
    | _ :: _ => dict_set market_data symbol df
    end in
  sleep 100 ;;;
  ret (market_data, idx + 1).

(** [BybitDataFetcher.fetch_all_market_data], lines 199-230. *)
Definition fetch_all_market_data (interval : interval_arg) (days : Z)
  : M (dict table) :=
  symbols <~ get_all_symbols ;;
  match symbols with
  | [] => emit (Log_error No_symbols_fetched) ;;; ret []
  | _ :: _ =>
      let total_symbols := Z.of_nat (length symbols) in
      acc <~ for_loop (scan_step interval days total_symbols) ([], 1)
               symbols ;;
      ret (fst acc)
  end.

End Fetcher.

(* ================================================================== *)
(** * src/market_storage.py *)
(* ================================================================== *)

Module MarketStorage.
Import Runtime.
Local Open Scope run_scope.

(** *** Arithmetic on the scalars of an analysis *)

Definition to_float (v : value) : result float :=
  match v with
  | VInt z => Ok (float_of_Z z)
  | VFloat f => Ok f
  | VNone => Raise TypeError
  end.

(** [abs(v) == 1] and [v == 1] *)
Definition abs_is_one (v : value) : result bool :=
  match v with
  | VInt z => Ok (Z.abs z =? 1)
  | VFloat f => Ok (PrimFloat.eqb (fabs f) one)
  | VNone => Raise TypeError
  end.

Definition is_one (v : value) : bool :=
  match v with
  | VInt z => z =? 1
  | VFloat f => PrimFloat.eqb f one
  | VNone => false
  end.

(** [abs(price - sma)]: two integers subtract as integers. *)
Definition abs_difference (price sma : value) : result float :=
  match price, sma with
  | VInt p, VInt q => Ok (float_of_Z (Z.abs (p - q)))
  | _, _ =>
      (p <- to_float price ;; q <- to_float sma ;; Ok (fabs (fsub p q)))%py
  end.

(** [abs(price - sma)/sma * 100], line 37. *)
Definition distance_of (price sma : value) : result float :=
  (d <- abs_difference price sma ;;
   q <- to_float sma ;;
   Ok (fmul (fdiv d q) (float_of_Z 100)))%py.

(** One pass of the loop of lines 32-45. *)
Definition trending_step (acc : list Snapshot.trending_asset)
  (item : string * dict value) : result (list Snapshot.trending_asset) :=
  (let (symbol, data) := item in
   current_trend <- dict_get data "current_trend" ;;
   clear <- abs_is_one current_trend ;;
   if clear : bool then
     current_trend' <- dict_get data "current_trend" ;;
     let trend_type := if is_one current_trend' then "uptrend"
                       else "downtrend" in
     price <- dict_get data "last_price" ;;
     sma <- dict_get data "sma" ;;
     distance <- distance_of price sma ;;
     Ok (acc ++ [ {| Snapshot.symbol := symbol;
                     Snapshot.trend := trend_type;
                     Snapshot.price := price;
                     Snapshot.sma := sma;
                     Snapshot.distance := distance |} ])
   else Ok acc)%py.

(** Lines 31-45: the list of assets in a clear trend. *)
Definition trending_assets_of (assets_analysis : dict (dict value))
  : result (list Snapshot.trending_asset) :=
  MarketB.for_each trending_step [] assets_analysis.

(** [key=lambda x: x['distance'], reverse=True]: the larger distance goes
    first. *)
Definition farther (a b : Snapshot.trending_asset) : bool :=
  fgt (Snapshot.distance a) (Snapshot.distance b).

(** [int(total_assets * percentage / 100)], lines 56-58: an integer
    percentage multiplies as an integer, and [/] is the true division. *)
Definition share_count (total_assets : Z) (percentage : pynum) : result Z :=
  match percentage with
  | PInt p => int_of_float (fdiv (float_of_Z (total_assets * p))
                                 (float_of_Z 100))
  | PFloat p => int_of_float (fdiv (fmul (float_of_Z total_assets) p)
                                   (float_of_Z 100))
  end.

(** Lines 54-62. *)
Definition market_summary_of (market_stats : MarketB.market_stats)
  : result Snapshot.market_summary :=
  (let total := MarketB.total_assets market_stats in
   up <- share_count total (MarketB.uptrend_percentage market_stats) ;;
   down <- share_count total (MarketB.downtrend_percentage market_stats) ;;
   neutral <- share_count total (MarketB.neutral_percentage market_stats) ;;
   Ok {| Snapshot.total_assets := total;
         Snapshot.assets_in_uptrend := up;
         Snapshot.assets_in_downtrend := down;
         Snapshot.assets_in_neutral := neutral;
         Snapshot.uptrend_percentage :=
           MarketB.uptrend_percentage market_stats;
         Snapshot.downtrend_percentage :=
           MarketB.downtrend_percentage market_stats;
         Snapshot.neutral_percentage :=
           MarketB.neutral_percentage market_stats |})%py.

(** Lines 30-64: the record to store, before any file is touched. *)
Definition build_analysis_data (iso : string)
  (market_stats : MarketB.market_stats)
  (assets_analysis : dict (dict value)) (interval : string) (top_n : Z)
  : result Snapshot.analysis_data :=
  (trending_assets <- trending_assets_of assets_analysis ;;
   let trending_assets := sort_by farther trending_assets in
   summary <- market_summary_of market_stats ;;
   Ok {| Snapshot.timestamp := iso;
         Snapshot.interval := interval;
         Snapshot.summary := summary;
         Snapshot.top_trending_assets := slice_to trending_assets top_n |})%py.

(** [json.dump] refuses a [numpy.int64]. *)
Definition serializable_value (v : value) : bool :=
  match v with
  | VInt _ => false
  | VFloat _ | VNone => true
  end.

Definition serializable (a : Snapshot.analysis_data) : bool :=
  forallb (fun t => serializable_value (Snapshot.price t)
                    && serializable_value (Snapshot.sma t))
          (Snapshot.top_trending_assets a).

Definition snapshot_filename (interval stamp : string) : string :=
  String.append "market_analysis_"
    (String.append interval (String.append "_" (String.append stamp ".json"))).

(** Lines 66-69: [open(filename, 'w')] creates or empties the file, or
    fails and leaves the directory alone; then [json.dump] fills the file,
    or stops half-way, on a value it refuses or on a device that fails, and
    what it had written stays behind. *)
Definition write_snapshot (name : string) (a : Snapshot.analysis_data)
  : M unit :=
  failed <~ ask (fun w k => write_fails w k name) ;;
  if failed : bool then raise OSError
  else
    t <~ now ;;
    if serializable a then
      cut_short <~ ask (fun w k => dump_fails w k name) ;;
      if cut_short : bool then
        store_snapshot {| snapshot_name := name; snapshot_mtime := t;
                          snapshot_data := Unparsable |} ;;;
        raise OSError
      else
        store_snapshot {| snapshot_name := name; snapshot_mtime := t;
                          snapshot_data := Json a |}
    else
      store_snapshot {| snapshot_name := name; snapshot_mtime := t;
                        snapshot_data := Unparsable |} ;;;
      raise TypeError.

(** [MarketDataStorage.save_analysis], lines 14-71. *)
Definition save_analysis (market_stats : MarketB.market_stats)
  (assets_analysis : dict (dict value)) (interval : string) (top_n : Z)
  : M unit :=
  timestamp <~ now ;;
  iso <~ (fun w s => ret (isoformat w timestamp) w s) ;;
  stamp <~ (fun w s => ret (strftime w timestamp) w s) ;;
  analysis_data <~
    lift (build_analysis_data iso market_stats assets_analysis interval
            top_n) ;;
  let filename := snapshot_filename interval stamp in
  write_snapshot filename analysis_data ;;;
  emit (Log_info (Saved_analysis filename)).

(** [self.base_dir.glob(f"market_analysis_{interval}_*.json")], for an
    interval without wildcard characters. *)
Definition matches (interval : string) (f : snapshot_file) : bool :=
  let prefix := String.append "market_analysis_" (String.append interval "_") in
  String.prefix prefix (snapshot_name f)
  && ends_with ".json" (snapshot_name f)
  && (String.length prefix + 5 <=? String.length (snapshot_name f))%nat.

(** [max(files, key=lambda x: x.stat().st_mtime)]: the first of the files
    with the latest modification time. *)
Fixpoint latest_of (best : snapshot_file) (files : list snapshot_file)
  : snapshot_file :=
  match files with
  | [] => best
  | f :: files' =>
      latest_of (if snapshot_mtime best <? snapshot_mtime f then f else best)
        files'
  end.

(** [MarketDataStorage.load_latest_analysis], lines 73-89; [None] stands
    for the empty dict. *)
Definition load_latest_analysis (interval : string)
  : M (option Snapshot.analysis_data) :=
  files <~ list_snapshots ;;
  match filter (matches interval) files with
  | [] => emit (Log_warning (No_analysis_found interval)) ;;; ret None
  | f :: files' =>
      let latest_file := latest_of f files' in
      try_except
        (match snapshot_data latest_file with
         | Json record => ret (Some record)
         | Unparsable => raise ValueError
         end)
        (fun e => emit (Log_error (Error_loading_analysis e)) ;;; ret None)
  end.

End MarketStorage.

(* ================================================================== *)
(** * src/main.py *)
(* ================================================================== *)

Module Main.
Import Pandas Runtime.
Local Open Scope run_scope.

Definition DAYS_OF_HISTORY : Z := 105.
Definition INTERVAL : string := "D".
Definition TOP_N_ASSETS : Z := 20.

(** The analyzer of lines 31-33. *)
Definition analyzer : MarketB.MarketAnalyzer :=
  {| MarketB.trend_detector :=
       {| MarketB.sma_indicator := {| MarketB.period := 100 |} |} |}.

(** Lines 50-55: the symbols kept, a line printed for each one dropped. *)
Definition validate_step (valid_symbols : list string)
  (item : string * table) : M (list string) :=
  let (symbol, df) := item in
  match df with
  | _ :: _ =>
      if (100 <=? length df)%nat then ret (valid_symbols ++ [symbol])
      else emit (Printed (Skipping symbol)) ;;; ret valid_symbols
  | [] => emit (Printed (Skipping symbol)) ;;; ret valid_symbols
  end.

(** Line 57: [{symbol: market_data[symbol] for symbol in valid_symbols}] *)
Definition select_step (market_data selected : dict table) (symbol : string)
  : M (dict table) :=
  df <~ lift (dict_get market_data symbol) ;;
  ret (dict_set selected symbol df).

(** [curr - prev] on two percentages, as the format [+.1f] shows it. *)
Definition pynum_float (p : pynum) : float :=
  match p with
  | PInt z => float_of_Z z
  | PFloat f => f
  end.

Definition change (curr prev : pynum) : float :=
  fsub (pynum_float curr) (pynum_float prev).

(** Lines 76-87: the comparison with the "previous" analysis. *)
Definition compare_with_previous
  (latest_analysis previous_analysis : option Snapshot.analysis_data)
  : M unit :=
  match previous_analysis with
  | None => ret tt
  | Some previous =>
      latest <~
        (match latest_analysis with
         | Some latest => ret latest
         | None => raise (KeyError "timestamp")
         end) ;;
      if String.eqb (Snapshot.timestamp previous) (Snapshot.timestamp latest)
      then ret tt
      else
        emit (Printed Comparison_header) ;;;
        let prev_summary := Snapshot.summary previous in
        let curr_summary := Snapshot.summary latest in
        emit (Printed (Uptrend_change
                         (change (Snapshot.uptrend_percentage curr_summary)
                            (Snapshot.uptrend_percentage prev_summary)))) ;;;
        emit (Printed (Downtrend_change
                         (change (Snapshot.downtrend_percentage curr_summary)
                            (Snapshot.downtrend_percentage prev_summary))))
  end.

(** What other processes do to the snapshot directory while the script
    runs. *)
Definition interfere (others : list snapshot_file -> list snapshot_file)
  : M unit :=
  fun _ s =>
    (Ok tt, {| ticks := ticks s; cache_dir := cache_dir s;
               base_dir := others (base_dir s); trace := trace s |}).

(** Lines 71-87: load, print, load again, compare.  The script is alone on
    its directory except between the two loads, where [others] acts. *)
Definition report (others : list snapshot_file -> list snapshot_file)
  : M unit :=
  latest_analysis <~ MarketStorage.load_latest_analysis INTERVAL ;;
  (match latest_analysis with
   | Some latest => emit (Printed (Results latest))
   | None => ret tt
   end) ;;;
  interfere others ;;;
  previous_analysis <~ MarketStorage.load_latest_analysis INTERVAL ;;
  compare_with_previous latest_analysis previous_analysis.

(** Lines 40-69 of [main], once the fetcher and the storage are built:
    fetch, validate, analyze, save. *)
Definition fetch_analyze_save : M unit :=
  emit (Printed (Starting DAYS_OF_HISTORY INTERVAL)) ;;;
  market_data <~
    Fetcher.fetch_all_market_data (DataFetcher.IStr INTERVAL)
      DAYS_OF_HISTORY ;;
  emit (Printed Validating) ;;;
  valid_symbols <~ for_loop validate_step [] market_data ;;
  market_data <~ for_loop (select_step market_data) [] valid_symbols ;;
  emit (Printed (Analyzing (Z.of_nat (length market_data)))) ;;;
  analysis <~ lift (MarketB.analyze_market analyzer market_data) ;;
  MarketStorage.save_analysis (fst analysis) (snd analysis) INTERVAL
    TOP_N_ASSETS.

(** [main], lines 25-87. *)
Definition main (others : list snapshot_file -> list snapshot_file)
  : M unit :=
  fetch_analyze_save ;;; report others.

End Main.

(* ================================================================== *)
(** * Properties *)
(* ================================================================== *)

Module FloatFacts.

(** Facts about binary64 comparisons, read off the kernel's specification
    of the primitive operations. *)

Lemma compare_cont_flip (p q : positive) :
  Pos.compare_cont Eq q p = CompOpp (Pos.compare_cont Eq p q).
Proof. rewrite Pos.compare_cont_antisym. reflexivity. Qed.

Lemma SFcompare_Lt_Gt (x y : spec_float) :
  SFcompare x y = Some Lt -> SFcompare y x = Some Gt.
Proof.
  destruct x as [sx | sx | | sx mx ex], y as [sy | sy | | sy my ey];
    cbn; try discriminate;
    try (destruct sx; cbn; congruence);
    try (destruct sy; cbn; congruence);
    try (destruct sx, sy; cbn; congruence).
  destruct sx, sy; try congruence; intro H;
    rewrite (Z.compare_antisym ex ey);
    destruct (ex ?= ey) eqn:E; cbn in *; try congruence;
    rewrite compare_cont_flip;
    destruct (Pos.compare_cont Eq mx my); cbn in *; congruence.
Qed.

(** [x < y] excludes [y < x]. *)
Lemma flt_asym (x y : float) : flt x y = true -> flt y x = false.
Proof.
  unfold flt. rewrite !FloatAxioms.ltb_spec. unfold SFltb. intro H.
  destruct (SFcompare (Prim2SF x) (Prim2SF y)) as [[ | | ] | ] eqn:E;
    try discriminate.
  now rewrite (SFcompare_Lt_Gt _ _ E).
Qed.

Lemma Prim2SF_isnan (x : float) : isnan x = true -> Prim2SF x = S754_nan.
Proof.
  unfold isnan, is_nan. rewrite FloatAxioms.eqb_spec. unfold SFeqb.
  destruct (Prim2SF x) as [s | s | | s m e]; cbn; try discriminate; auto.
  - now destruct s.
  - destruct s; rewrite Z.compare_refl, Pos.compare_cont_refl; discriminate.
Qed.

(** Ordered comparisons with [NaN] are false. *)
Lemma flt_nan_l (x y : float) : isnan x = true -> flt x y = false.
Proof.
  intro H. unfold flt. rewrite FloatAxioms.ltb_spec, (Prim2SF_isnan _ H). reflexivity.
Qed.

Lemma flt_nan_r (x y : float) : isnan y = true -> flt x y = false.
Proof.
  intro H. unfold flt. rewrite FloatAxioms.ltb_spec, (Prim2SF_isnan _ H).
  unfold SFltb, SFcompare. now destruct (Prim2SF x).
Qed.

Lemma isnan_Prim2SF (x : float) : Prim2SF x = S754_nan -> isnan x = true.
Proof.
  intro H. unfold isnan, is_nan. rewrite FloatAxioms.eqb_spec, H. reflexivity.
Qed.

(** A difference with a [NaN] operand is [NaN]. *)
Lemma fsub_nan_r (x y : float) : isnan y = true -> isnan (fsub x y) = true.
Proof.
  intro H. apply isnan_Prim2SF. unfold fsub.
  rewrite FloatAxioms.sub_spec, (Prim2SF_isnan _ H).
  unfold SF64sub, SFsub. now destruct (Prim2SF x).
Qed.

Lemma fsub_nan_l (x y : float) : isnan x = true -> isnan (fsub x y) = true.
Proof.
  intro H. apply isnan_Prim2SF. unfold fsub.
  rewrite FloatAxioms.sub_spec, (Prim2SF_isnan _ H). reflexivity.
Qed.

Lemma isnan_nan : isnan nan = true.
Proof. reflexivity. Qed.

Ltac fold_pos_compare :=
  repeat match goal with
         | |- context [Pos.compare_cont Eq ?a ?b] =>
             change (Pos.compare_cont Eq a b) with (Pos.compare a b)
         end.

(** The comparison of decoded floats is a strict weak order. *)
Lemma SFcompare_Lt_trans (x y z : spec_float) :
  SFcompare x y = Some Lt -> SFcompare y z = Some Lt ->
  SFcompare x z = Some Lt.
Proof.
  destruct x as [sx | sx | | sx mx ex], y as [sy | sy | | sy my ey],
    z as [sz | sz | | sz mz ez]; cbn; try discriminate;
    try (destruct sx; discriminate); try (destruct sy; discriminate);
    try (destruct sz; discriminate);
    try (destruct sx, sy; discriminate); try (destruct sy, sz; discriminate);
    try (destruct sx, sz; discriminate);
    try (destruct sx, sy, sz; cbn; congruence).
  all: destruct sx, sy, sz; cbn; try congruence.
  all: fold_pos_compare;
    destruct (Z.compare_spec ex ey), (Z.compare_spec ey ez),
      (Z.compare_spec ex ez); try lia; try congruence; subst;
    destruct (Pos.compare_spec mx my), (Pos.compare_spec my mz),
      (Pos.compare_spec mx mz); cbn; try lia; try congruence.
Qed.

Lemma SFcompare_Lt_split (x y z : spec_float) :
  y <> S754_nan ->
  SFcompare x z = Some Lt ->
  SFcompare x y = Some Lt \/ SFcompare y z = Some Lt.
Proof.
  intro Hy.
  destruct x as [sx | sx | | sx mx ex], y as [sy | sy | | sy my ey],
    z as [sz | sz | | sz mz ez]; cbn; try discriminate; try congruence;
    try (destruct sx, sy, sz; cbn; intuition congruence);
    try (destruct sx, sy; cbn; intuition congruence);
    try (destruct sx, sz; cbn; intuition congruence);
    try (destruct sy, sz; cbn; intuition congruence).
  all: destruct sx, sy, sz; cbn; try (intuition congruence).
  all: fold_pos_compare;
    destruct (Z.compare_spec ex ey), (Z.compare_spec ey ez),
      (Z.compare_spec ex ez); try lia; try (intuition congruence); subst;
    destruct (Pos.compare_spec mx my), (Pos.compare_spec my mz),
      (Pos.compare_spec mx mz); cbn; try lia; try (intuition congruence).
Qed.

Lemma SFltb_Lt (x y : spec_float) :
  SFltb x y = true <-> SFcompare x y = Some Lt.
Proof.
  unfold SFltb. destruct (SFcompare x y) as [[ | | ] | ];
    split; congruence.
Qed.

Lemma flt_trans (x y z : float) :
  flt x y = true -> flt y z = true -> flt x z = true.
Proof.
  unfold flt. rewrite !FloatAxioms.ltb_spec, !SFltb_Lt.
  apply SFcompare_Lt_trans.
Qed.

(** If [x < z] then any [y] that is not [NaN] is above [x] or below [z]. *)
Lemma flt_split (x y z : float) :
  isnan y = false -> flt x z = true -> flt x y = true \/ flt y z = true.
Proof.
  unfold flt. rewrite !FloatAxioms.ltb_spec, !SFltb_Lt. intro H.
  apply SFcompare_Lt_split. intro E.
  rewrite (isnan_Prim2SF y E) in H. discriminate.
Qed.

Lemma flt_irrefl (x : float) : flt x x = false.
Proof.
  destruct (flt x x) eqn:E; [ | reflexivity].
  now rewrite (flt_asym x x E) in E.
Qed.

(** Only minus infinity is not above minus infinity, and only plus infinity
    not below plus infinity. *)
Lemma flt_neg_infinity (v : float) :
  isnan v = false -> flt neg_infinity v = false -> v = neg_infinity.
Proof.
  intros Hn H. apply Prim2SF_inj.
  unfold flt in H. rewrite FloatAxioms.ltb_spec in H.
  change (Prim2SF neg_infinity) with (S754_infinity true) in *.
  destruct (Prim2SF v) as [s | s | | s m e] eqn:E; cbn in H;
    try discriminate.
  - now destruct s.
  - rewrite (isnan_Prim2SF v E) in Hn. discriminate.
Qed.

Lemma flt_infinity (v : float) :
  isnan v = false -> flt v infinity = false -> v = infinity.
Proof.
  intros Hn H. apply Prim2SF_inj.
  unfold flt in H. rewrite FloatAxioms.ltb_spec in H.
  change (Prim2SF infinity) with (S754_infinity false) in *.
  destruct (Prim2SF v) as [s | s | | s m e] eqn:E; cbn in H;
    try discriminate.
  - now destruct s.
  - rewrite (isnan_Prim2SF v E) in Hn. discriminate.
Qed.

(** Two floats with different decodings are different. *)
Lemma float_neq (x y : float) : Prim2SF x <> Prim2SF y -> x <> y.
Proof. intros H E. apply H. now rewrite E. Qed.

End FloatFacts.

Module ListFacts.

Lemma length_zip_with {A B C : Type} (f : A -> B -> C) (l1 : list A)
  (l2 : list B) :
  length (zip_with f l1 l2) = Nat.min (length l1) (length l2).
Proof.
  revert l2. induction l1 as [ | a l1 IH]; intros [ | b l2]; cbn; auto.
Qed.

Lemma nth_zip_with {A B C : Type} (f : A -> B -> C) (l1 : list A)
  (l2 : list B) (i : nat) (da : A) (db : B) (dc : C) :
  (i < length l1)%nat -> (i < length l2)%nat ->
  nth i (zip_with f l1 l2) dc = f (nth i l1 da) (nth i l2 db).
Proof.
  revert l2 i. induction l1 as [ | a l1 IH]; intros [ | b l2] [ | i];
    cbn; intros H1 H2; try lia; auto.
  apply IH; lia.
Qed.

Lemma nth_map_seq {A : Type} (f : nat -> A) (n i : nat) (d : A) :
  (i < n)%nat -> nth i (map f (seq 0 n)) d = f i.
Proof.
  intro H. rewrite (nth_indep _ d (f 0%nat)) by now rewrite length_map, length_seq.
  rewrite (map_nth f (seq 0 n) 0%nat i), seq_nth by exact H. reflexivity.
Qed.

Lemma nth_map_const {A B : Type} (c : B) (l : list A) (i : nat) :
  nth i (map (fun _ => c) l) c = c.
Proof.
  revert i. induction l as [ | a l IH]; intros [ | i]; cbn; auto.
Qed.

(** [xs.iloc[-k]] is the [k]-th item from the end when there are at least
    [k] items. *)
Lemma iloc_from_end {A : Type} (xs : list A) (k : nat) (d : A) :
  (1 <= k <= length xs)%nat ->
  iloc xs (- Z.of_nat k) = Ok (nth (length xs - k) xs d).
Proof.
  intros [H1 H2]. unfold iloc.
  replace (- Z.of_nat k <? 0) with true by (symmetry; apply Z.ltb_lt; lia).
  replace (Z.of_nat (length xs) + - Z.of_nat k)
    with (Z.of_nat (length xs - k)) by lia.
  replace (Z.of_nat (length xs - k) <? 0) with false
    by (symmetry; apply Z.ltb_ge; lia).
  replace (Z.of_nat (length xs) <=? Z.of_nat (length xs - k)) with false
    by (symmetry; apply Z.leb_gt; lia).
  cbn [orb]. rewrite Nat2Z.id.
  destruct (nth_error xs (length xs - k)) as [x | ] eqn:E.
  - now rewrite (nth_error_nth _ _ d E).
  - apply nth_error_None in E. lia.
Qed.

Lemma iloc_empty {A : Type} (i : Z) : iloc (@nil A) i = Raise IndexError.
Proof.
  unfold iloc. cbn [length Z.of_nat].
  destruct (i <? 0) eqn:E; [ | apply Z.ltb_ge in E ].
  - apply Z.ltb_lt in E.
    replace (0 + i <? 0) with true by (symmetry; apply Z.ltb_lt; lia).
    reflexivity.
  - replace (0 <=? i) with true by (symmetry; apply Z.leb_le; lia).
    now rewrite orb_true_r.
Qed.

End ListFacts.

Module DataFetcherFacts.
Import DataFetcher.

Lemma spec_clamp_min (v : Z) : Z.min v 1000 = spec_clamp v.
Proof.
  unfold spec_clamp. destruct (1000 <? v) eqn:E.
  - apply Z.ltb_lt in E. lia.
  - apply Z.ltb_ge in E. lia.
Qed.

Lemma calculate_required_points_minutes (days : Z) (s : string) (m : Z) :
  is_calendar (IStr s) = false ->
  int_of_str s = Ok m ->
  m <> 0 ->
  calculate_required_points days (IStr s) = Ok (Z.min (days * 1440 / m) 1000).
Proof.
  intros Hcal Hint Hm. unfold calculate_required_points.
  rewrite Hcal. cbn [interval_minutes]. rewrite Hint. cbn [bind].
  unfold floordiv. destruct (Z.eqb_spec m 0) as [E | _]; [contradiction |].
  cbn [bind]. now replace (days * 24 * 60) with (days * 1440) by lia.
Qed.

(** C1.  For every [days >= 0] and every supported interval code,
    [calculate_required_points] returns the specification's formula (days
    for 'D', days // 7 + 1 for 'W', days // 30 + 1 for 'M',
    floor(days * 1440 / minutes) for a minute code), replaced by exactly
    1000 whenever the formula exceeds 1000 and left as it is otherwise. *)
Theorem calculate_required_points_spec (days : Z) (Hdays : 0 <= days) :
  forall (s : string) (k : interval_kind),
    In (s, k) supported_intervals ->
    calculate_required_points days (IStr s) = Ok (spec_clamp (spec_points k days))
    /\ (1000 < spec_points k days ->
        calculate_required_points days (IStr s) = Ok 1000)
    /\ (spec_points k days <= 1000 ->
        calculate_required_points days (IStr s) = Ok (spec_points k days)).
Proof.
  intros s k Hin.
  assert (Hmain : calculate_required_points days (IStr s)
                  = Ok (spec_clamp (spec_points k days))).
  { simpl in Hin.
    repeat (destruct Hin as [Hin | Hin];
            [ inversion Hin; subst; clear Hin;
              rewrite <- spec_clamp_min;
              first [ apply calculate_required_points_minutes;
                      [ reflexivity | reflexivity | discriminate ]
                    | reflexivity ]
            | ]).
    contradiction. }
  split; [exact Hmain | split]; intro Hv; rewrite Hmain; f_equal;
    unfold spec_clamp.
  - apply Z.ltb_lt in Hv. now rewrite Hv.
  - apply Z.ltb_ge in Hv. now rewrite Hv.
Qed.

(** The specification's worked examples, read off the theorem. *)
Lemma calculate_required_points_spec_witness :
  calculate_required_points 7 (IStr "D") = Ok 7
  /\ calculate_required_points 10 (IStr "D") = Ok 10
  /\ calculate_required_points 10 (IStr "W") = Ok 2
  /\ calculate_required_points 40 (IStr "M") = Ok 2
  /\ calculate_required_points 1 (IStr "60") = Ok 24
  /\ calculate_required_points 30 (IStr "1") = Ok 1000.
Proof.
  destruct (calculate_required_points_spec 7 ltac:(lia) "D" Daily
              ltac:(simpl; tauto)) as [E1 _].
  destruct (calculate_required_points_spec 10 ltac:(lia) "D" Daily
              ltac:(simpl; tauto)) as [E2 _].
  destruct (calculate_required_points_spec 10 ltac:(lia) "W" Weekly
              ltac:(simpl; tauto)) as [E3 _].
  destruct (calculate_required_points_spec 40 ltac:(lia) "M" Monthly
              ltac:(simpl; tauto)) as [E4 _].
  destruct (calculate_required_points_spec 1 ltac:(lia) "60" (Minutes 60)
              ltac:(simpl; tauto)) as [E5 _].
  destruct (calculate_required_points_spec 30 ltac:(lia) "1" (Minutes 1)
              ltac:(simpl; tauto)) as [_ [E6 _]].
  exact (conj E1 (conj E2 (conj E3 (conj E4 (conj E5
           (E6 ltac:(vm_compute; reflexivity))))))).
Defined.

End DataFetcherFacts.

(* ------------------------------------------------------------------ *)
(** ** Series facts *)
(* ------------------------------------------------------------------ *)

Module PandasFacts.
Import Pandas FloatFacts ListFacts.

Lemma length_rolling_mean (w : nat) (xs : list float) :
  length (rolling_mean w xs) = length xs.
Proof. unfold rolling_mean. now rewrite length_map, length_seq. Qed.

Lemma length_diff (xs : list float) : length (diff xs) = length xs.
Proof.
  destruct xs as [ | x t]; cbn; auto.
  rewrite length_zip_with. cbn. f_equal. lia.
Qed.

(** *** The rolling window

    [roll_mean] keeps in [nobs] the number of cells of the window that are
    not [NaN]: what entered less what left. *)

(** How many of the first [n] cells are not [NaN]. *)
Fixpoint known_upto (values : list float) (n : nat) : nat :=
  match n with
  | O => O
  | S m => (known_upto values m
            + if isnan (nth m values nan) then 0 else 1)%nat
  end.

Lemma known_upto_step (values : list float) (a d : nat) :
  (known_upto values a <= known_upto values (a + d)
   /\ known_upto values (a + d) <= known_upto values a + d)%nat.
Proof.
  induction d as [ | d IH].
  - rewrite Nat.add_0_r. lia.
  - rewrite Nat.add_succ_r. cbn [known_upto].
    destruct (isnan (nth (a + d) values nan)); lia.
Qed.

Lemma known_upto_between (values : list float) (a b : nat) :
  (a <= b)%nat ->
  (known_upto values a <= known_upto values b
   /\ known_upto values b <= known_upto values a + (b - a))%nat.
Proof.
  intro H. replace b with (a + (b - a))%nat at 1 2 by lia.
  apply known_upto_step.
Qed.

(** A [NaN] cell between [a] and [b] is one that does not count. *)
Lemma known_upto_gap (values : list float) (a k b : nat) :
  (a <= k < b)%nat -> isnan (nth k values nan) = true ->
  (known_upto values b < known_upto values a + (b - a))%nat.
Proof.
  intros Hk Hnan.
  pose proof (known_upto_between values a k ltac:(lia)) as H1.
  pose proof (known_upto_between values (S k) b ltac:(lia)) as H2.
  cbn [known_upto] in H2. rewrite Hnan in H2. lia.
Qed.

Lemma nobs_add_mean (val : float) (st : roll) :
  nobs (add_mean val st)
  = (nobs st + if isnan val then 0 else 1)%nat.
Proof. unfold add_mean. destruct (isnan val); cbn [nobs]; lia. Qed.

Lemma nobs_remove_mean (val : float) (st : roll) :
  nobs (remove_mean val st)
  = (nobs st - if isnan val then 0 else 1)%nat.
Proof. unfold remove_mean. destruct (isnan val); cbn [nobs]; lia. Qed.

(** After row [i] the window holds the known cells of rows
    [i + 1 - w .. i]. *)
Lemma nobs_roll_at (w : nat) (values : list float) (i : nat) :
  (0 < w)%nat ->
  (nobs (roll_at w values i) + known_upto values (i + 1 - w)
   = known_upto values (i + 1))%nat.
Proof.
  intro Hw. induction i as [ | j IH].
  - cbn [roll_at]. rewrite nobs_add_mean.
    replace (0 + 1 - w)%nat with 0%nat by lia. cbn. lia.
  - cbn [roll_at]. rewrite (Nat.add_1_r (S j)), (Nat.add_1_r j) in *.
    cbn [known_upto].
    destruct (w <=? 1)%nat eqn:E1.
    + apply Nat.leb_le in E1. assert (w = 1)%nat as -> by lia.
      rewrite nobs_add_mean. cbn [roll_setup nobs].
      replace (S (S j) - 1)%nat with (S j) by lia.
      cbn [known_upto]. lia.
    + apply Nat.leb_gt in E1. rewrite nobs_add_mean.
      cbn [known_upto] in IH.
      destruct (w <=? S j)%nat eqn:E2.
      * apply Nat.leb_le in E2. rewrite nobs_remove_mean.
        replace (S (S j) - w)%nat with (S (S j - w)) by lia.
        cbn [known_upto].
        pose proof (known_upto_between values (S (S j - w)) (S j)
                      ltac:(lia)) as Hb.
        cbn [known_upto] in Hb.
        destruct (isnan (nth (S j - w) values nan)),
          (isnan (nth j values nan)), (isnan (nth (S j) values nan)); lia.
      * apply Nat.leb_gt in E2.
        replace (S (S j) - w)%nat with 0%nat by lia.
        replace (S j - w)%nat with 0%nat in IH by lia.
        cbn [known_upto] in *.
        destruct (isnan (nth j values nan)),
          (isnan (nth (S j) values nan)); lia.
Qed.

(** A window short of [minp] known cells has no mean. *)
Lemma calc_mean_short (minp : nat) (st : roll) :
  (nobs st < minp)%nat -> calc_mean minp st = nan.
Proof.
  intro H. unfold calc_mean.
  replace (minp <=? nobs st)%nat with false
    by (symmetry; apply Nat.leb_gt; exact H).
  reflexivity.
Qed.

Lemma nth_finite_or_nan (xs : list float) (k : nat) :
  nth k (map finite_or_nan xs) nan = finite_or_nan (nth k xs nan).
Proof. exact (map_nth finite_or_nan xs nan k). Qed.

Lemma finite_or_nan_undefined (x : float) :
  isnan x = true -> isnan (finite_or_nan x) = true.
Proof.
  intro H. unfold finite_or_nan.
  destruct (PrimFloat.is_infinity x); [reflexivity | exact H].
Qed.

Lemma nth_rolling_mean (w : nat) (xs : list float) (j : nat) :
  (j < length xs)%nat ->
  nth j (rolling_mean w xs) nan
  = if (w =? 0)%nat then nan
    else calc_mean w (roll_at w (map finite_or_nan xs) j).
Proof.
  intro H. unfold rolling_mean.
  exact (nth_map_seq _ (length xs) j nan H).
Qed.

(** The first [w - 1] cells of a rolling mean are [NaN]. *)
Lemma nth_rolling_mean_early (w : nat) (xs : list float) (i : nat) :
  (i < length xs)%nat -> (i + 1 < w)%nat ->
  nth i (rolling_mean w xs) nan = nan.
Proof.
  intros Hi Hw. rewrite nth_rolling_mean by exact Hi.
  destruct (w =? 0)%nat; [reflexivity | ].
  apply calc_mean_short.
  pose proof (nobs_roll_at w (map finite_or_nan xs) i ltac:(lia)) as Hn.
  pose proof (known_upto_between (map finite_or_nan xs) 0 (i + 1)
                ltac:(lia)) as Hb.
  cbn [known_upto] in Hb. lia.
Qed.

(** A window holding an undefined cell has no mean. *)
Lemma rolling_mean_undefined (w : nat) (xs : list float) (k j : nat) :
  (j < length xs)%nat -> (k <= j < k + w)%nat ->
  isnan (nth k xs nan) = true ->
  isnan (nth j (rolling_mean w xs) nan) = true.
Proof.
  intros Hj Hk Hnan. rewrite nth_rolling_mean by exact Hj.
  destruct (w =? 0)%nat; [reflexivity | ].
  rewrite calc_mean_short; [reflexivity | ].
  pose proof (nobs_roll_at w (map finite_or_nan xs) j ltac:(lia)) as Hn.
  pose proof (known_upto_gap (map finite_or_nan xs) (j + 1 - w) k (j + 1)
                ltac:(lia)) as Hg.
  rewrite nth_finite_or_nan in Hg.
  specialize (Hg (finite_or_nan_undefined _ Hnan)). lia.
Qed.

(** *** The pairwise sum

    A column of more than [PW_BLOCKSIZE] cells is cut into two parts that
    are both shorter, so the recursion ends before its [length xs] levels
    are used up: any larger bound gives the same sum. *)
Lemma pairwise_sum_fuel (fuel : nat) :
  forall (fuel' : nat) (xs : list float),
    (length xs <= fuel)%nat -> (length xs <= fuel')%nat ->
    pairwise_sum fuel xs = pairwise_sum fuel' xs.
Proof.
  unfold PW_BLOCKSIZE.
  induction fuel as [ | fuel IH]; intros fuel' xs H H'.
  - destruct fuel' as [ | fuel']; cbn [pairwise_sum]; [reflexivity | ].
    unfold PW_BLOCKSIZE.
    replace (length xs <=? 128)%nat with true
      by (symmetry; apply Nat.leb_le; lia).
    reflexivity.
  - destruct fuel' as [ | fuel']; cbn [pairwise_sum]; unfold PW_BLOCKSIZE.
    + replace (length xs <=? 128)%nat with true
        by (symmetry; apply Nat.leb_le; lia).
      reflexivity.
    + destruct (length xs <=? 128)%nat eqn:E; [reflexivity | ].
      apply Nat.leb_gt in E.
      assert (0 < length xs / 2 - (length xs / 2) mod 8 < length xs)%nat
        as Hcut.
      { pose proof (Nat.mod_upper_bound (length xs / 2) 8 ltac:(lia)).
        pose proof (Nat.div_lt (length xs) 2 ltac:(lia) ltac:(lia)).
        assert (64 <= length xs / 2)%nat
          by (apply (Nat.Div0.div_le_mono 128 (length xs) 2); lia).
        lia. }
      f_equal; apply IH; rewrite ?length_firstn, ?length_skipn; lia.
Qed.

(** Twenty-four cells of 0.3 add up pairwise to 7.2 and average to 0.3
    exactly; added one after the other they would come to less, and their
    average would fall below 0.3. *)
Lemma mean_of_equal_cells :
  let c := 0x1.3333333333333p-2%float in
  mean (repeat c 24) = c
  /\ flt (fdiv (total (repeat c 24)) (float_of_nat 24)) c = true.
Proof. split; vm_compute; reflexivity. Qed.

Lemma nth_diff_0 (xs : list float) : nth 0 (diff xs) nan = nan.
Proof. now destruct xs. Qed.

(** Past the first row, [diff] is the difference with the row above. *)
Lemma nth_diff_S (xs : list float) (i : nat) :
  (S i < length xs)%nat ->
  nth (S i) (diff xs) nan = fsub (nth (S i) xs nan) (nth i xs nan).
Proof.
  destruct xs as [ | x t]; cbn [length diff nth]; intro H; [lia | ].
  rewrite (nth_zip_with fsub t (x :: t) i nan nan nan) by (cbn; lia).
  reflexivity.
Qed.

Lemma length_mask_set (trend : list Z) (mask : list bool) (v : Z) :
  length (mask_set trend mask v) = Nat.min (length trend) (length mask).
Proof. apply length_zip_with. Qed.

Lemma nth_mask_set (trend : list Z) (mask : list bool) (v : Z) (i : nat) :
  (i < length trend)%nat -> (i < length mask)%nat ->
  nth i (mask_set trend mask v) 0
  = if nth i mask false then v else nth i trend 0.
Proof.
  intros H1 H2. unfold mask_set.
  now rewrite (nth_zip_with _ trend mask i 0 false 0).
Qed.

(** *** The group aggregations *)

Lemma valid_not_nan (xs : list float) :
  Forall (fun v => isnan v = false) (valid xs).
Proof.
  apply Forall_forall. intros v Hv. unfold valid in Hv.
  apply filter_In in Hv. destruct Hv as [_ Hv].
  now destruct (isnan v).
Qed.

Lemma fold_max_spec (vs : list float) :
  forall m : float,
    isnan m = false ->
    Forall (fun v => isnan v = false) vs ->
    let r := fold_left (fun m v => if fgt v m then v else m) vs m in
    (r = m \/ In r vs) /\ isnan r = false /\ flt r m = false
    /\ (forall v, In v vs -> flt r v = false).
Proof.
  induction vs as [ | v vs IH]; intros m Hm Hvs; cbn [fold_left].
  - repeat split; auto using flt_irrefl. intros v [].
  - inversion Hvs as [ | ? ? Hv Hvs']; subst.
    change (fgt v m) with (flt m v).
    destruct (flt m v) eqn:E.
    + destruct (IH v Hv Hvs') as (Hin & Hn & Hle & Hall).
      repeat split; auto.
      * destruct Hin as [-> | Hin]; right; [now left | now right].
      * match goal with
        | |- ?g = false => destruct g eqn:F; [ | reflexivity]
        end.
        now rewrite (flt_trans _ _ _ F E) in Hle.
      * intros u [<- | Hu]; auto.
    + destruct (IH m Hm Hvs') as (Hin & Hn & Hle & Hall).
      repeat split; auto.
      * destruct Hin as [-> | Hin]; [now left | right; now right].
      * intros u [Eu | Hu]; [subst u | now auto].
        match goal with
        | |- ?g = false => destruct g eqn:F; [ | reflexivity]
        end.
        destruct (flt_split _ m _ Hm F) as [G | G]; congruence.
Qed.

Lemma fold_min_spec (vs : list float) :
  forall m : float,
    isnan m = false ->
    Forall (fun v => isnan v = false) vs ->
    let r := fold_left (fun m v => if flt v m then v else m) vs m in
    (r = m \/ In r vs) /\ isnan r = false /\ flt m r = false
    /\ (forall v, In v vs -> flt v r = false).
Proof.
  induction vs as [ | v vs IH]; intros m Hm Hvs; cbn [fold_left].
  - repeat split; auto using flt_irrefl. intros v [].
  - inversion Hvs as [ | ? ? Hv Hvs']; subst.
    destruct (flt v m) eqn:E.
    + destruct (IH v Hv Hvs') as (Hin & Hn & Hle & Hall).
      repeat split; auto.
      * destruct Hin as [-> | Hin]; right; [now left | now right].
      * match goal with
        | |- ?g = false => destruct g eqn:F; [ | reflexivity]
        end.
        now rewrite (flt_trans _ _ _ E F) in Hle.
      * intros u [<- | Hu]; auto.
    + destruct (IH m Hm Hvs') as (Hin & Hn & Hle & Hall).
      repeat split; auto.
      * destruct Hin as [-> | Hin]; [now left | right; now right].
      * intros u [Eu | Hu]; [subst u | now auto].
        match goal with
        | |- ?g = false => destruct g eqn:F; [ | reflexivity]
        end.
        destruct (flt_split _ m _ Hm F) as [G | G]; congruence.
Qed.

(** ['max'] over a group: [NaN] when every cell is, otherwise one of the
    cells that are not [NaN], and none of them is above it. *)
Lemma max_valid_spec (xs : list float) :
  (valid xs = [] -> max_valid xs = nan)
  /\ (valid xs <> [] ->
      In (max_valid xs) (valid xs)
      /\ forall v, In v (valid xs) -> fgt v (max_valid xs) = false).
Proof.
  unfold max_valid. split; [now intros -> | ].
  intro Hne. pose proof (valid_not_nan xs) as Hv.
  destruct (valid xs) as [ | v0 vs] eqn:E; [contradiction | ].
  destruct (fold_max_spec (v0 :: vs) neg_infinity eq_refl Hv)
    as ([Hr | Hin] & _ & _ & Hall); cbn zeta in *.
  - split; [ | exact Hall]. rewrite Hr. left.
    apply flt_neg_infinity.
    + now inversion Hv.
    + rewrite <- Hr. apply Hall. now left.
  - split; [exact Hin | exact Hall].
Qed.

(** ['min'] over a group, likewise. *)
Lemma min_valid_spec (xs : list float) :
  (valid xs = [] -> min_valid xs = nan)
  /\ (valid xs <> [] ->
      In (min_valid xs) (valid xs)
      /\ forall v, In v (valid xs) -> flt v (min_valid xs) = false).
Proof.
  unfold min_valid. split; [now intros -> | ].
  intro Hne. pose proof (valid_not_nan xs) as Hv.
  destruct (valid xs) as [ | v0 vs] eqn:E; [contradiction | ].
  destruct (fold_min_spec (v0 :: vs) infinity eq_refl Hv)
    as ([Hr | Hin] & _ & _ & Hall); cbn zeta in *.
  - split; [ | exact Hall]. rewrite Hr. left.
    apply flt_infinity.
    + now inversion Hv.
    + rewrite <- Hr. apply Hall. now left.
  - split; [exact Hin | exact Hall].
Qed.

End PandasFacts.

(* ------------------------------------------------------------------ *)
(** ** The Moving-Average trend detector *)
(* ------------------------------------------------------------------ *)

Module MarketBFacts.
Import Pandas MarketB FloatFacts ListFacts PandasFacts.

(** The value [detect_trend] leaves in a row, from the row's close, SMA and
    SMA change: the downtrend assignment is the later one. *)
Definition classify (c s d : float) : Z :=
  if flt c s && flt d zero then -1
  else if fgt c s && fgt d zero then 1
  else 0.

Lemma length_up_mask (cs sma ch : list float) :
  length cs = length sma -> length ch = length sma ->
  length (up_mask cs sma ch) = length sma.
Proof.
  intros H1 H2. unfold up_mask.
  rewrite !length_zip_with, length_map. lia.
Qed.

Lemma length_down_mask (cs sma ch : list float) :
  length cs = length sma -> length ch = length sma ->
  length (down_mask cs sma ch) = length sma.
Proof.
  intros H1 H2. unfold down_mask.
  rewrite !length_zip_with, length_map. lia.
Qed.

Lemma length_Trend (self : TrendDetector) (df : table) :
  length (Trend (detect_trend self df)) = length df.
Proof.
  unfold detect_trend, calculate. cbn [Trend sma_rows sma_SMA].
  rewrite !length_mask_set, length_map.
  rewrite length_up_mask, length_down_mask;
    rewrite ?length_diff, ?length_rolling_mean, ?length_map; lia.
Qed.

Lemma nth_Trend (self : TrendDetector) (df : table) (i : nat) :
  (i < length df)%nat ->
  let f := detect_trend self df in
  nth i (Trend f) 0
  = classify (nth i (map close df) nan) (nth i (SMA f) nan)
      (nth i (SMA_Change f) nan).
Proof.
  intros Hi. cbn zeta. unfold detect_trend, calculate. cbn [Trend SMA SMA_Change sma_rows sma_SMA].
  set (cs := map close df).
  set (sma := rolling_mean _ cs).
  set (ch := diff sma).
  assert (Lcs : length cs = length df) by (unfold cs; now rewrite length_map).
  assert (Lsma : length sma = length df)
    by (unfold sma; now rewrite length_rolling_mean).
  assert (Lch : length ch = length df)
    by (unfold ch; now rewrite length_diff).
  assert (Lup : length (up_mask cs sma ch) = length df)
    by (rewrite length_up_mask; lia).
  assert (Ldn : length (down_mask cs sma ch) = length df)
    by (rewrite length_down_mask; lia).
  rewrite nth_mask_set
    by (rewrite ?length_mask_set, ?length_map; lia).
  rewrite nth_mask_set by (rewrite ?length_map; lia).
  unfold down_mask, up_mask, classify.
  rewrite (nth_zip_with andb _ _ i false false false)
    by (rewrite ?length_zip_with, ?length_map; lia).
  rewrite (nth_zip_with flt cs sma i nan nan false) by lia.
  rewrite (nth_indep (map _ ch) false ((fun c => flt c zero) nan))
    by (rewrite length_map; lia).
  rewrite (map_nth (fun c => flt c zero) ch nan i).
  rewrite (nth_zip_with andb _ _ i false false false)
    by (rewrite ?length_zip_with, ?length_map; lia).
  rewrite (nth_zip_with fgt cs sma i nan nan false) by lia.
  rewrite (nth_indep (map _ ch) false ((fun c => fgt c zero) nan))
    by (rewrite length_map; lia).
  rewrite (map_nth (fun c => fgt c zero) ch nan i).
  rewrite nth_map_const. reflexivity.
Qed.

Lemma classify_cases (c s d : float) :
  (classify c s d = 1 <-> fgt c s = true /\ fgt d zero = true)
  /\ (classify c s d = -1 <-> flt c s = true /\ flt d zero = true)
  /\ (classify c s d = 0 <->
      ~ (fgt c s = true /\ fgt d zero = true)
      /\ ~ (flt c s = true /\ flt d zero = true)).
Proof.
  unfold classify.
  pose proof (flt_asym c s) as A1. pose proof (flt_asym s c) as A2.
  unfold fgt, flt in *.
  destruct (PrimFloat.ltb c s), (PrimFloat.ltb s c),
    (PrimFloat.ltb d zero), (PrimFloat.ltb zero d); cbn;
    try (specialize (A1 eq_refl)); try (specialize (A2 eq_refl));
    try discriminate; intuition (try discriminate; try lia).
Qed.

(** A synthetic daily table whose closes are [first], [first + step], ... *)
Definition bar (k : nat) (c : float) : candle :=
  {| timestamp := Z.of_nat k * 86400000;
     open := c; high := c; low := c; close := c;
     volume := one; turnover := c |}.

Definition ramp (first step : Z) (n : nat) : table :=
  map (fun k => bar k (float_of_Z (first + step * Z.of_nat k))) (seq 0 n).

Definition sma100 : TrendDetector := {| sma_indicator := {| period := 100 |} |}.

(** C2.  In every row of every table the Moving-Average detector stores +1
    exactly when the close is strictly above the SMA and the SMA's first
    difference is strictly positive, -1 exactly when the close is strictly
    below the SMA and the difference strictly negative, and 0 in every
    other case; a row whose SMA or SMA difference is undefined (NaN) is
    neutral, which covers the first [period - 1] rows (no SMA) and the
    first row that has an SMA (no row above to difference with). *)
Theorem detect_trend_classification (self : TrendDetector) (df : table)
  (i : nat) (Hi : (i < length df)%nat) :
  let f := detect_trend self df in
  let c := nth i (map close df) nan in
  let s := nth i (SMA f) nan in
  let d := nth i (SMA_Change f) nan in
  let t := nth i (Trend f) 0 in
  (t = 1 <-> fgt c s = true /\ fgt d zero = true)
  /\ (t = -1 <-> flt c s = true /\ flt d zero = true)
  /\ (t = 0 <->
      ~ (fgt c s = true /\ fgt d zero = true)
      /\ ~ (flt c s = true /\ flt d zero = true))
  /\ (isnan s = true \/ isnan d = true -> t = 0)
  /\ ((i + 1 < period (sma_indicator self))%nat -> isnan s = true)
  /\ (i = 0%nat \/ isnan (nth (i - 1) (SMA f) nan) = true -> isnan d = true)
  /\ ((0 < i)%nat -> d = fsub s (nth (i - 1) (SMA f) nan))
  /\ length (Trend f) = length df.
Proof.
  intros f c s d t.
  assert (Ht : t = classify c s d) by (apply nth_Trend; exact Hi).
  assert (Lsma : length (SMA f) = length df).
  { unfold f, detect_trend, calculate. cbn [SMA sma_SMA].
    now rewrite length_rolling_mean, length_map. }
  assert (Hd : (0 < i)%nat -> d = fsub s (nth (i - 1) (SMA f) nan)).
  { intro Hpos. unfold d, s, f, detect_trend. cbn [SMA_Change SMA].
    destruct i as [ | j]; [lia | ].
    replace (S j - 1)%nat with j by lia.
    apply nth_diff_S. fold (SMA f) in Lsma.
    unfold f, detect_trend in Lsma. cbn [SMA] in Lsma. lia. }
  destruct (classify_cases c s d) as (C1 & C2 & C3).
  rewrite Ht.
  split; [exact C1 | split; [exact C2 | split; [exact C3 | ]]].
  split; [ | split; [ | split; [ | split; [exact Hd | apply length_Trend]]]].
  - intros [Hs | Hn]; apply C3; split; intros [H1 H2].
    + pose proof (flt_nan_l s c Hs). unfold fgt, flt in *. congruence.
    + pose proof (flt_nan_r c s Hs). congruence.
    + pose proof (flt_nan_r zero d Hn). unfold fgt, flt in *. congruence.
    + pose proof (flt_nan_l d zero Hn). congruence.
  - intro Hw. unfold s, f, detect_trend, calculate. cbn [SMA sma_SMA].
    rewrite nth_rolling_mean_early; [reflexivity | | exact Hw].
    now rewrite length_map.
  - intros [H0 | Hprev].
    + unfold d, f, detect_trend. cbn [SMA_Change]. subst i.
      now rewrite nth_diff_0.
    + destruct (Nat.eq_dec i 0) as [E | NE].
      * unfold d, f, detect_trend. cbn [SMA_Change]. subst i.
        now rewrite nth_diff_0.
      * rewrite Hd by lia. now apply fsub_nan_r.
Qed.

(** The specification's synthetic series (period 100, 110 rows): the last
    row of the rising one is an uptrend, of the falling one a downtrend. *)
Lemma detect_trend_classification_witness :
  nth 109 (Trend (detect_trend sma100 (ramp 1 1 110))) 0 = 1
  /\ nth 109 (Trend (detect_trend sma100 (ramp 300 (-1) 110))) 0 = -1
  /\ nth 99 (Trend (detect_trend sma100 (ramp 1 1 110))) 0 = 0.
Proof.
  assert (L : forall a b, (109 < length (ramp a b 110))%nat)
    by (intros; unfold ramp; rewrite length_map, length_seq; lia).
  assert (L' : forall a b, (99 < length (ramp a b 110))%nat)
    by (intros; unfold ramp; rewrite length_map, length_seq; lia).
  destruct (detect_trend_classification sma100 (ramp 1 1 110) 109 (L _ _))
    as ([_ Up] & _).
  destruct (detect_trend_classification sma100 (ramp 300 (-1) 110) 109 (L _ _))
    as (_ & [_ Down] & _).
  destruct (detect_trend_classification sma100 (ramp 1 1 110) 99 (L' _ _))
    as (_ & _ & _ & Neutral & _).
  split; [ | split].
  - apply Up. vm_compute. split; reflexivity.
  - apply Down. vm_compute. split; reflexivity.
  - apply Neutral. right. vm_compute. reflexivity.
Defined.

End MarketBFacts.

(* ------------------------------------------------------------------ *)
(** ** The Volatility-Band frames *)
(* ------------------------------------------------------------------ *)

Module MarketAFacts.
Import Pandas MarketA FloatFacts ListFacts PandasFacts.

Lemma length_ffill_from (prev : float) (xs : list float) :
  length (ffill_from prev xs) = length xs.
Proof.
  revert prev. induction xs as [ | x xs IH]; intro prev; cbn; auto.
Qed.

Lemma length_carry_back (labels : list Z) (cells : list float) (df : table) :
  length (carry_back labels cells df) = length df.
Proof.
  unfold carry_back, ffill, reindex.
  now rewrite length_ffill_from, !length_map.
Qed.

(** The frame [detect_trend] builds once the resampling went through. *)
Definition frame_of (self : TrendDetector) (df : table) : trend_frame :=
  let atr := volatility_indicator self in
  bands self df
    (merge_back atr df (bucket_rows (resample_interval atr * minute_ms) df)).

Lemma resample_to_interval_ok (self : ModifiedATR) (df : table) :
  0 < resample_interval self ->
  resample_to_interval self df
  = Ok (bucket_rows (resample_interval self * minute_ms) df).
Proof.
  intro H. unfold resample_to_interval.
  replace (resample_interval self =? 0) with false
    by (symmetry; apply Z.eqb_neq; lia).
  replace (resample_interval self <? 0) with false
    by (symmetry; apply Z.ltb_ge; lia).
  reflexivity.
Qed.

Lemma detect_trend_ok (self : TrendDetector) (df : table) :
  0 < resample_interval (volatility_indicator self) ->
  detect_trend self df = Ok (frame_of self df).
Proof.
  intro H. unfold detect_trend, calculate.
  now rewrite (resample_to_interval_ok _ df H).
Qed.

Lemma detect_trend_refused (self : TrendDetector) (df : table) :
  resample_interval (volatility_indicator self) <= 0 ->
  is_ok (detect_trend self df) = false.
Proof.
  intro H. unfold detect_trend, calculate, resample_to_interval.
  destruct (Z.eqb_spec (resample_interval (volatility_indicator self)) 0)
    as [E | NE]; [reflexivity | ].
  replace (resample_interval (volatility_indicator self) <? 0) with true
    by (symmetry; apply Z.ltb_lt; lia).
  reflexivity.
Qed.

Lemma rows_frame_of (self : TrendDetector) (df : table) :
  rows (frame (frame_of self df)) = df.
Proof. reflexivity. Qed.

Lemma length_ATR_frame_of (self : TrendDetector) (df : table) :
  length (Resample_ATR (frame (frame_of self df))) = length df.
Proof. apply length_carry_back. Qed.

Lemma length_Close_frame_of (self : TrendDetector) (df : table) :
  length (Resample_Close (frame (frame_of self df))) = length df.
Proof. apply length_carry_back. Qed.

Lemma length_Trend_frame_of (self : TrendDetector) (df : table) :
  length (Trend (frame_of self df)) = length df.
Proof.
  unfold frame_of, bands. cbn [Trend].
  rewrite !length_mask_set, !length_zip_with, !length_map,
    !length_rolling_mean.
  pose proof (length_carry_back
    (map label (bucket_rows (resample_interval (volatility_indicator self)
                             * minute_ms) df))) as L.
  unfold merge_back. cbn [Resample_ATR Resample_Close].
  rewrite !L. lia.
Qed.

End MarketAFacts.

(* ------------------------------------------------------------------ *)
(** ** Per-asset analysis, both pipelines *)
(* ------------------------------------------------------------------ *)

Module AnalyzeAssetFacts.
Import Pandas FloatFacts ListFacts PandasFacts.

(** The percentage change the two [analyze_asset] compute when the table
    has at least 24 rows: last close against the close at [iloc[-24]]. *)
Definition change_24 (df : table) : float :=
  let closes := map close df in
  fmul (fsub (fdiv (nth (length df - 1) closes nan)
                   (nth (length df - 24) closes nan)) one)
       (float_of_Z 100).

Definition price_change_24h_of (df : table) : value :=
  if 24 <=? Z.of_nat (length df) then VFloat (change_24 df) else VNone.

(** What the Moving-Average [analyze_asset] returns on a table with a
    row. *)
Lemma analyze_asset_b (self : MarketB.MarketAnalyzer) (df : table) :
  df <> [] ->
  let f := MarketB.detect_trend (MarketB.trend_detector self) df in
  MarketB.analyze_asset self df
  = Ok [ ("current_trend", VInt (nth (length df - 1) (MarketB.Trend f) 0));
         ("trend_changes", VInt (count_changes (MarketB.Trend f)));
         ("last_price", VFloat (nth (length df - 1) (map close df) nan));
         ("price_change_24h", price_change_24h_of df);
         ("sma", VFloat (nth (length df - 1) (MarketB.SMA f) nan)) ].
Proof.
  intros Hne f. unfold MarketB.analyze_asset. fold f.
  assert (Hlen : (1 <= length df)%nat)
    by (destruct df; [contradiction | cbn; lia]).
  assert (LT : length (MarketB.Trend f) = length df)
    by apply MarketBFacts.length_Trend.
  assert (LS : length (MarketB.SMA f) = length df).
  { unfold f, MarketB.detect_trend, MarketB.calculate.
    cbn [MarketB.SMA MarketB.sma_SMA].
    now rewrite length_rolling_mean, length_map. }
  assert (LR : MarketB.rows f = df) by reflexivity.
  rewrite LR.
  assert (LC : length (map close df) = length df) by apply length_map.
  change (-1) with (- Z.of_nat 1).
  rewrite (iloc_from_end (MarketB.Trend f) 1 0) by lia.
  rewrite (iloc_from_end (map close df) 1 nan) by lia.
  cbn [bind]. rewrite LT, LC.
  unfold price_change_24h_of, change_24.
  destruct (24 <=? Z.of_nat (length df)) eqn:E.
  - apply Z.leb_le in E.
    change (-24) with (- Z.of_nat 24).
    rewrite (iloc_from_end (map close df) 24 nan) by lia.
    cbn [bind]. rewrite LC.
    rewrite (iloc_from_end (MarketB.SMA f) 1 nan) by lia.
    cbn [bind]. rewrite LS. reflexivity.
  - cbn [bind].
    rewrite (iloc_from_end (MarketB.SMA f) 1 nan) by lia.
    cbn [bind]. rewrite LS. reflexivity.
Qed.

(** What the Volatility-Band [analyze_asset] returns on a table with a row,
    for a positive resample interval. *)
Lemma analyze_asset_a (self : MarketA.MarketAnalyzer) (df : table) :
  df <> [] ->
  0 < MarketA.resample_interval
        (MarketA.volatility_indicator (MarketA.trend_detector self)) ->
  let f := MarketAFacts.frame_of (MarketA.trend_detector self) df in
  let vol := MarketA.Resample_ATR (MarketA.frame f) in
  MarketA.analyze_asset self df
  = Ok [ ("current_trend", VInt (nth (length df - 1) (MarketA.Trend f) 0));
         ("avg_volatility", VFloat (mean vol));
         ("current_volatility", VFloat (nth (length df - 1) vol nan));
         ("trend_changes", VInt (count_changes (MarketA.Trend f)));
         ("last_price", VFloat (nth (length df - 1) (map close df) nan));
         ("price_change_24h", price_change_24h_of df) ].
Proof.
  intros Hne Hpos f vol. unfold MarketA.analyze_asset.
  rewrite (MarketAFacts.detect_trend_ok _ df Hpos). fold f. cbn [bind].
  assert (Hlen : (1 <= length df)%nat)
    by (destruct df; [contradiction | cbn; lia]).
  assert (LT : length (MarketA.Trend f) = length df)
    by apply MarketAFacts.length_Trend_frame_of.
  assert (LV : length vol = length df)
    by apply MarketAFacts.length_ATR_frame_of.
  assert (LR : MarketA.rows (MarketA.frame f) = df) by reflexivity.
  rewrite LR. fold vol.
  assert (LC : length (map close df) = length df) by apply length_map.
  change (-1) with (- Z.of_nat 1).
  rewrite (iloc_from_end (MarketA.Trend f) 1 0) by lia.
  rewrite (iloc_from_end vol 1 nan) by lia.
  rewrite (iloc_from_end (map close df) 1 nan) by lia.
  cbn [bind]. rewrite LT, LV, LC.
  unfold price_change_24h_of, change_24.
  destruct (24 <=? Z.of_nat (length df)) eqn:E.
  - apply Z.leb_le in E.
    change (-24) with (- Z.of_nat 24).
    rewrite (iloc_from_end (map close df) 24 nan) by lia.
    cbn [bind]. rewrite LC. reflexivity.
  - reflexivity.
Qed.

Lemma analyze_asset_a_empty (self : MarketA.MarketAnalyzer) :
  is_ok (MarketA.analyze_asset self []) = false.
Proof.
  unfold MarketA.analyze_asset, MarketA.detect_trend, MarketA.calculate,
    MarketA.resample_to_interval.
  destruct (_ =? 0); [reflexivity | ]. now destruct (_ <? 0).
Qed.

End AnalyzeAssetFacts.

(* ------------------------------------------------------------------ *)
(** ** Counting trend changes *)
(* ------------------------------------------------------------------ *)

Module TrendChangesFacts.
Import Pandas FloatFacts ListFacts PandasFacts.

(** The number of rows, past the first, whose classification differs from
    the row above. *)
Fixpoint transitions (s : list Z) : nat :=
  match s with
  | a :: (b :: _) as t => (if a =? b then 0 else 1) + transitions t
  | _ => 0
  end.

Definition trend_code (z : Z) : Prop := z = -1 \/ z = 0 \/ z = 1.

(** On trend codes, the float difference is non-zero exactly when the two
    codes differ. *)
Lemma fne_diff_codes (a b : Z) :
  trend_code a -> trend_code b ->
  fne (fsub (float_of_Z b) (float_of_Z a)) zero = negb (a =? b).
Proof.
  intros [Ha | [Ha | Ha]] [Hb | [Hb | Hb]]; subst; reflexivity.
Qed.

Lemma count_steps (a : Z) (t : list Z) :
  Forall trend_code (a :: t) ->
  length (filter (fun d => fne d zero)
            (zip_with fsub (map float_of_Z t) (map float_of_Z (a :: t))))
  = transitions (a :: t).
Proof.
  revert a. induction t as [ | b t IH]; intros a H; [reflexivity | ].
  inversion H as [ | ? ? Ha Ht]; subst.
  inversion Ht as [ | ? ? Hb _]; subst.
  cbn [map zip_with filter].
  rewrite (fne_diff_codes a b Ha Hb).
  specialize (IH b Ht). cbn [map] in IH.
  cbn [transitions]. fold (transitions (b :: t)).
  destruct (a =? b); cbn [negb length]; rewrite IH; reflexivity.
Qed.

(** [(Trend.diff() != 0).sum()] counts the first row, whose difference is
    undefined, and then every row that differs from the one above. *)
Lemma count_changes_transitions (s : list Z) :
  s <> [] -> Forall trend_code s ->
  count_changes s = Z.of_nat (1 + transitions s).
Proof.
  destruct s as [ | a t]; [contradiction | ]. intros _ H.
  unfold count_changes. cbn [map diff].
  cbn [filter]. change (fne nan zero) with true. cbn iota.
  pose proof (count_steps a t H) as E. cbn [map] in E.
  cbn [length]. rewrite E. reflexivity.
Qed.

Lemma transitions_constant (c : Z) (s : list Z) :
  Forall (eq c) s -> transitions s = 0%nat.
Proof.
  induction s as [ | a [ | b t] IH]; intro H; try reflexivity.
  inversion H as [ | ? ? Ha Ht]; subst.
  inversion Ht as [ | ? ? Hb _]; subst.
  cbn [transitions]. rewrite Z.eqb_refl. now apply IH.
Qed.

Lemma Forall_mask_set (P : Z -> Prop) (trend : list Z) (mask : list bool)
  (v : Z) :
  Forall P trend -> P v -> Forall P (mask_set trend mask v).
Proof.
  intros Ht Hv. unfold mask_set. revert mask.
  induction Ht as [ | t trend Pt _ IH]; intros [ | m mask];
    cbn [zip_with]; constructor; auto.
  now destruct m.
Qed.

Lemma Forall_zeros {A : Type} (P : Z -> Prop) (l : list A) :
  P 0 -> Forall P (map (fun _ => 0) l).
Proof. intro H. induction l; cbn; constructor; auto. Qed.

Lemma Trend_codes_b (self : MarketB.TrendDetector) (df : table) :
  Forall trend_code (MarketB.Trend (MarketB.detect_trend self df)).
Proof.
  unfold MarketB.detect_trend. cbn [MarketB.Trend].
  repeat apply Forall_mask_set; try apply Forall_zeros;
    unfold trend_code; auto.
Qed.

Lemma Trend_codes_a (self : MarketA.TrendDetector) (df : table) :
  Forall trend_code (MarketA.Trend (MarketAFacts.frame_of self df)).
Proof.
  unfold MarketAFacts.frame_of, MarketA.bands. cbn [MarketA.Trend].
  repeat apply Forall_mask_set; try apply Forall_zeros;
    unfold trend_code; auto.
Qed.

End TrendChangesFacts.

(* ------------------------------------------------------------------ *)
(** ** Sample inputs *)
(* ------------------------------------------------------------------ *)

Module Samples.
Import Pandas.

(** Hourly bars from midnight of the epoch's first day, flat within the
    bar, with the given closes. *)
Definition hourly_bar (k : nat) (c : Z) : candle :=
  {| timestamp := Z.of_nat k * 3600000;
     open := float_of_Z c; high := float_of_Z c; low := float_of_Z c;
     close := float_of_Z c; volume := one; turnover := float_of_Z c |}.

Definition hourly (closes : list Z) : table :=
  map (fun kc => hourly_bar (fst kc) (snd kc))
      (combine (seq 0 (length closes)) closes).

(** The analyzers as src/main.py and the script of src/market_a.py build
    them; the hexadecimal literal is the binary64 value of [0.001]. *)
Definition ma_analyzer (p : nat) : MarketB.MarketAnalyzer :=
  {| MarketB.trend_detector :=
       {| MarketB.sma_indicator := {| MarketB.period := p |} |} |}.

Definition vb_analyzer : MarketA.MarketAnalyzer :=
  {| MarketA.trend_detector :=
       {| MarketA.volatility_indicator :=
            {| MarketA.period := 14;
               MarketA.resample_interval := 240;
               MarketA.multiplier := 2%float |};
          MarketA.trend_period := 10;
          MarketA.volatility_multiplier := 1.5%float |};
     MarketA.min_volatility := Some 0x1.0624dd2f1a9fcp-10%float |}.

(** 24 rows with closes 1 .. 24, and 25 rows with closes 1, 2, ..., 2, 4. *)
Definition rows24 : table := hourly (map Z.of_nat (seq 1 24)).
Definition rows25 : table := hourly (1 :: repeat 2 23 ++ [4]).

(** Eight hourly bars from midnight: opens 10 .. 17, closes 10.5 .. 17.5,
    volumes 1 .. 8. *)
Definition bar_oc (k : nat) (o c : float) : candle :=
  {| timestamp := Z.of_nat k * 3600000;
     open := o; high := c; low := o; close := c;
     volume := float_of_nat (k + 1); turnover := zero |}.

Definition bars8 : table :=
  [ bar_oc 0 10 10.5; bar_oc 1 11 11.5; bar_oc 2 12 12.5; bar_oc 3 13 13.5;
    bar_oc 4 14 14.5; bar_oc 5 15 15.5; bar_oc 6 16 16.5;
    bar_oc 7 17 17.5 ]%float.

(** A four-hour ATR over one resampled row. *)
Definition atr_4h : MarketA.ModifiedATR :=
  {| MarketA.period := 1;
     MarketA.resample_interval := 240;
     MarketA.multiplier := 2%float |}.

(** A file system on which a write fails only for a name it cannot
    take. *)
Definition too_long (_ : nat) (name : string) : bool :=
  (Runtime.NAME_MAX <? String.length name)%nat.

Lemma too_long_refused (k : nat) (name : string) :
  (Runtime.NAME_MAX < String.length name)%nat -> too_long k name = true.
Proof. intro H. unfold too_long. now apply Nat.ltb_lt. Qed.

(** An outside world in which the exchange lists nothing and answers no
    kline request, no write fails and no text parses. *)
Definition silent : Runtime.env :=
  {| Runtime.clock := fun k => 1000 * Z.of_nat k;
     Runtime.strftime := fun t => string_of_Z t;
     Runtime.isoformat := fun t => string_of_Z t;
     Runtime.get_kline := fun _ _ _ _ _ _ => Runtime.Kline_response None;
     Runtime.get_instruments_info :=
       fun _ => Runtime.Instruments_response [];
     Runtime.write_fails := too_long;
     Runtime.dump_fails := fun _ _ => false;
     Runtime.to_numeric := fun _ => None;
     Runtime.to_timestamp := fun _ => None;
     Runtime.long_names_refused := too_long_refused |}.

(** One reply of the exchange, newest candle first. *)
Definition candle_row (ts price : string) : list string :=
  [ts; price; price; price; price; "10"; "20"].

Definition number_of (text : string) : option Z :=
  match int_of_str text with
  | Ok z => Some z
  | Raise _ => None
  end.

(** An exchange that lists four instruments, three of them quoted in USDT,
    and whose kline request fails for one of the three. *)
Definition flaky : Runtime.env :=
  {| Runtime.clock := fun k => 1000 * Z.of_nat k;
     Runtime.strftime := fun t => string_of_Z t;
     Runtime.isoformat := fun t => string_of_Z t;
     Runtime.get_kline :=
       fun _ symbol _ _ _ _ =>
         if String.eqb symbol "BUSDT" then Runtime.Kline_raises ApiError
         else Runtime.Kline_response
                (Some [candle_row "3600000" "2"; candle_row "0" "1"]);
     Runtime.get_instruments_info :=
       fun _ => Runtime.Instruments_response
                  ["AUSDT"; "BUSDT"; "BTCUSDC"; "CUSDT"];
     Runtime.write_fails := too_long;
     Runtime.dump_fails := fun _ _ => false;
     Runtime.to_numeric := fun t => option_map float_of_Z (number_of t);
     Runtime.to_timestamp := number_of;
     Runtime.long_names_refused := too_long_refused |}.



Definition empty_summary : Snapshot.market_summary :=
  {| Snapshot.total_assets := 0;
     Snapshot.assets_in_uptrend := 0;
     Snapshot.assets_in_downtrend := 0;
     Snapshot.assets_in_neutral := 0;
     Snapshot.uptrend_percentage := PInt 0;
     Snapshot.downtrend_percentage := PInt 0;
     Snapshot.neutral_percentage := PInt 0 |}.

Definition nothing_on_disk : Runtime.state :=
  {| Runtime.ticks := 0;
     Runtime.cache_dir := [];
     Runtime.base_dir := [];
     Runtime.trace := [] |}.

Definition snapshot_at (stamp : string) : Snapshot.analysis_data :=
  {| Snapshot.timestamp := stamp;
     Snapshot.interval := "D";
     Snapshot.summary := empty_summary;
     Snapshot.top_trending_assets := [] |}.

(** A snapshot directory holding two daily snapshots and a file of another
    interval, which is the newest of the three. *)
Definition two_snapshots : Runtime.state :=
  {| Runtime.ticks := 0;
     Runtime.cache_dir := [];
     Runtime.base_dir :=
       [ {| Runtime.snapshot_name := "market_analysis_D_20240101_000000.json";
            Runtime.snapshot_mtime := 100;
            Runtime.snapshot_data := Runtime.Json (snapshot_at "first") |};
         {| Runtime.snapshot_name := "market_analysis_60_20240103_000000.json";
            Runtime.snapshot_mtime := 300;
            Runtime.snapshot_data := Runtime.Json (snapshot_at "hourly") |};
         {| Runtime.snapshot_name := "market_analysis_D_20240102_000000.json";
            Runtime.snapshot_mtime := 200;
            Runtime.snapshot_data := Runtime.Json (snapshot_at "second") |} ];
     Runtime.trace := [] |}.

(** A Moving-Average per-asset result with the given trend, price and
    sma. *)
Definition ma_result (trend : Z) (price sma : float) : dict value :=
  [ ("current_trend", VInt trend);
    ("trend_changes", VInt 1);
    ("last_price", VFloat price);
    ("price_change_24h", VNone);
    ("sma", VFloat sma) ].

(** Fifteen assets in a clear trend around an sma of 100, asset [k] priced
    at 100 + k (so about k percent away), in no particular order; the odd
    ones rise, the even ones fall. *)
Definition fifteen : dict (dict value) :=
  map (fun k =>
         (String.append "A" (string_of_Z k),
          ma_result (if Z.odd k then 1 else -1)
            (float_of_Z (100 + k)) (float_of_Z 100)))
      [3; 11; 7; 15; 1; 9; 13; 5; 2; 14; 6; 10; 4; 12; 8].




Definition fifteen_stats : MarketB.market_stats :=
  {| MarketB.total_assets := 15;
     MarketB.uptrend_percentage := MarketB.percentage 8 15;
     MarketB.downtrend_percentage := MarketB.percentage 7 15;
     MarketB.neutral_percentage := MarketB.percentage 0 15 |}.

(** A Volatility-Band analyzer with the shortest windows and a band of
    zero width, and its result on five rising hourly bars: an uptrend. *)
Definition vb_small : MarketA.MarketAnalyzer :=
  {| MarketA.trend_detector :=
       {| MarketA.volatility_indicator :=
            {| MarketA.period := 1;
               MarketA.resample_interval := 60;
               MarketA.multiplier := 2%float |};
          MarketA.trend_period := 2;
          MarketA.volatility_multiplier := 0%float |};
     MarketA.min_volatility := None |}.

Definition vb_rising : dict (dict value) :=
  match MarketA.analyze_asset vb_small (hourly [1; 2; 3; 4; 5]) with
  | Ok r => [("UPUSDT", r)]
  | Raise _ => []
  end.

(** 30 rows that never move. *)
Definition flat30 : table := hourly (repeat 5 30).

(** Three short assets: one rising, one falling, one flat. *)
Definition market3 : dict table :=
  [ ("UPUSDT", hourly [1; 2; 4]);
    ("DOWNUSDT", hourly [4; 2; 1]);
    ("FLATUSDT", hourly [1; 1; 1]) ].

End Samples.

(* ------------------------------------------------------------------ *)
(** ** Claims on the per-asset analysis *)
(* ------------------------------------------------------------------ *)

Module AssetClaims.
Import Pandas FloatFacts ListFacts PandasFacts AnalyzeAssetFacts.
Import TrendChangesFacts Samples.

Definition vb_interval (a : MarketA.MarketAnalyzer) : Z :=
  MarketA.resample_interval
    (MarketA.volatility_indicator (MarketA.trend_detector a)).

(** C3.  On every table with at least one row (and a positive resample
    interval for the Volatility-Band pipeline) both [analyze_asset] return,
    with [price_change_24h] equal to [None] when the table has fewer than 24
    rows and, when it has at least 24, to
    ((last close / close at iloc[-24]) - 1) * 100, the change of the last
    close against the close that opens the window of 24 rows ending at the
    last one; for exactly 24 rows that is the first row's close.  A table
    without rows is not analysed: [fetch_all_market_data] stores none and
    [main] keeps only tables of at least 100 rows. *)
Theorem price_change_24h_rows (b : MarketB.MarketAnalyzer)
  (a : MarketA.MarketAnalyzer) (df : table)
  (Hne : df <> []) (Hpos : 0 < vb_interval a) :
  exists rb ra : dict value,
    MarketB.analyze_asset b df = Ok rb
    /\ MarketA.analyze_asset a df = Ok ra
    /\ ((length df < 24)%nat ->
        dict_find rb "price_change_24h" = Some VNone
        /\ dict_find ra "price_change_24h" = Some VNone)
    /\ ((24 <= length df)%nat ->
        let closes := map close df in
        let last := nth (length df - 1) closes nan in
        let earlier := nth (length df - 24) closes nan in
        let v := VFloat (fmul (fsub (fdiv last earlier) one) (float_of_Z 100)) in
        dict_find rb "price_change_24h" = Some v
        /\ dict_find ra "price_change_24h" = Some v)
    /\ (length df = 24%nat ->
        let closes := map close df in
        let last := nth 23 closes nan in
        let first := nth 0 closes nan in
        let v := VFloat (fmul (fsub (fdiv last first) one) (float_of_Z 100)) in
        dict_find rb "price_change_24h" = Some v
        /\ dict_find ra "price_change_24h" = Some v).
Proof.
  eexists. eexists.
  split; [apply (analyze_asset_b b df Hne) | ].
  split; [apply (analyze_asset_a a df Hne Hpos) | ].
  cbn [dict_find String.eqb Ascii.eqb Bool.eqb].
  unfold price_change_24h_of, change_24.
  split; [ | split].
  - intro H. replace (24 <=? Z.of_nat (length df)) with false
      by (symmetry; apply Z.leb_gt; lia).
    split; reflexivity.
  - intro H. replace (24 <=? Z.of_nat (length df)) with true
      by (symmetry; apply Z.leb_le; lia).
    split; reflexivity.
  - intro H. rewrite H. split; reflexivity.
Qed.

Lemma price_change_24h_rows_witness :
  exists rb ra : dict value,
    MarketB.analyze_asset (ma_analyzer 2) rows24 = Ok rb
    /\ MarketA.analyze_asset vb_analyzer rows24 = Ok ra
    /\ dict_find rb "price_change_24h" = Some (VFloat 2300%float)
    /\ dict_find ra "price_change_24h" = Some (VFloat 2300%float).
Proof.
  destruct (price_change_24h_rows (ma_analyzer 2) vb_analyzer rows24
              ltac:(discriminate) ltac:(reflexivity))
    as (rb & ra & Hb & Ha & _ & _ & H24).
  exists rb, ra. split; [exact Hb | split; [exact Ha | ]].
  exact (H24 eq_refl).
Defined.

Lemma Forall_eq_forallb (c : Z) (l : list Z) :
  forallb (Z.eqb c) l = true -> Forall (eq c) l.
Proof.
  intro H. apply Forall_forall. intros x Hx.
  rewrite forallb_forall in H. apply Z.eqb_eq. now apply H.
Qed.

(** C10.  In both pipelines [trend_changes] is the number of rows whose
    classification's first difference is non-zero or undefined: the first
    row, which has no row above it, always counts, and after it every row
    that differs from the row above.  So on every non-empty table it is at
    least 1, and a classification that is the same in every row (entirely
    neutral, say) gives exactly 1, not 0. *)
Theorem trend_changes_counts_first_row (b : MarketB.MarketAnalyzer)
  (a : MarketA.MarketAnalyzer) (df : table)
  (Hne : df <> []) (Hpos : 0 < vb_interval a) :
  let tb := MarketB.Trend (MarketB.detect_trend (MarketB.trend_detector b) df) in
  let fa := MarketAFacts.frame_of (MarketA.trend_detector a) df in
  let ta := MarketA.Trend fa in
  exists rb ra : dict value,
    MarketB.analyze_asset b df = Ok rb
    /\ MarketA.detect_trend (MarketA.trend_detector a) df = Ok fa
    /\ MarketA.analyze_asset a df = Ok ra
    /\ dict_find rb "trend_changes" = Some (VInt (Z.of_nat (1 + transitions tb)))
    /\ dict_find ra "trend_changes" = Some (VInt (Z.of_nat (1 + transitions ta)))
    /\ count_changes tb = Z.of_nat (1 + transitions tb)
    /\ count_changes ta = Z.of_nat (1 + transitions ta)
    /\ (forall c : Z, Forall (eq c) tb ->
        dict_find rb "trend_changes" = Some (VInt 1))
    /\ (forall c : Z, Forall (eq c) ta ->
        dict_find ra "trend_changes" = Some (VInt 1)).
Proof.
  intros tb fa ta.
  assert (Nb : tb <> []).
  { intro E. apply (f_equal (@length Z)) in E. unfold tb in E.
    rewrite MarketBFacts.length_Trend in E. destruct df; [contradiction | ].
    discriminate. }
  assert (Na : ta <> []).
  { intro E. apply (f_equal (@length Z)) in E. unfold ta, fa in E.
    rewrite MarketAFacts.length_Trend_frame_of in E.
    destruct df; [contradiction | ]. discriminate. }
  pose proof (count_changes_transitions tb Nb (Trend_codes_b _ df)) as Cb.
  pose proof (count_changes_transitions ta Na (Trend_codes_a _ df)) as Ca.
  eexists. eexists.
  split; [apply (analyze_asset_b b df Hne) | ].
  split; [apply (MarketAFacts.detect_trend_ok _ df Hpos) | ].
  split; [apply (analyze_asset_a a df Hne Hpos) | ].
  cbn [dict_find String.eqb Ascii.eqb Bool.eqb].
  fold tb. fold fa. fold ta. rewrite Cb, Ca.
  repeat (split; [reflexivity | ]).
  split; intros c Hc.
  - now rewrite (transitions_constant c tb Hc).
  - now rewrite (transitions_constant c ta Hc).
Qed.

Lemma trend_changes_counts_first_row_witness :
  exists rb ra : dict value,
    MarketB.analyze_asset (ma_analyzer 2) flat30 = Ok rb
    /\ MarketA.analyze_asset vb_analyzer flat30 = Ok ra
    /\ dict_find rb "current_trend" = Some (VInt 0)
    /\ dict_find ra "current_trend" = Some (VInt 0)
    /\ dict_find rb "trend_changes" = Some (VInt 1)
    /\ dict_find ra "trend_changes" = Some (VInt 1).
Proof.
  destruct (trend_changes_counts_first_row (ma_analyzer 2) vb_analyzer flat30
              ltac:(discriminate) ltac:(reflexivity))
    as (rb & ra & Hb & _ & Ha & _ & _ & _ & _ & Kb & Ka).
  exists rb, ra.
  split; [exact Hb | split; [exact Ha | ]].
  split; [ | split; [ | split]].
  - assert (E : MarketB.analyze_asset (ma_analyzer 2) flat30 = Ok rb)
      by exact Hb.
    vm_compute in E. injection E as <-. reflexivity.
  - assert (E : MarketA.analyze_asset vb_analyzer flat30 = Ok ra)
      by exact Ha.
    vm_compute in E. injection E as <-. reflexivity.
  - apply (Kb 0). apply Forall_eq_forallb. vm_compute. reflexivity.
  - apply (Ka 0). apply Forall_eq_forallb. vm_compute. reflexivity.
Defined.

End AssetClaims.

(* ------------------------------------------------------------------ *)
(** ** Market-level aggregation *)
(* ------------------------------------------------------------------ *)

Module AnalyzeMarketFacts.
Import Pandas MarketB FloatFacts ListFacts AnalyzeAssetFacts Samples.

(** Whether a stored analysis carries trend code [z]. *)
Definition trend_is (analysis : dict value) (z : Z) : bool :=
  match dict_find analysis "current_trend" with
  | Some v => value_is v z
  | None => false
  end.

(** The number of stored analyses with trend code [z]. *)
Definition count_trend (z : Z) (assets : dict (dict value)) : Z :=
  Z.of_nat (length (filter (fun e => trend_is (snd e) z) assets)).

(** The percentage expression over the rationals, without rounding. *)
Definition exact_pct (count n : Z) : Q :=
  (inject_Z count / inject_Z n * 100)%Q.

Lemma exact_pct_sum (u d n : Z) :
  0 < n ->
  (exact_pct u n + exact_pct d n + exact_pct (n - u - d) n == 100)%Q.
Proof.
  intro H. unfold exact_pct.
  assert (N : ~ (inject_Z n == 0)%Q).
  { intro E. unfold Qeq in E. cbn in E. lia. }
  unfold Z.sub. rewrite !inject_Z_plus, !inject_Z_opp. field. exact N.
Qed.

Lemma dict_find_None {A : Type} (d : dict A) (k : string) :
  ~ In k (keys d) -> dict_find d k = None.
Proof.
  induction d as [ | [k' v] d IH]; cbn; intro H; [reflexivity | ].
  destruct (String.eqb_spec k' k) as [E | NE]; [tauto | ].
  apply IH. tauto.
Qed.

Lemma dict_set_fresh {A : Type} (d : dict A) (k : string) (v : A) :
  ~ In k (keys d) -> dict_set d k v = d ++ [(k, v)].
Proof.
  induction d as [ | [k' v'] d IH]; cbn; intro H; [reflexivity | ].
  destruct (String.eqb_spec k' k) as [E | NE]; [tauto | ].
  rewrite IH by tauto. reflexivity.
Qed.

(** The counters agree with the stored analyses. *)
Record consistent (t : tally) : Prop := {
  c_valid : valid_assets t = Z.of_nat (length (assets_analysis t));
  c_up : uptrend_count t = count_trend 1 (assets_analysis t);
  c_down : downtrend_count t = count_trend (-1) (assets_analysis t);
  c_up_pos : 0 <= uptrend_count t;
  c_down_pos : 0 <= downtrend_count t;
  c_bound : uptrend_count t + downtrend_count t <= valid_assets t
}.

Lemma count_trend_app (z : Z) (assets : dict (dict value)) (k : string)
  (analysis : dict value) :
  count_trend z (assets ++ [(k, analysis)])
  = count_trend z assets + (if trend_is analysis z then 1 else 0).
Proof.
  unfold count_trend. rewrite filter_app, length_app. cbn [filter snd].
  destruct (trend_is analysis z); cbn [length]; lia.
Qed.

Lemma consistent_record (acc : tally) (symbol : string)
  (analysis : dict value) (z : Z) :
  consistent acc ->
  ~ In symbol (keys (assets_analysis acc)) ->
  dict_find analysis "current_trend" = Some (VInt z) ->
  consistent (record_asset acc symbol analysis (VInt z)).
Proof.
  intros [Hv Hu Hd Pu Pd Hb] Hfresh Hz.
  assert (T1 : trend_is analysis 1 = (z =? 1))
    by (unfold trend_is; now rewrite Hz).
  assert (T2 : trend_is analysis (-1) = (z =? -1))
    by (unfold trend_is; now rewrite Hz).
  unfold record_asset.
  constructor;
    cbn [assets_analysis valid_assets uptrend_count downtrend_count value_is];
    rewrite ?(dict_set_fresh _ _ _ Hfresh), ?count_trend_app, ?T1, ?T2,
      ?length_app;
    cbn [length];
    destruct (Z.eqb_spec z 1), (Z.eqb_spec z (-1)); lia.
Qed.

(** A loop body that either leaves the state alone or records the asset
    with an integer trend code. *)
Definition well_behaved (step : tally -> string * table -> result tally)
  : Prop :=
  forall (acc : tally) (symbol : string) (df : table),
    step acc (symbol, df) = Ok acc
    \/ exists (analysis : dict value) (z : Z),
         dict_find analysis "current_trend" = Some (VInt z)
         /\ step acc (symbol, df) = Ok (record_asset acc symbol analysis (VInt z)).

Lemma for_each_consistent (step : tally -> string * table -> result tally)
  (items : dict table) :
  well_behaved step ->
  forall acc : tally,
    NoDup (keys items) ->
    (forall k, In k (keys (assets_analysis acc)) -> ~ In k (keys items)) ->
    consistent acc ->
    exists t : tally, for_each step acc items = Ok t /\ consistent t.
Proof.
  intro Hstep. induction items as [ | [symbol df] items IH];
    intros acc Hnd Hdisj Hc.
  - exists acc. split; [reflexivity | exact Hc].
  - cbn [keys map fst] in Hnd, Hdisj. inversion Hnd as [ | ? ? Hnotin Hnd'].
    subst. cbn [for_each].
    destruct (Hstep acc symbol df) as [E | (analysis & z & Hz & E)];
      rewrite E; cbn [bind].
    + apply IH; auto. intros k Hk Hin. apply (Hdisj k Hk). now right.
    + assert (Hfresh : ~ In symbol (keys (assets_analysis acc))).
      { intro Hin. apply (Hdisj symbol Hin). now left. }
      apply IH; auto.
      * intros k Hk Hin. unfold record_asset in Hk.
        cbn [assets_analysis] in Hk.
        rewrite (dict_set_fresh _ _ _ Hfresh) in Hk.
        unfold keys in Hk. rewrite map_app in Hk. apply in_app_or in Hk.
        destruct Hk as [Hk | [Hk | []]].
        -- apply (Hdisj k Hk). now right.
        -- cbn in Hk. subst k. contradiction.
      * now apply consistent_record.
Qed.

Lemma well_behaved_b (self : MarketAnalyzer) :
  (1 <= period (sma_indicator (trend_detector self)))%nat ->
  well_behaved (analyze_step self).
Proof.
  intros Hp acc symbol df. unfold analyze_step.
  destruct (length df <? period (sma_indicator (trend_detector self)))%nat
    eqn:E; [now left | right].
  apply Nat.ltb_ge in E.
  assert (Hne : df <> []) by (intro; subst; cbn in E; lia).
  rewrite (analyze_asset_b self df Hne). cbn [bind].
  eexists. eexists. split; [ | reflexivity]. reflexivity.
Qed.

Lemma well_behaved_a (self : MarketA.MarketAnalyzer) :
  0 < MarketA.resample_interval
        (MarketA.volatility_indicator (MarketA.trend_detector self)) ->
  well_behaved (MarketA.analyze_step self).
Proof.
  intros Hp acc symbol df. unfold MarketA.analyze_step.
  destruct (length df <? 20)%nat eqn:E; [now left | ].
  apply Nat.ltb_ge in E.
  assert (Hne : df <> []) by (intro; subst; cbn in E; lia).
  rewrite (analyze_asset_a self df Hne Hp). cbn [bind].
  destruct (MarketA.min_volatility self) as [threshold | ].
  - cbn [dict_get dict_find String.eqb Ascii.eqb Bool.eqb bind
           MarketA.below_threshold].
    destruct (flt _ threshold); [now left | right].
    eexists. eexists. split; [ | reflexivity]. reflexivity.
  - cbn [bind]. right.
    eexists. eexists. split; [ | reflexivity]. reflexivity.
Qed.

(** What the statistics say about the stored analyses. *)
Definition stats_agree (st : market_stats) (assets : dict (dict value))
  : Prop :=
  let n := Z.of_nat (length assets) in
  let u := count_trend 1 assets in
  let d := count_trend (-1) assets in
  total_assets st = n
  /\ 0 <= u /\ 0 <= d /\ u + d <= n
  /\ (n = 0 ->
      uptrend_percentage st = PInt 0
      /\ downtrend_percentage st = PInt 0
      /\ neutral_percentage st = PInt 0)
  /\ (0 < n ->
      uptrend_percentage st
      = PFloat (fmul (fdiv (float_of_Z u) (float_of_Z n)) (float_of_Z 100))
      /\ downtrend_percentage st
         = PFloat (fmul (fdiv (float_of_Z d) (float_of_Z n)) (float_of_Z 100))
      /\ neutral_percentage st
         = PFloat (fmul (fdiv (float_of_Z (n - u - d)) (float_of_Z n))
                        (float_of_Z 100))
      /\ (exact_pct u n + exact_pct d n + exact_pct (n - u - d) n == 100)%Q).

Lemma stats_agree_of_tally (t : tally) :
  consistent t ->
  let n := valid_assets t in
  stats_agree
    {| total_assets := n;
       uptrend_percentage := percentage (uptrend_count t) n;
       downtrend_percentage := percentage (downtrend_count t) n;
       neutral_percentage :=
         percentage (n - uptrend_count t - downtrend_count t) n |}
    (assets_analysis t).
Proof.
  intros [Hv Hu Hd Pu Pd Hb] n. unfold stats_agree.
  cbn [total_assets uptrend_percentage downtrend_percentage
         neutral_percentage].
  rewrite <- Hv, <- Hu, <- Hd. fold n.
  split; [reflexivity | ]. repeat (split; [assumption | ]).
  unfold percentage. split.
  - intro Hn. rewrite Hn. cbn. auto.
  - intro Hn. replace (0 <? n) with true by (symmetry; now apply Z.ltb_lt).
    repeat (split; [reflexivity | ]). now apply exact_pct_sum.
Qed.

End AnalyzeMarketFacts.

Module MarketClaims.
Import Pandas FloatFacts ListFacts AnalyzeAssetFacts AnalyzeMarketFacts.
Import Samples.

(** C4, as the code has it.  For every market_data mapping (a dict: its
    keys are distinct), a Moving-Average analyzer with a period of at least
    1 and a Volatility-Band analyzer with a positive resample interval,
    both [analyze_market] return.  [total_assets] is the number of stored
    analyses; with none, the three percentages are the integer 0 and no
    division takes place; otherwise they are the floats u / n * 100,
    d / n * 100 and (n - u - d) / n * 100 for the numbers u, d of stored
    analyses with trend +1 and -1, so the neutral share is the complement
    and not a tally of its own, 0 <= u, 0 <= d, u + d <= n, and the three
    expressions add up to 100 over the rationals.  Each float carries the
    rounding of its division and product: their float sum need not be
    100. *)
Theorem analyze_market_percentages (b : MarketB.MarketAnalyzer)
  (a : MarketA.MarketAnalyzer) (market_data : dict table)
  (Hkeys : NoDup (keys market_data))
  (Hperiod : (1 <= MarketB.period
                     (MarketB.sma_indicator (MarketB.trend_detector b)))%nat)
  (Hinterval : 0 < MarketA.resample_interval
                     (MarketA.volatility_indicator
                        (MarketA.trend_detector a))) :
  exists (sb sa : MarketB.market_stats) (ab aa : dict (dict value)),
    MarketB.analyze_market b market_data = Ok (sb, ab)
    /\ MarketA.analyze_market a market_data = Ok (sa, aa)
    /\ stats_agree sb ab
    /\ stats_agree sa aa.
Proof.
  assert (C0 : consistent (MarketB.Build_tally [] 0 0 0))
    by (constructor; cbn; reflexivity || lia).
  destruct (for_each_consistent _ market_data (well_behaved_b b Hperiod)
              (MarketB.Build_tally [] 0 0 0) Hkeys
              ltac:(intros k []) C0) as (tb & Eb & Cb).
  destruct (for_each_consistent _ market_data (well_behaved_a a Hinterval)
              (MarketB.Build_tally [] 0 0 0) Hkeys
              ltac:(intros k []) C0) as (ta & Ea & Ca).
  eexists. eexists. eexists. eexists.
  unfold MarketB.analyze_market, MarketA.analyze_market.
  rewrite Eb, Ea. cbn [bind].
  split; [reflexivity | split; [reflexivity | ]].
  split; [exact (stats_agree_of_tally tb Cb) | ].
  exact (stats_agree_of_tally ta Ca).
Qed.

Lemma NoDup_keys_market3 : NoDup (keys market3).
Proof.
  repeat constructor; cbn; intuition discriminate.
Qed.

(** Three short assets: the Moving-Average analyzer (period 2) keeps all
    three, the Volatility-Band one, which wants 20 rows, keeps none and
    reports the integer 0 three times. *)
Lemma analyze_market_percentages_witness :
  exists (sb sa : MarketB.market_stats) (ab aa : dict (dict value)),
    MarketB.analyze_market (ma_analyzer 2) market3 = Ok (sb, ab)
    /\ MarketA.analyze_market vb_analyzer market3 = Ok (sa, aa)
    /\ stats_agree sb ab
    /\ stats_agree sa aa
    /\ MarketB.total_assets sb = 3
    /\ MarketB.total_assets sa = 0
    /\ MarketB.neutral_percentage sa = PInt 0.
Proof.
  destruct (analyze_market_percentages (ma_analyzer 2) vb_analyzer market3
              NoDup_keys_market3 ltac:(cbn; lia) ltac:(reflexivity))
    as (sb & sa & ab & aa & Eb & Ea & Sb & Sa).
  exists sb, sa, ab, aa.
  split; [exact Eb | split; [exact Ea | split; [exact Sb | split; [exact Sa | ]]]].
  assert (Eb' : MarketB.analyze_market (ma_analyzer 2) market3 = Ok (sb, ab))
    by exact Eb.
  assert (Ea' : MarketA.analyze_market vb_analyzer market3 = Ok (sa, aa))
    by exact Ea.
  vm_compute in Eb'. vm_compute in Ea'.
  injection Eb' as <- <-. injection Ea' as <- <-.
  repeat split.
Defined.

(** C4 as stated fails on the float sum: with one uptrend, one downtrend
    and one neutral asset each percentage is 1 / 3 * 100 =
    33.33333333333333, and the three add up to 99.99999999999999, not to
    100. *)
Lemma analyze_market_percentages_counterexample :
  exists (st : MarketB.market_stats) (assets : dict (dict value))
         (u d n : float),
    MarketB.analyze_market (ma_analyzer 2) market3 = Ok (st, assets)
    /\ MarketB.total_assets st = 3
    /\ MarketB.uptrend_percentage st = PFloat u
    /\ MarketB.downtrend_percentage st = PFloat d
    /\ MarketB.neutral_percentage st = PFloat n
    /\ PrimFloat.eqb (fadd (fadd u d) n) 100%float = false
    /\ PrimFloat.eqb (fadd u (fadd d n)) 100%float = false
    /\ PrimFloat.ltb (fadd (fadd u d) n) 100%float = true.
Proof.
  eexists. eexists. eexists. eexists. eexists.
  split; [vm_compute; reflexivity | ].
  repeat (split; [reflexivity | ]). reflexivity.
Qed.

End MarketClaims.

(* ------------------------------------------------------------------ *)
(** ** Resampling and the merge back onto the original rows *)
(* ------------------------------------------------------------------ *)

Module ResampleFacts.
Import Pandas MarketA FloatFacts ListFacts PandasFacts MarketAFacts.

(** Rows in strictly ascending time order, as [get_kline_data] leaves them
    when the exchange sends one bar per instant. *)
Definition ascending (df : table) : Prop :=
  StronglySorted (fun a b => timestamp a < timestamp b) df.

Definition no_candle : candle := Build_candle 0 nan nan nan nan nan nan.
Definition no_bucket : ohlcv := Build_ohlcv 0 nan nan nan nan nan.

Lemma sort_by_ascending (df : table) :
  ascending df -> sort_by by_timestamp df = df.
Proof.
  induction 1 as [ | a l Hl IH Ha]; [reflexivity | ].
  unfold sort_by in *. cbn [fold_right]. rewrite IH.
  destruct l as [ | b l]; [reflexivity | ].
  cbn [insert_by]. inversion Ha as [ | ? ? Hab _]; subst.
  unfold by_timestamp.
  replace (timestamp b <? timestamp a) with false
    by (symmetry; apply Z.ltb_ge; lia).
  reflexivity.
Qed.

Lemma ts_min_le (ts : list Z) (t : Z) : In t ts -> ts_min ts <= t.
Proof.
  unfold ts_min. generalize (hd 0 ts) as d.
  induction ts as [ | x ts IH]; intros d H; [destruct H | ].
  cbn [fold_right]. destruct H as [E | H].
  - subst. lia.
  - specialize (IH d H). lia.
Qed.

Lemma ts_max_ge (ts : list Z) (t : Z) : In t ts -> t <= ts_max ts.
Proof.
  unfold ts_max. generalize (hd 0 ts) as d.
  induction ts as [ | x ts IH]; intros d H; [destruct H | ].
  cbn [fold_right]. destruct H as [E | H].
  - subst. lia.
  - specialize (IH d H). lia.
Qed.

Lemma first_edge_bounds (width : Z) (ts : list Z) :
  0 < width ->
  first_edge width ts <= ts_min ts < first_edge width ts + width.
Proof.
  intro H. unfold first_edge.
  pose proof (Z.mod_pos_bound (ts_min ts - ts_min ts / day_ms * day_ms)
                width H). lia.
Qed.

(** The bin a timestamp falls in. *)
Definition bucket_of (width : Z) (ts : list Z) (t : Z) : nat :=
  Z.to_nat ((t - first_edge width ts) / width).

(** The bins cover the rows: every row falls in the bin [bucket_of] names,
    which is one of the bins of the resampled frame. *)
Lemma bucket_of_row (width : Z) (df : table) (r : candle) :
  0 < width -> In r df ->
  let ts := map timestamp df in
  let k := bucket_of width ts (timestamp r) in
  (k < bucket_count width ts)%nat
  /\ in_bucket width (bucket_label width ts k) r = true.
Proof.
  intros Hw Hin ts k.
  assert (Ht : In (timestamp r) ts) by (unfold ts; now apply in_map).
  pose proof (ts_min_le ts _ Ht) as Hmin.
  pose proof (ts_max_ge ts _ Ht) as Hmax.
  pose proof (first_edge_bounds width ts Hw) as He.
  set (e0 := first_edge width ts) in *.
  assert (Hq : 0 <= (timestamp r - e0) / width)
    by (apply Z.div_pos; lia).
  assert (Hq' : (timestamp r - e0) / width <= (ts_max ts - e0) / width)
    by (apply Z.div_le_mono; lia).
  split.
  - unfold k, bucket_of, bucket_count. fold e0. lia.
  - unfold in_bucket, bucket_label, k, bucket_of. fold e0.
    rewrite Z2Nat.id by exact Hq.
    pose proof (Z.mul_div_le (timestamp r - e0) width Hw).
    pose proof (Z.mul_succ_div_gt (timestamp r - e0) width Hw).
    apply andb_true_intro. split; [apply Z.leb_le | apply Z.ltb_lt]; nia.
Qed.

(** The bins are disjoint. *)
Lemma in_bucket_unique (width : Z) (ts : list Z) (r : candle) (k k' : nat) :
  0 < width ->
  in_bucket width (bucket_label width ts k) r = true ->
  in_bucket width (bucket_label width ts k') r = true ->
  k = k'.
Proof.
  unfold in_bucket, bucket_label. intros Hw H1 H2.
  apply andb_prop in H1. apply andb_prop in H2.
  destruct H1 as [A1 B1], H2 as [A2 B2].
  apply Z.leb_le in A1, A2. apply Z.ltb_lt in B1, B2. nia.
Qed.

Lemma length_bucket_rows (width : Z) (df : table) :
  df <> [] ->
  length (bucket_rows width df) = bucket_count width (map timestamp df).
Proof.
  destruct df as [ | c df]; [contradiction | intros _].
  unfold bucket_rows. now rewrite length_map, length_seq.
Qed.

Lemma nth_bucket_rows (width : Z) (df : table) (k : nat) :
  ascending df -> df <> [] ->
  (k < bucket_count width (map timestamp df))%nat ->
  nth k (bucket_rows width df) no_bucket
  = aggregate (bucket_label width (map timestamp df) k)
      (filter (in_bucket width (bucket_label width (map timestamp df) k)) df).
Proof.
  intros Hasc Hne Hk. destruct df as [ | c df]; [contradiction | ].
  unfold bucket_rows. rewrite (sort_by_ascending _ Hasc).
  now rewrite nth_map_seq.
Qed.

Lemma labels_bucket_rows (width : Z) (df : table) :
  df <> [] ->
  map label (bucket_rows width df)
  = map (bucket_label width (map timestamp df))
      (seq 0 (bucket_count width (map timestamp df))).
Proof.
  destruct df as [ | c df]; [contradiction | intros _].
  unfold bucket_rows. rewrite map_map. reflexivity.
Qed.

(** *** Reindexing *)

Lemma cell_at_missing (labels : list Z) (cells : list float) (t : Z) :
  ~ In t labels -> cell_at labels cells t = nan.
Proof.
  revert cells. induction labels as [ | l labels IH]; intros [ | c cells] H;
    cbn [cell_at]; try reflexivity.
  destruct (Z.eqb_spec l t) as [E | NE].
  - exfalso. apply H. now left.
  - apply IH. intro Hin. apply H. now right.
Qed.

Lemma cell_at_nth (labels : list Z) (cells : list float) (k : nat) :
  NoDup labels -> length cells = length labels ->
  (k < length labels)%nat ->
  cell_at labels cells (nth k labels 0) = nth k cells nan.
Proof.
  intro Hnd. revert cells k.
  induction Hnd as [ | l labels Hnotin Hnd IH]; intros [ | c cells] k Hlen Hk;
    cbn [length] in *; try lia.
  destruct k as [ | k]; cbn [nth cell_at].
  - now rewrite Z.eqb_refl.
  - destruct (Z.eqb_spec l (nth k labels 0)) as [E | NE].
    + exfalso. apply Hnotin. rewrite E. apply nth_In. lia.
    + apply IH; lia.
Qed.

Lemma bucket_label_injective (width : Z) (ts : list Z) :
  0 < width -> Finite.Injective (bucket_label width ts).
Proof. intros Hw x y E. unfold bucket_label in E. nia. Qed.

Lemma NoDup_labels (width : Z) (ts : list Z) (n : nat) :
  0 < width -> NoDup (map (bucket_label width ts) (seq 0 n)).
Proof.
  intro Hw. apply Finite.Injective_map_NoDup.
  - now apply bucket_label_injective.
  - apply seq_NoDup.
Qed.

Lemma nth_labels (width : Z) (ts : list Z) (n k : nat) :
  (k < n)%nat ->
  nth k (map (bucket_label width ts) (seq 0 n)) 0 = bucket_label width ts k.
Proof. intro H. now rewrite nth_map_seq. Qed.

(** A timestamp strictly inside a bin is no bin's label. *)
Lemma inside_not_label (width : Z) (ts : list Z) (n k : nat) (t : Z) :
  0 < width ->
  bucket_label width ts k < t < bucket_label width ts k + width ->
  ~ In t (map (bucket_label width ts) (seq 0 n)).
Proof.
  intros Hw Ht Hin. apply in_map_iff in Hin.
  destruct Hin as (k' & E & _). unfold bucket_label in *.
  assert (A : Z.of_nat k * width < Z.of_nat k' * width) by lia.
  assert (B : Z.of_nat k' * width < (Z.of_nat k + 1) * width) by lia.
  apply Z.mul_lt_mono_pos_r in A; [ | exact Hw].
  apply Z.mul_lt_mono_pos_r in B; [ | exact Hw]. lia.
Qed.

(** *** Forward fill *)

Lemma nth_ffill_from_0 (p x : float) (t : list float) :
  nth 0 (ffill_from p (x :: t)) nan = if isnan x then p else x.
Proof. reflexivity. Qed.

(** Past the first row, a cell of the filled series is the row's own cell
    when that is not [NaN] and the filled cell of the row above when it
    is: the last known value is held, nothing is interpolated. *)
Lemma nth_ffill_from_S (xs : list float) :
  forall (p : float) (j : nat),
    (S j < length xs)%nat ->
    nth (S j) (ffill_from p xs) nan
    = if isnan (nth (S j) xs nan) then nth j (ffill_from p xs) nan
      else nth (S j) xs nan.
Proof.
  induction xs as [ | x t IH]; intros p j H; cbn [length] in H; [lia | ].
  cbn [ffill_from]. cbn [nth].
  destruct j as [ | j].
  - destruct t as [ | y t]; cbn [length] in H; [lia | ]. reflexivity.
  - rewrite IH by lia. cbn [nth]. reflexivity.
Qed.

Lemma nth_reindex (labels : list Z) (cells : list float) (df : table)
  (j : nat) :
  (j < length df)%nat ->
  nth j (reindex labels cells (map timestamp df)) nan
  = cell_at labels cells (timestamp (nth j df no_candle)).
Proof.
  intro H. unfold reindex. rewrite map_map.
  rewrite (nth_indep _ nan (cell_at labels cells (timestamp no_candle)))
    by (now rewrite length_map).
  now rewrite (map_nth (fun r => cell_at labels cells (timestamp r))).
Qed.

(** *** The merged-back column *)

(** A row on a bin's left edge takes the bin's own cell, when there is
    one. *)
Lemma carry_back_on_edge (width : Z) (ts : list Z) (n : nat)
  (cells : list float) (df : table) (j k : nat) :
  0 < width -> length cells = n ->
  (j < length df)%nat -> (k < n)%nat ->
  timestamp (nth j df no_candle) = bucket_label width ts k ->
  isnan (nth k cells nan) = false ->
  nth j (carry_back (map (bucket_label width ts) (seq 0 n)) cells df) nan
  = nth k cells nan.
Proof.
  intros Hw Hlen Hj Hk Ht Hc. unfold carry_back, ffill.
  set (labels := map (bucket_label width ts) (seq 0 n)).
  set (xs := reindex labels cells (map timestamp df)).
  assert (Lx : length xs = length df)
    by (unfold xs, reindex; now rewrite !length_map).
  assert (Lseq : length labels = n)
    by (unfold labels; now rewrite length_map, length_seq).
  assert (Hx : nth j xs nan = nth k cells nan).
  { unfold xs. rewrite nth_reindex by exact Hj. rewrite Ht.
    rewrite <- (nth_labels width ts n k Hk). fold labels.
    apply cell_at_nth; try lia. now apply NoDup_labels. }
  destruct j as [ | j].
  - destruct xs as [ | x t]; cbn [length] in Lx; [lia | ].
    rewrite nth_ffill_from_0. cbn [nth] in Hx. rewrite Hx, Hc. reflexivity.
  - rewrite nth_ffill_from_S by lia. now rewrite Hx, Hc.
Qed.

(** A row that is on no bin's left edge repeats the row above. *)
Lemma carry_back_off_edge (labels : list Z) (cells : list float)
  (df : table) (j : nat) :
  (S j < length df)%nat ->
  ~ In (timestamp (nth (S j) df no_candle)) labels ->
  nth (S j) (carry_back labels cells df) nan
  = nth j (carry_back labels cells df) nan.
Proof.
  intros Hj Hnot. unfold carry_back, ffill.
  rewrite nth_ffill_from_S
    by (unfold reindex; rewrite !length_map; exact Hj).
  rewrite nth_reindex by exact Hj.
  now rewrite (cell_at_missing _ _ _ Hnot).
Qed.

(** The cell a row finds in the resampled column is undefined when the
    row stands on no left edge, or on the edge of a bin whose cell is
    [NaN]. *)
Lemma reindex_undefined (width : Z) (ts : list Z) (n : nat)
  (cells : list float) (df : table) (j : nat) :
  0 < width -> length cells = n -> (j < length df)%nat ->
  (forall k : nat, (k < n)%nat ->
     timestamp (nth j df no_candle) = bucket_label width ts k ->
     isnan (nth k cells nan) = true) ->
  isnan (nth j (reindex (map (bucket_label width ts) (seq 0 n)) cells
                  (map timestamp df)) nan) = true.
Proof.
  intros Hw Hlen Hj Hown. rewrite nth_reindex by exact Hj.
  set (labels := map (bucket_label width ts) (seq 0 n)).
  destruct (in_dec Z.eq_dec (timestamp (nth j df no_candle)) labels)
    as [Hin | Hnot].
  - apply in_map_iff in Hin. destruct Hin as (k & Ek & Hk).
    apply in_seq in Hk. assert (Hk' : (k < n)%nat) by lia.
    rewrite <- Ek. rewrite <- (nth_labels width ts n k Hk'). fold labels.
    rewrite cell_at_nth.
    + apply Hown; [exact Hk' | now symmetry].
    + now apply NoDup_labels.
    + unfold labels. rewrite length_map, length_seq. exact Hlen.
    + unfold labels. rewrite length_map, length_seq. exact Hk'.
  - now rewrite (cell_at_missing _ _ _ Hnot).
Qed.

(** Such a row repeats the row above: the last known value is held. *)
Lemma carry_back_held (width : Z) (ts : list Z) (n : nat)
  (cells : list float) (df : table) (j : nat) :
  0 < width -> length cells = n -> (S j < length df)%nat ->
  (forall k : nat, (k < n)%nat ->
     timestamp (nth (S j) df no_candle) = bucket_label width ts k ->
     isnan (nth k cells nan) = true) ->
  nth (S j) (carry_back (map (bucket_label width ts) (seq 0 n)) cells df) nan
  = nth j (carry_back (map (bucket_label width ts) (seq 0 n)) cells df) nan.
Proof.
  intros Hw Hlen Hj Hown. unfold carry_back, ffill.
  rewrite nth_ffill_from_S
    by (unfold reindex; rewrite !length_map; exact Hj).
  now rewrite (reindex_undefined width ts n cells df (S j) Hw Hlen Hj Hown).
Qed.

(** And in the first row, with no row above, it is undefined. *)
Lemma carry_back_first (width : Z) (ts : list Z) (n : nat)
  (cells : list float) (df : table) :
  0 < width -> length cells = n -> (0 < length df)%nat ->
  (forall k : nat, (k < n)%nat ->
     timestamp (nth 0 df no_candle) = bucket_label width ts k ->
     isnan (nth k cells nan) = true) ->
  nth 0 (carry_back (map (bucket_label width ts) (seq 0 n)) cells df) nan
  = nan.
Proof.
  intros Hw Hlen Hj Hown. unfold carry_back, ffill.
  pose proof (reindex_undefined width ts n cells df 0 Hw Hlen Hj Hown) as Hx.
  assert (Lx : length (reindex (map (bucket_label width ts) (seq 0 n)) cells
                         (map timestamp df)) = length df)
    by (unfold reindex; now rewrite !length_map).
  destruct (reindex _ cells (map timestamp df)) as [ | x t];
    cbn [length] in Lx; [lia | ].
  rewrite nth_ffill_from_0. cbn [nth] in Hx. now rewrite Hx.
Qed.

(** The value a row on a left edge takes is held by the rows below it for
    as long as they bring no value of their own. *)
Lemma carry_back_last_known (width : Z) (ts : list Z) (n : nat)
  (cells : list float) (df : table) (i k : nat) :
  0 < width -> length cells = n -> (k < n)%nat -> (i < length df)%nat ->
  timestamp (nth i df no_candle) = bucket_label width ts k ->
  isnan (nth k cells nan) = false ->
  forall j : nat,
    (i <= j < length df)%nat ->
    (forall m k' : nat, (i < m <= j)%nat -> (k' < n)%nat ->
       timestamp (nth m df no_candle) = bucket_label width ts k' ->
       isnan (nth k' cells nan) = true) ->
    nth j (carry_back (map (bucket_label width ts) (seq 0 n)) cells df) nan
    = nth k cells nan.
Proof.
  intros Hw Hlen Hk Hi Ht Hc j.
  induction j as [ | j IH]; intros Hj Hgap.
  - assert (i = 0%nat) by lia. subst i.
    now apply (carry_back_on_edge width ts n cells df 0 k).
  - destruct (Nat.eq_dec i (S j)) as [E | NE].
    + subst i. now apply (carry_back_on_edge width ts n cells df (S j) k).
    + rewrite carry_back_held; [ | exact Hw | exact Hlen | lia | ].
      * apply IH; [lia | ]. intros m k' Hm. apply Hgap. lia.
      * intros k' Hk'. apply (Hgap (S j) k'); [lia | exact Hk'].
Qed.

Lemma ascending_nth (df : table) (i j : nat) :
  ascending df -> (i < j < length df)%nat ->
  timestamp (nth i df no_candle) < timestamp (nth j df no_candle).
Proof.
  intro H. revert i j.
  induction H as [ | a l Hl IH Ha]; intros i j Hij; cbn [length] in Hij;
    [lia | ].
  destruct j as [ | j]; [lia | ]. destruct i as [ | i]; cbn [nth].
  - rewrite Forall_forall in Ha. apply Ha. apply nth_In. lia.
  - apply IH. lia.
Qed.

(** From a row on a bin's left edge onwards, every row of that bin holds
    the bin's own cell. *)
Lemma carry_back_within_bucket (width : Z) (ts : list Z) (n : nat)
  (cells : list float) (df : table) (i k : nat) :
  0 < width -> length cells = n -> ascending df -> (k < n)%nat ->
  (i < length df)%nat ->
  timestamp (nth i df no_candle) = bucket_label width ts k ->
  isnan (nth k cells nan) = false ->
  forall j : nat,
    (i <= j < length df)%nat ->
    in_bucket width (bucket_label width ts k) (nth j df no_candle) = true ->
    nth j (carry_back (map (bucket_label width ts) (seq 0 n)) cells df) nan
    = nth k cells nan.
Proof.
  intros Hw Hlen Hasc Hk Hi Ht Hc j.
  induction j as [ | j IH]; intros Hj Hin.
  - assert (i = 0%nat) by lia. subst i.
    now apply (carry_back_on_edge width ts n cells df 0 k).
  - destruct (Nat.eq_dec i (S j)) as [E | NE].
    + subst i. now apply (carry_back_on_edge width ts n cells df (S j) k).
    + assert (Hlt : timestamp (nth i df no_candle)
                    < timestamp (nth (S j) df no_candle))
        by (apply ascending_nth; [exact Hasc | lia]).
      unfold in_bucket in Hin. apply andb_prop in Hin.
      destruct Hin as [_ Hup]. apply Z.ltb_lt in Hup.
      rewrite carry_back_off_edge; [ | lia | ].
      * apply IH; [lia | ].
        unfold in_bucket. apply andb_true_intro.
        assert (Hle : timestamp (nth i df no_candle)
                      <= timestamp (nth j df no_candle)).
        { destruct (Nat.eq_dec i j) as [-> | Hne]; [lia | ].
          apply Z.lt_le_incl. apply ascending_nth; [exact Hasc | lia]. }
        assert (Hlt' : timestamp (nth j df no_candle)
                       < timestamp (nth (S j) df no_candle))
          by (apply ascending_nth; [exact Hasc | lia]).
        split; [apply Z.leb_le | apply Z.ltb_lt]; lia.
      * apply (inside_not_label width ts n k); [exact Hw | lia].
Qed.

(** *** The resampled columns *)

Lemma length_shift (xs : list float) : length (shift xs) = length xs.
Proof.
  destruct xs as [ | x t]; [reflexivity | ].
  unfold shift. cbn [length].
  rewrite removelast_firstn_len, length_firstn. cbn [length]. lia.
Qed.

Lemma length_true_range (high low close : list float) :
  length high = length close -> length low = length close ->
  length (_calculate_true_range high low close) = length close.
Proof.
  intros H1 H2. unfold _calculate_true_range.
  rewrite !length_zip_with, length_combine, !length_map, !length_zip_with,
    length_shift.
  lia.
Qed.

Lemma length_resampled_columns (self : ModifiedATR) (resampled : list ohlcv)
  (c : nat) :
  (c < 8)%nat ->
  length (nth c (resampled_columns self resampled) []) = length resampled.
Proof.
  intro H. unfold resampled_columns.
  do 8 (destruct c as [ | c];
        [ cbn [nth];
          unfold abs_close_change_column, close_change_column, atr_column,
            _calculate_atr;
          rewrite ?length_map, ?length_diff, ?length_rolling_mean,
            ?length_true_range, ?length_map;
          rewrite ?length_map; reflexivity
        | ]).
  lia.
Qed.

Lemma carried_columns_merge_back (self : ModifiedATR) (df : table)
  (resampled : list ohlcv) (c : nat) :
  (c < 8)%nat ->
  nth c (carried_columns (merge_back self df resampled)) []
  = carry_back (map label resampled)
      (nth c (resampled_columns self resampled) []) df.
Proof.
  intro H. do 8 (destruct c as [ | c]; [reflexivity | ]). lia.
Qed.

End ResampleFacts.

Module ResampleClaims.
Import Pandas MarketA FloatFacts ListFacts PandasFacts MarketAFacts.
Import ResampleFacts Samples.

(** C5, as the code has it.  For a table in ascending time order and a
    positive [resample_interval], [resample_to_interval] cuts the time axis
    into consecutive bins of [resample_interval] minutes, closed on the left
    and labelled by their left edge, from the bin holding the first row to
    the one holding the last; every row falls in exactly one bin; a bin's
    Open is the first, its Close the last, its High the largest and its
    Low the smallest of its rows' cells and its Volume their sum, NaN cells
    left out.  [calculate] then carries each resampled column back by
    last-known-value forward fill: a row standing on a bin's left edge takes
    that bin's own cell (the bin that opens at the row, not the one that has
    just closed) when the cell is not NaN; every other row, on no left edge
    or on the edge of a bin whose cell is NaN, repeats the row above, and is
    NaN in the first row; nothing is interpolated.  So a value is held down
    the rows until a row brings the next one, and from the row on its left
    edge onwards every row of a bin holds the bin's own cell. *)
Theorem resample_and_merge_back (self : ModifiedATR) (df : table)
  (Hpos : 0 < resample_interval self) (Hasc : ascending df)
  (Hne : df <> []) :
  let width := resample_interval self * minute_ms in
  let ts := map timestamp df in
  let n := bucket_count width ts in
  exists (resampled : list ohlcv) (f : atr_frame),
    resample_to_interval self df = Ok resampled
    /\ calculate self df = Ok f
    /\ length resampled = n
    /\ (forall k : nat, (k < n)%nat ->
        let lo := bucket_label width ts k in
        let members := filter (in_bucket width lo) df in
        let b := nth k resampled no_bucket in
        label b = lo
        /\ Open b = first_valid (map open members)
        /\ High b = max_valid (map high members)
        /\ Low b = min_valid (map low members)
        /\ Close b = last_valid (map close members)
        /\ Volume b = sum_valid (map volume members)
        /\ (forall v, In v (valid (map high members)) ->
            fgt v (High b) = false)
        /\ (forall v, In v (valid (map low members)) ->
            flt v (Low b) = false))
    /\ (forall r : candle, In r df ->
        exists k : nat,
          (k < n)%nat
          /\ in_bucket width (bucket_label width ts k) r = true
          /\ forall k' : nat,
               in_bucket width (bucket_label width ts k') r = true -> k' = k)
    /\ rows f = df
    /\ (forall c : nat, (c < 8)%nat ->
        let cells := nth c (resampled_columns self resampled) [] in
        let out := nth c (carried_columns f) [] in
        length cells = n
        /\ length out = length df
        /\ (forall j k : nat,
              (j < length df)%nat -> (k < n)%nat ->
              timestamp (nth j df no_candle) = bucket_label width ts k ->
              isnan (nth k cells nan) = false ->
              nth j out nan = nth k cells nan)
        /\ (forall j : nat,
              (S j < length df)%nat ->
              (forall k : nat, (k < n)%nat ->
                 timestamp (nth (S j) df no_candle) = bucket_label width ts k ->
                 isnan (nth k cells nan) = true) ->
              nth (S j) out nan = nth j out nan)
        /\ ((forall k : nat, (k < n)%nat ->
               timestamp (nth 0 df no_candle) = bucket_label width ts k ->
               isnan (nth k cells nan) = true) ->
            nth 0 out nan = nan)
        /\ (forall i j k : nat,
              (i <= j < length df)%nat -> (k < n)%nat ->
              timestamp (nth i df no_candle) = bucket_label width ts k ->
              isnan (nth k cells nan) = false ->
              (forall m k' : nat, (i < m <= j)%nat -> (k' < n)%nat ->
                 timestamp (nth m df no_candle) = bucket_label width ts k' ->
                 isnan (nth k' cells nan) = true) ->
              nth j out nan = nth k cells nan)
        /\ (forall i j k : nat,
              (i <= j < length df)%nat -> (k < n)%nat ->
              timestamp (nth i df no_candle) = bucket_label width ts k ->
              in_bucket width (bucket_label width ts k) (nth j df no_candle)
              = true ->
              isnan (nth k cells nan) = false ->
              nth j out nan = nth k cells nan)).
Proof.
  intros width ts n.
  assert (Hw : 0 < width) by (unfold width, minute_ms; lia).
  exists (bucket_rows width df), (merge_back self df (bucket_rows width df)).
  assert (Hres : resample_to_interval self df = Ok (bucket_rows width df)).
  { exact (resample_to_interval_ok self df Hpos). }
  assert (Hlen : length (bucket_rows width df) = n)
    by (apply length_bucket_rows; exact Hne).
  assert (Hlab : map label (bucket_rows width df)
                 = map (bucket_label width ts) (seq 0 n))
    by (apply labels_bucket_rows; exact Hne).
  split; [exact Hres | ].
  split; [unfold calculate; rewrite Hres; reflexivity | ].
  split; [exact Hlen | ].
  split; [ | split; [ | split; [reflexivity | ]]].
  - intros k Hk lo members b. unfold b.
    rewrite (nth_bucket_rows width df k Hasc Hne Hk).
    fold ts. fold lo. fold members. cbn [label Open High Low Close Volume aggregate].
    repeat (split; [reflexivity | ]). split.
    + intros v Hv. destruct (max_valid_spec (map high members)) as [_ H].
      apply H; [ | exact Hv]. intro E. rewrite E in Hv. destruct Hv.
    + intros v Hv. destruct (min_valid_spec (map low members)) as [_ H].
      apply H; [ | exact Hv]. intro E. rewrite E in Hv. destruct Hv.
  - intros r Hr. exists (bucket_of width ts (timestamp r)).
    destruct (bucket_of_row width df r Hw Hr) as [Hk Hin].
    split; [exact Hk | split; [exact Hin | ]].
    intros k' Hin'. now apply (in_bucket_unique width ts r k').
  - intros c Hc cells out.
    assert (Lc : length cells = n).
    { unfold cells. rewrite length_resampled_columns by exact Hc.
      exact Hlen. }
    assert (Eout : out = carry_back (map (bucket_label width ts) (seq 0 n))
                           cells df).
    { unfold out. rewrite carried_columns_merge_back by exact Hc.
      now rewrite Hlab. }
    split; [exact Lc | ].
    split; [rewrite Eout; apply length_carry_back | ].
    assert (Hrows : (0 < length df)%nat)
      by (destruct df; [contradiction | cbn; lia]).
    split; [ | split; [ | split; [ | split]]].
    + intros j k Hj Hk Ht Hnan. rewrite Eout.
      now apply (carry_back_on_edge width ts n cells df j k).
    + intros j Hj Hown. rewrite Eout.
      now apply (carry_back_held width ts n cells df j).
    + intro Hown. rewrite Eout.
      now apply (carry_back_first width ts n cells df).
    + intros i j k Hij Hk Ht Hnan Hgap. rewrite Eout.
      apply (carry_back_last_known width ts n cells df i k); auto; lia.
    + intros i j k Hij Hk Ht Hin Hnan. rewrite Eout.
      apply (carry_back_within_bucket width ts n cells df i k); auto; lia.
Qed.

Lemma ascending_bars8 : ascending bars8.
Proof.
  unfold ascending, bars8.
  repeat (constructor; [ | repeat constructor; cbn; lia]).
  constructor.
Qed.

(** The specification's example, and the carry-back on it: the first
    four-hour bin of [bars8] has Open 10 and Close 13.5, and row 5, at
    05:00, holds the Close of the second bin, 17.5. *)
Lemma resample_and_merge_back_witness :
  exists (resampled : list ohlcv) (f : atr_frame),
    resample_to_interval atr_4h bars8 = Ok resampled
    /\ calculate atr_4h bars8 = Ok f
    /\ length resampled = 2%nat
    /\ Open (nth 0 resampled no_bucket) = 10%float
    /\ Close (nth 0 resampled no_bucket) = 13.5%float
    /\ nth 5 (Resample_Close f) nan = 17.5%float.
Proof.
  destruct (resample_and_merge_back atr_4h bars8 ltac:(reflexivity)
              ascending_bars8 ltac:(discriminate))
    as (resampled & f & Hres & Hcalc & Hlen & Hbins & _ & _ & Hcols).
  exists resampled, f.
  split; [exact Hres | split; [exact Hcalc | split; [exact Hlen | ]]].
  destruct (Hbins 0%nat ltac:(vm_compute; lia))
    as (_ & HO & _ & _ & HC & _).
  split; [rewrite HO; vm_compute; reflexivity | ].
  split; [rewrite HC; vm_compute; reflexivity | ].
  destruct (Hcols 3%nat ltac:(lia)) as (_ & _ & _ & _ & _ & _ & Hin).
  assert (E : resample_to_interval atr_4h bars8 = Ok resampled) by exact Hres.
  vm_compute in E. injection E as <-.
  change (nth 3 (carried_columns f) []) with (Resample_Close f) in Hin.
  rewrite (Hin 4%nat 5%nat 1%nat);
    [ reflexivity | cbn; lia | vm_compute; lia | reflexivity
    | vm_compute; reflexivity | vm_compute; reflexivity ].
Defined.

(** C5 as stated fails on which bin a row holds.  [bars8] has the bins
    [00:00, 04:00) and [04:00, 08:00); row 5 stands at 05:00, after the
    first bin has closed and before the second one has, and holds 17.5,
    the Close of the second bin (the close of row 7, at 07:00), not 13.5,
    the Close of the bin that closed last. *)
Lemma merge_back_counterexample :
  exists (resampled : list ohlcv) (f : atr_frame),
    resample_to_interval atr_4h bars8 = Ok resampled
    /\ calculate atr_4h bars8 = Ok f
    /\ map label resampled = [0; 14400000]
    /\ map Close resampled = [13.5%float; 17.5%float]
    /\ timestamp (nth 5 bars8 no_candle) = 18000000
    /\ nth 5 (Resample_Close f) nan = 17.5%float
    /\ close (nth 7 bars8 no_candle) = 17.5%float
    /\ nth 5 (Resample_Close f) nan <> Close (nth 0 resampled no_bucket).
Proof.
  eexists. eexists.
  split; [vm_compute; reflexivity | ].
  split; [vm_compute; reflexivity | ].
  repeat (split; [reflexivity | ]).
  apply float_neq. vm_compute. discriminate.
Qed.

End ResampleClaims.

(* ------------------------------------------------------------------ *)
(** ** Loading snapshots *)
(* ------------------------------------------------------------------ *)

Module LoadFacts.
Import Runtime MarketStorage.

(** What [load_latest_analysis] returns and logs is a function of the
    directory alone. *)
Definition load_result (interval : string) (files : list snapshot_file)
  : option Snapshot.analysis_data :=
  match filter (matches interval) files with
  | [] => None
  | f :: files' =>
      match snapshot_data (latest_of f files') with
      | Json record => Some record
      | Unparsable => None
      end
  end.

Definition load_events (interval : string) (files : list snapshot_file)
  : list event :=
  match filter (matches interval) files with
  | [] => [Log_warning (No_analysis_found interval)]
  | f :: files' =>
      match snapshot_data (latest_of f files') with
      | Json record => []
      | Unparsable => [Log_error (Error_loading_analysis ValueError)]
      end
  end.

Definition with_trace (s : state) (t : list event) : state :=
  {| ticks := ticks s; cache_dir := cache_dir s; base_dir := base_dir s;
     trace := t |}.

Lemma with_trace_same (s : state) : with_trace s (trace s) = s.
Proof. now destruct s. Qed.

Lemma load_latest_analysis_run (interval : string) (w : env) (s : state) :
  load_latest_analysis interval w s
  = (Ok (load_result interval (base_dir s)),
     with_trace s (trace s ++ load_events interval (base_dir s))).
Proof.
  unfold load_latest_analysis, load_result, load_events, mbind,
    list_snapshots.
  destruct (filter (matches interval) (base_dir s)) as [ | f files].
  - reflexivity.
  - unfold try_except.
    destruct (snapshot_data (latest_of f files)); cbn.
    + now rewrite app_nil_r, with_trace_same.
    + reflexivity.
Qed.

End LoadFacts.

Module MainClaims.
Import Runtime MarketStorage Main LoadFacts.

(** The lines of the comparison block. *)
Definition is_comparison (e : event) : bool :=
  match e with
  | Printed Comparison_header
  | Printed (Uptrend_change _)
  | Printed (Downtrend_change _) => true
  | _ => false
  end.

Lemma compare_with_itself (a : option Snapshot.analysis_data) (w : env)
  (s : state) :
  compare_with_previous a a w s = (Ok tt, s).
Proof.
  destruct a as [record | ]; [ | reflexivity].
  unfold compare_with_previous, mbind, ret.
  now rewrite String.eqb_refl.
Qed.

(** C8.  In the Moving-Average run, when nothing changes the snapshot
    directory between the two calls of [load_latest_analysis], the second
    call returns what the first returned, the record and its timestamp
    included, the guard [previous['timestamp'] != latest['timestamp']] is
    false, and the comparison block prints nothing: the run ends normally
    and its output holds no comparison line that was not there before. *)
Theorem report_prints_no_comparison
  (others : list snapshot_file -> list snapshot_file) (w : env) (s : state)
  (Hsame : others (base_dir s) = base_dir s) :
  let first := load_latest_analysis INTERVAL w s in
  let before_second :=
    snd ((match fst first with
          | Ok (Some latest) => emit (Printed (Results latest))
          | _ => ret tt
          end ;;; interfere others)%run w (snd first)) in
  let second := load_latest_analysis INTERVAL w before_second in
  fst second = fst first
  /\ (forall latest previous,
        fst first = Ok (Some latest) -> fst second = Ok (Some previous) ->
        previous = latest
        /\ String.eqb (Snapshot.timestamp previous)
             (Snapshot.timestamp latest) = true)
  /\ fst (report others w s) = Ok tt
  /\ filter is_comparison (trace (snd (report others w s)))
     = filter is_comparison (trace s)
  /\ (forall s0 : state,
        fetch_analyze_save w s0 = (Ok tt, s) ->
        fst (main others w s0) = Ok tt
        /\ filter is_comparison (trace (snd (main others w s0)))
           = filter is_comparison (trace s)).
Proof.
  cut (let first := load_latest_analysis INTERVAL w s in
       let before_second :=
         snd ((match fst first with
               | Ok (Some latest) => emit (Printed (Results latest))
               | _ => ret tt
               end ;;; interfere others)%run w (snd first)) in
       let second := load_latest_analysis INTERVAL w before_second in
       fst second = fst first
       /\ (forall latest previous,
             fst first = Ok (Some latest) ->
             fst second = Ok (Some previous) ->
             previous = latest
             /\ String.eqb (Snapshot.timestamp previous)
                  (Snapshot.timestamp latest) = true)
       /\ fst (report others w s) = Ok tt
       /\ filter is_comparison (trace (snd (report others w s)))
          = filter is_comparison (trace s)).
  { cbn zeta. intros (H1 & H2 & H3 & H4).
    repeat (split; [assumption | ]).
    intros s0 Hprep. unfold main, mbind. rewrite Hprep. now split. }
  intros first before_second second.
  assert (Hfirst : first
                   = (Ok (load_result INTERVAL (base_dir s)),
                      with_trace s (trace s
                                    ++ load_events INTERVAL (base_dir s))))
    by apply load_latest_analysis_run.
  assert (Hdir : base_dir before_second = base_dir s).
  { unfold before_second. rewrite Hfirst. cbn [fst snd].
    destruct (load_result INTERVAL (base_dir s)); cbn; exact Hsame. }
  assert (Hsecond : fst second = fst first).
  { unfold second. rewrite load_latest_analysis_run, Hfirst. cbn [fst].
    now rewrite Hdir. }
  split; [exact Hsecond | ].
  split.
  { intros latest previous H1 H2. rewrite Hsecond, H1 in H2.
    injection H2 as ->. split; [reflexivity | apply String.eqb_refl]. }
  unfold report, mbind.
  rewrite load_latest_analysis_run.
  set (r := load_result INTERVAL (base_dir s)).
  set (s1 := with_trace s _).
  assert (F1 : filter is_comparison (trace s1)
               = filter is_comparison (trace s)).
  { unfold s1. cbn [trace with_trace]. rewrite filter_app.
    unfold load_events.
    destruct (filter (matches INTERVAL) (base_dir s)) as [ | f files];
      [now rewrite app_nil_r | ].
    destruct (snapshot_data (latest_of f files)); now rewrite app_nil_r. }
  destruct r as [latest | ] eqn:Er.
  - cbn [emit interfere]. rewrite load_latest_analysis_run.
    cbn [ticks cache_dir base_dir trace with_trace].
    change (base_dir s1) with (base_dir s).
    rewrite Hsame. fold r. rewrite Er.
    rewrite compare_with_itself. cbn [fst snd trace with_trace].
    split; [reflexivity | ].
    rewrite filter_app, filter_app. cbn [filter is_comparison].
    rewrite F1. unfold load_events.
    assert (Ef : exists f files, filter (matches INTERVAL) (base_dir s)
                                 = f :: files
                                 /\ snapshot_data (latest_of f files)
                                    = Json latest).
    { unfold r, load_result in Er.
      destruct (filter (matches INTERVAL) (base_dir s)) as [ | f files];
        [discriminate | ].
      exists f, files. split; [reflexivity | ].
      destruct (snapshot_data (latest_of f files)); congruence. }
    destruct Ef as (f & files & -> & ->). now rewrite !app_nil_r.
  - cbn [ret interfere]. rewrite load_latest_analysis_run.
    cbn [ticks cache_dir base_dir trace with_trace].
    change (base_dir s1) with (base_dir s).
    rewrite Hsame. fold r. rewrite Er.
    rewrite compare_with_itself. cbn [fst snd trace with_trace].
    split; [reflexivity | ].
    rewrite filter_app. rewrite F1.
    unfold load_events.
    destruct (filter (matches INTERVAL) (base_dir s)) as [ | f files];
      [now rewrite app_nil_r | ].
    destruct (snapshot_data (latest_of f files)); now rewrite app_nil_r.
Qed.

(** On a directory with two daily snapshots that nothing touches, the
    report prints the newest one and no comparison. *)
Lemma report_prints_no_comparison_witness :
  Samples.two_snapshots.(base_dir) = base_dir Samples.two_snapshots
  /\ fst (report (fun d => d) Samples.silent Samples.two_snapshots) = Ok tt
  /\ filter is_comparison
       (trace (snd (report (fun d => d) Samples.silent
                      Samples.two_snapshots)))
     = []
  /\ trace (snd (report (fun d => d) Samples.silent Samples.two_snapshots))
     = [Printed (Results (Samples.snapshot_at "second"))].
Proof.
  destruct (report_prints_no_comparison (fun d => d) Samples.silent
              Samples.two_snapshots eq_refl)
    as (_ & _ & Hok & Hquiet & _).
  split; [reflexivity | split; [exact Hok | split; [exact Hquiet | ]]].
  vm_compute. reflexivity.
Defined.

End MainClaims.

(* ------------------------------------------------------------------ *)
(** ** Sorting *)
(* ------------------------------------------------------------------ *)

Module SortFacts.
Import FloatFacts.

Lemma insert_by_perm {A : Type} (before : A -> A -> bool) (x : A)
  (l : list A) :
  Permutation (insert_by before x l) (x :: l).
Proof.
  induction l as [ | y l IH]; cbn [insert_by]; [reflexivity | ].
  destruct (before y x); [ | reflexivity].
  rewrite IH. apply perm_swap.
Qed.

(** The sort rearranges, it neither drops nor adds. *)
Lemma sort_by_perm {A : Type} (before : A -> A -> bool) (l : list A) :
  Permutation (sort_by before l) l.
Proof.
  induction l as [ | x l IH]; [reflexivity | ].
  unfold sort_by in *. cbn [fold_right].
  rewrite insert_by_perm. now constructor.
Qed.

Lemma Forall_perm {A : Type} (P : A -> Prop) (l l' : list A) :
  Permutation l l' -> Forall P l -> Forall P l'.
Proof.
  intros Hp H. rewrite Forall_forall in H |- *. intros x Hx.
  apply H. apply (Permutation_in x (Permutation_sym Hp) Hx).
Qed.



Section Descending.

Variable A : Type.
Variable key : A -> float.







End Descending.

End SortFacts.

(* ------------------------------------------------------------------ *)
(** ** Saving snapshots *)
(* ------------------------------------------------------------------ *)

Module StorageFacts.
Import Runtime MarketStorage FloatFacts SortFacts.

(** *** The loop over the assets, as the specification words it *)

(** An asset is in a clear trend when its [current_trend] is +1 or -1. *)
Definition clear_trend (item : string * dict value) : bool :=
  match dict_find (snd item) "current_trend" with
  | Some (VInt z) => (z =? 1) || (z =? -1)
  | _ => false
  end.

Definition field (data : dict value) (k : string) : value :=
  match dict_find data k with
  | Some v => v
  | None => VNone
  end.

(** [|price - sma| / sma * 100] *)
Definition spec_distance (price sma : float) : float :=
  fmul (fdiv (fabs (fsub price sma)) sma) (float_of_Z 100).

(** The entry of a clear-trend asset: its symbol, the trend label, price,
    sma and the distance between the two in percent of the sma. *)
Definition annotate (item : string * dict value) : Snapshot.trending_asset :=
  let (symbol, data) := item in
  {| Snapshot.symbol := symbol;
     Snapshot.trend :=
       match dict_find data "current_trend" with
       | Some (VInt 1) => "uptrend"
       | _ => "downtrend"
       end;
     Snapshot.price := field data "last_price";
     Snapshot.sma := field data "sma";
     Snapshot.distance :=
       match field data "last_price", field data "sma" with
       | VFloat p, VFloat q => spec_distance p q
       | _, _ => nan
       end |}.

Definition spec_trending (assets_analysis : dict (dict value))
  : list Snapshot.trending_asset :=
  map annotate (filter clear_trend assets_analysis).

(** *** Shapes of a per-asset analysis *)

(** What [save_analysis] needs of an entry: an integer trend code, and
    float [last_price] and [sma] when the trend is clear. *)
Definition readable (data : dict value) : Prop :=
  exists z : Z,
    dict_find data "current_trend" = Some (VInt z)
    /\ (z = 1 \/ z = -1 ->
        exists p q : float,
          dict_find data "last_price" = Some (VFloat p)
          /\ dict_find data "sma" = Some (VFloat q)).

(** Entries whose fields, where present, have the types the analyzers give
    them. *)
Definition typed (data : dict value) : Prop :=
  (exists z : Z, dict_find data "current_trend" = Some (VInt z))
  /\ (dict_find data "last_price" = None
      \/ exists p : float, dict_find data "last_price" = Some (VFloat p))
  /\ (dict_find data "sma" = None
      \/ exists q : float, dict_find data "sma" = Some (VFloat q)).

Lemma abs_one (z : Z) : (Z.abs z =? 1) = ((z =? 1) || (z =? -1)).
Proof.
  destruct (Z.eqb_spec z 1), (Z.eqb_spec z (-1)), (Z.eqb_spec (Z.abs z) 1);
    cbn; try reflexivity; lia.
Qed.

Lemma trending_step_readable (acc : list Snapshot.trending_asset)
  (symbol : string) (data : dict value) :
  readable data ->
  trending_step acc (symbol, data)
  = Ok (acc ++ if clear_trend (symbol, data)
               then [annotate (symbol, data)] else []).
Proof.
  intros (z & Hz & Hfields).
  unfold trending_step, clear_trend, annotate, field, dict_get.
  cbn [snd]. rewrite Hz. cbn [bind abs_is_one]. rewrite abs_one.
  destruct ((z =? 1) || (z =? -1)) eqn:E.
  - assert (Hc : z = 1 \/ z = -1).
    { apply orb_prop in E. destruct E as [E | E]; apply Z.eqb_eq in E; auto. }
    destruct (Hfields Hc) as (p & q & Hp & Hq).
    rewrite Hp, Hq. cbn [bind distance_of abs_difference to_float is_one].
    unfold spec_distance.
    destruct Hc as [-> | ->]; reflexivity.
  - now rewrite app_nil_r.
Qed.

Lemma for_each_trending_readable (assets : dict (dict value)) :
  Forall (fun item => readable (snd item)) assets ->
  forall acc : list Snapshot.trending_asset,
    MarketB.for_each trending_step acc assets
    = Ok (acc ++ spec_trending assets).
Proof.
  induction 1 as [ | [symbol data] assets Hr _ IH]; intro acc;
    cbn [MarketB.for_each].
  - unfold spec_trending. cbn. now rewrite app_nil_r.
  - cbn [snd] in Hr. rewrite (trending_step_readable acc symbol data Hr).
    cbn [bind]. rewrite IH. unfold spec_trending. cbn [filter].
    destruct (clear_trend (symbol, data)); cbn [map];
      now rewrite <- app_assoc.
Qed.

(** With readable entries no lookup fails and the list holds exactly the
    clear-trend assets, annotated, in the order of the dict. *)
Lemma trending_assets_of_readable (assets : dict (dict value)) :
  Forall (fun item => readable (snd item)) assets ->
  trending_assets_of assets = Ok (spec_trending assets).
Proof.
  intro H. unfold trending_assets_of.
  now rewrite (for_each_trending_readable assets H []).
Qed.

(** A clear-trend entry without ['sma'] stops the loop with a
    [KeyError]. *)
Lemma for_each_trending_missing (assets : dict (dict value)) :
  Forall (fun item => typed (snd item)) assets ->
  Exists (fun item => clear_trend item = true
                      /\ dict_find (snd item) "sma" = None) assets ->
  exists k : string,
    (k = "last_price" \/ k = "sma")
    /\ forall acc : list Snapshot.trending_asset,
         MarketB.for_each trending_step acc assets = Raise (KeyError k).
Proof.
  induction 1 as [ | [symbol data] assets Ht Hts IH]; intro Hex;
    [inversion Hex | ].
  cbn [snd] in Ht. destruct Ht as ((z & Hz) & Hp & Hq).
  assert (Hclear : clear_trend (symbol, data) = (Z.abs z =? 1))
    by (unfold clear_trend; cbn [snd]; rewrite Hz; now rewrite abs_one).
  assert (Hstep : forall acc,
             trending_step acc (symbol, data)
             = if Z.abs z =? 1 then
                 match dict_find data "last_price", dict_find data "sma" with
                 | None, _ => Raise (KeyError "last_price")
                 | Some _, None => Raise (KeyError "sma")
                 | Some _, Some _ => Ok (acc ++ [annotate (symbol, data)])
                 end
               else Ok acc).
  { intro acc. unfold trending_step, dict_get. rewrite Hz.
    cbn [bind abs_is_one]. destruct (Z.abs z =? 1) eqn:E; [ | reflexivity].
    destruct Hp as [Ep | (p & Ep)]; rewrite Ep; [reflexivity | ].
    destruct Hq as [Eq | (q & Eq)]; rewrite Eq; [reflexivity | ].
    cbn [bind distance_of abs_difference to_float is_one].
    unfold annotate, field. rewrite Hz, Ep, Eq.
    rewrite abs_one in E. apply orb_prop in E.
    destruct E as [E | E]; apply Z.eqb_eq in E; subst z; reflexivity. }
  destruct (Z.abs z =? 1) eqn:E.
  - destruct (dict_find data "last_price") as [p | ] eqn:Ep.
    + destruct (dict_find data "sma") as [q | ] eqn:Eq.
      * assert (Hex' : Exists (fun item => clear_trend item = true
                                 /\ dict_find (snd item) "sma" = None) assets).
        { inversion Hex as [? ? [_ Hn] | ]; subst; [ | assumption].
          cbn [snd] in Hn. congruence. }
        destruct (IH Hex') as (k & Hk & Hall). exists k. split; [exact Hk | ].
        intro acc. cbn [MarketB.for_each]. rewrite Hstep. cbn [bind].
        apply Hall.
      * exists "sma". split; [now right | ]. intro acc.
        cbn [MarketB.for_each]. now rewrite Hstep.
    + exists "last_price". split; [now left | ]. intro acc.
      cbn [MarketB.for_each]. now rewrite Hstep.
  - assert (Hex' : Exists (fun item => clear_trend item = true
                             /\ dict_find (snd item) "sma" = None) assets).
    { inversion Hex as [? ? [Hc _] | ]; subst; [ | assumption].
      congruence. }
    destruct (IH Hex') as (k & Hk & Hall). exists k. split; [exact Hk | ].
    intro acc. cbn [MarketB.for_each]. rewrite Hstep. cbn [bind].
    apply Hall.
Qed.

(** *** Runs of [save_analysis] *)

Definition filename_at (interval : string) (w : env) (s : state) : string :=
  snapshot_filename interval (strftime w (clock w (ticks s))).

(** When building the record raises, no file has been touched. *)
Lemma save_analysis_raises (stats : MarketB.market_stats)
  (assets : dict (dict value)) (interval : string) (top_n : Z) (w : env)
  (s : state) (e : exn) :
  build_analysis_data (isoformat w (clock w (ticks s))) stats assets interval
    top_n = Raise e ->
  save_analysis stats assets interval top_n w s
  = (Raise e,
     {| ticks := S (ticks s); cache_dir := cache_dir s;
        base_dir := base_dir s; trace := trace s |}).
Proof.
  intro H. unfold save_analysis, mbind, now, ask, mbind, tick, ret, lift.
  cbn [ticks]. now rewrite H.
Qed.

(** When the record is built, the file is created, every value is one
    [json.dump] accepts and the dump is not cut short, the record lands in
    a file named after the interval and the instant. *)
Lemma save_analysis_writes (stats : MarketB.market_stats)
  (assets : dict (dict value)) (interval : string) (top_n : Z) (w : env)
  (s : state) (record : Snapshot.analysis_data) :
  build_analysis_data (isoformat w (clock w (ticks s))) stats assets interval
    top_n = Ok record ->
  serializable record = true ->
  write_fails w (S (ticks s)) (filename_at interval w s) = false ->
  dump_fails w (S (S (S (ticks s)))) (filename_at interval w s) = false ->
  save_analysis stats assets interval top_n w s
  = (Ok tt,
     {| ticks := S (S (S (S (ticks s)))); cache_dir := cache_dir s;
        base_dir :=
          put_snapshot (base_dir s)
            {| snapshot_name := filename_at interval w s;
               snapshot_mtime := clock w (S (S (ticks s)));
               snapshot_data := Json record |};
        trace := trace s
                 ++ [Log_info (Saved_analysis (filename_at interval w s))] |}).
Proof.
  intros Hb Hs Hw Hd.
  unfold save_analysis, write_snapshot, mbind, now, ask, mbind, tick, ret,
    lift, filename_at in *.
  cbn [ticks]. rewrite Hb. cbn [ticks]. rewrite Hw, Hs. cbn [ticks].
  rewrite Hd. reflexivity.
Qed.





End StorageFacts.

Module StorageClaims.
Import Runtime MarketStorage FloatFacts SortFacts StorageFacts.
Import AnalyzeAssetFacts Samples.

Lemma readable_analyze_asset_b (b : MarketB.MarketAnalyzer)
  (df : Pandas.table) (r : dict value) :
  MarketB.analyze_asset b df = Ok r -> readable r.
Proof.
  intro H. destruct df as [ | c df]; [discriminate | ].
  rewrite (analyze_asset_b b (c :: df) ltac:(discriminate)) in H.
  injection H as <-. eexists. split; [reflexivity | ].
  intros _. eexists. eexists. split; reflexivity.
Qed.

Lemma typed_analyze_asset_a (a : MarketA.MarketAnalyzer)
  (df : Pandas.table) (r : dict value) :
  MarketA.analyze_asset a df = Ok r ->
  typed r /\ dict_find r "sma" = None
  /\ exists p : float, dict_find r "last_price" = Some (VFloat p).
Proof.
  intro H. destruct df as [ | c df].
  - pose proof (analyze_asset_a_empty a) as E. rewrite H in E. discriminate.
  - destruct (Z_lt_le_dec 0 (AssetClaims.vb_interval a)) as [Hpos | Hneg].
    + rewrite (analyze_asset_a a (c :: df) ltac:(discriminate) Hpos) in H.
      injection H as <-. repeat split.
      * eexists. reflexivity.
      * right. eexists. reflexivity.
      * now left.
      * eexists. reflexivity.
    + unfold MarketA.analyze_asset in H.
      pose proof (MarketAFacts.detect_trend_refused
                    (MarketA.trend_detector a) (c :: df) Hneg) as E.
      destruct (MarketA.detect_trend (MarketA.trend_detector a) (c :: df));
        discriminate.
Qed.

(** C9.  [save_analysis] reads ['last_price'] and ['sma'] of every asset
    whose [current_trend] is +1 or -1.  When every such entry has both
    fields, as every Moving-Average result has, no lookup fails and the
    loop yields one annotated entry per clear-trend asset.  When some
    clear-trend entry has no ['sma'], as no Volatility-Band result has, the
    call raises a [KeyError] (for ['sma'], or for ['last_price'] where that
    is missing as well) before any file is created: the snapshot directory
    is the one the call found. *)
Theorem save_analysis_needs_sma :
  (forall assets : dict (dict value),
      Forall (fun item => readable (snd item)) assets ->
      trending_assets_of assets = Ok (spec_trending assets))
  /\ (forall (b : MarketB.MarketAnalyzer) (df : Pandas.table)
             (r : dict value),
         MarketB.analyze_asset b df = Ok r -> readable r)
  /\ (forall (stats : MarketB.market_stats) (assets : dict (dict value))
             (interval : string) (top_n : Z) (w : env) (s : state),
         Forall (fun item => typed (snd item)) assets ->
         Exists (fun item => clear_trend item = true
                             /\ dict_find (snd item) "sma" = None) assets ->
         exists k : string,
           (k = "last_price" \/ k = "sma")
           /\ fst (save_analysis stats assets interval top_n w s)
              = Raise (KeyError k)
           /\ base_dir (snd (save_analysis stats assets interval top_n w s))
              = base_dir s)
  /\ (forall (a : MarketA.MarketAnalyzer) (df : Pandas.table)
             (r : dict value),
         MarketA.analyze_asset a df = Ok r ->
         typed r /\ dict_find r "sma" = None
         /\ exists p : float, dict_find r "last_price" = Some (VFloat p)).
Proof.
  split; [exact trending_assets_of_readable | ].
  split; [exact readable_analyze_asset_b | ].
  split; [ | exact typed_analyze_asset_a].
  intros stats assets interval top_n w s Ht Hex.
  destruct (for_each_trending_missing assets Ht Hex) as (k & Hk & Hall).
  exists k. split; [exact Hk | ].
  assert (Hb : build_analysis_data (isoformat w (clock w (ticks s))) stats
                 assets interval top_n = Raise (KeyError k)).
  { unfold build_analysis_data, trending_assets_of. now rewrite Hall. }
  rewrite (save_analysis_raises _ _ _ _ _ _ _ Hb). split; reflexivity.
Qed.

(** A Volatility-Band result in an uptrend: the call raises
    [KeyError('sma')] and the two snapshots on disk stay as they are. *)
Lemma save_analysis_needs_sma_witness :
  exists k : string,
    (k = "last_price" \/ k = "sma")
    /\ fst (save_analysis fifteen_stats vb_rising "60" 10 silent
              two_snapshots) = Raise (KeyError k)
    /\ base_dir (snd (save_analysis fifteen_stats vb_rising "60" 10 silent
                        two_snapshots))
       = base_dir two_snapshots.
Proof.
  destruct save_analysis_needs_sma as (_ & _ & H & _).
  apply H; let v := eval vm_compute in vb_rising in change vb_rising with v.
  - constructor; [ | constructor]. cbn [snd]. split; [ | split].
    + eexists. reflexivity.
    + right. eexists. reflexivity.
    + now left.
  - constructor. split; reflexivity.
Defined.




End StorageClaims.

(* ------------------------------------------------------------------ *)
(** ** Runs: what a computation may raise and what it emits *)
(* ------------------------------------------------------------------ *)

Module RunFacts.
Import Runtime.
Local Open Scope run_scope.

Section Emits.

(** The events a computation is allowed to emit. *)
Variable P : event -> Prop.


(** [c] moreover returns: no exception leaves it. *)
Definition runs {A : Type} (c : M A) : Prop :=
  forall (w : env) (s : state),
  exists (a : A) (evs : list event),
    fst (c w s) = Ok a
    /\ trace (snd (c w s)) = trace s ++ evs /\ Forall P evs.


Lemma runs_ret {A : Type} (a : A) : runs (ret a).
Proof.
  intros w s. exists a, []. cbn. rewrite app_nil_r. auto.
Qed.




Lemma runs_pure {A : Type} (f : env -> state -> A) :
  runs (fun w s => (Ok (f w s), s)).
Proof.
  intros w s. eexists. exists []. cbn. rewrite app_nil_r. auto.
Qed.

Lemma runs_tick : runs tick.
Proof.
  intros w s. exists (ticks s), []. cbn. rewrite app_nil_r. auto.
Qed.

Lemma runs_mbind {A B : Type} (c : M A) (k : A -> M B) :
  runs c -> (forall a, runs (k a)) -> runs (mbind c k).
Proof.
  intros Hc Hk w s. unfold mbind.
  destruct (Hc w s) as (a & e1 & Ha & Ht & Hp).
  destruct (c w s) as [r s1]. cbn [fst snd] in Ha, Ht. subst r.
  destruct (Hk a w s1) as (b & e2 & Hb & Ht2 & Hp2).
  exists b, (e1 ++ e2). split; [exact Hb | ]. split.
  - rewrite Ht2, Ht. now rewrite app_assoc.
  - apply Forall_app. now split.
Qed.









Lemma runs_for_loop {S A : Type} (body : S -> A -> M S) (items : list A) :
  (forall acc x, runs (body acc x)) ->
  forall acc : S, runs (for_loop body acc items).
Proof.
  intro Hb. induction items as [ | x items IH]; intro acc; cbn [for_loop].
  - apply runs_ret.
  - apply runs_mbind; [apply Hb | exact IH].
Qed.


End Emits.


End RunFacts.

(* ------------------------------------------------------------------ *)
(** ** src/data_fetcher.py: what the scan lets out *)
(* ------------------------------------------------------------------ *)

Module FetcherFacts.
Import Pandas Runtime DataFetcher Fetcher RunFacts.
Local Open Scope run_scope.





(** The cache file of a symbol has a name the file system takes. *)
Definition fits (interval : interval_arg) (symbol : string) : Prop :=
  (String.length (_get_cache_path symbol interval) <= NAME_MAX)%nat.









(** *** A request that fails *)



(** The replies a fresh fetch yields no table for: the client raises, the
    response has no list or an empty one, or no frame is built from its
    rows. *)
Definition fetch_fails (w : env) (reply : kline_reply) : bool :=
  match reply with
  | Kline_raises _ => true
  | Kline_response None => true
  | Kline_response (Some []) => true
  | Kline_response (Some (r :: rows)) => negb (is_ok (parse_rows w (r :: rows)))
  end.

(** The fresh fetch reads the clock and then asks the exchange; when the
    reply to that question fails, or the number of points cannot be
    computed, it returns the empty table. *)
Lemma fetch_fresh_empty (symbol : string) (interval : interval_arg)
  (days : Z) (use_cache : bool) (w : env) (s : state) :
  (forall start_time end_time limit : Z,
      fetch_fails w (get_kline w (S (ticks s)) symbol interval start_time
                       end_time limit) = true) ->
  fst (fetch_fresh symbol interval days use_cache w s) = Ok [].
Proof.
  intro Hfail.
  unfold fetch_fresh, try_except, mbind, now, ask, tick, ret, lift, raise, emit,
    mbind.
  cbn [fst snd ticks].
  destruct (calculate_required_points days interval) as [points | e];
    [ | reflexivity].
  destruct (is_calendar interval).
  - cbn [ticks].
    specialize (Hfail (clock w (ticks s) - days * 24 * 60 * 60 * 1000)
                  (clock w (ticks s)) points).
    destruct (get_kline w (S (ticks s)) symbol interval _ _ _)
      as [e | [[ | r rows] | ]]; try reflexivity.
    cbn [fetch_fails] in Hfail. unfold build_frame, lift.
    destruct (parse_rows w (r :: rows)); [discriminate | reflexivity].
  - destruct (interval_minutes interval) as [minutes | e]; [ | reflexivity].
    cbn [ticks].
    specialize (Hfail (clock w (ticks s) - minutes * 60 * 1000 * points)
                  (clock w (ticks s)) points).
    destruct (get_kline w (S (ticks s)) symbol interval _ _ _)
      as [e | [[ | r rows] | ]]; try reflexivity.
    cbn [fetch_fails] in Hfail. unfold build_frame, lift.
    destruct (parse_rows w (r :: rows)); [discriminate | reflexivity].
Qed.

(** *** The dict the scan builds *)








(** *** The loop, one visit after the other *)

(** The state once an event is out. *)
Definition after (e : event) (s : state) : state :=
  {| ticks := ticks s; cache_dir := cache_dir s; base_dir := base_dir s;
     trace := trace s ++ [e] |}.





Section Scan.

Variable interval : interval_arg.
Variables days total : Z.
Variable w : env.







End Scan.

End FetcherFacts.

Module FetcherClaims.
Import Pandas Runtime DataFetcher Fetcher RunFacts FetcherFacts Samples.








End FetcherClaims.

(* ================================================================== *)
(** * Further properties of src/data_fetcher.py *)
(* ================================================================== *)

Module PointsProps.
Import DataFetcher.

Lemma calendar_is_str (interval : interval_arg) :
  is_calendar interval = true ->
  interval = IStr "D" \/ interval = IStr "W" \/ interval = IStr "M".
Proof.
  destruct interval as [s | n]; [ | discriminate].
  unfold is_calendar, interval_eq_str. intro H.
  apply orb_true_iff in H. destruct H as [H | H].
  - apply orb_true_iff in H. destruct H as [H | H];
      apply String.eqb_eq in H; subst; auto.
  - apply String.eqb_eq in H; subst; auto.
Qed.

(** X1.  [calculate_required_points] never returns more than 1000, whatever
    its arguments, and it has no lower clamp; the calendar codes never
    raise; any other interval is read as a number of minutes, so [0]
    raises [ZeroDivisionError], a string [int()] refuses raises what
    [int()] raises, and an integer interval (as the Volatility-Band script
    passes) is taken as it is. *)
Theorem calculate_required_points_edges :
  (forall (days : Z) (interval : interval_arg) (n : Z),
      calculate_required_points days interval = Ok n -> n <= 1000)
  /\ (forall (days : Z) (interval : interval_arg),
        is_calendar interval = true ->
        exists n : Z, calculate_required_points days interval = Ok n)
  /\ (forall (days : Z) (interval : interval_arg),
        is_calendar interval = false ->
        interval_minutes interval = Ok 0 ->
        calculate_required_points days interval = Raise ZeroDivisionError)
  /\ (forall (days : Z) (s : string) (e : exn),
        is_calendar (IStr s) = false ->
        int_of_str s = Raise e ->
        calculate_required_points days (IStr s) = Raise e)
  /\ (forall days m : Z,
        m <> 0 ->
        calculate_required_points days (IInt m)
        = Ok (Z.min (days * 24 * 60 / m) 1000))
  /\ (forall days : Z,
        days < 0 -> calculate_required_points days (IStr "D") = Ok days).
Proof.
  split.
  { intros days interval n. unfold calculate_required_points.
    destruct (if is_calendar interval then _ else _) as [points | e];
      cbn [bind]; [ | discriminate].
    intro H. injection H as <-. apply Z.le_min_r. }
  split.
  { intros days interval H.
    destruct (calendar_is_str interval H) as [-> | [-> | ->]];
      eexists; reflexivity. }
  split.
  { intros days interval Hc Hm. unfold calculate_required_points.
    rewrite Hc, Hm. reflexivity. }
  split.
  { intros days s e Hc He. unfold calculate_required_points.
    rewrite Hc. cbn [interval_minutes]. rewrite He. reflexivity. }
  split.
  { intros days m Hm. unfold calculate_required_points. cbn [is_calendar
      interval_eq_str orb interval_minutes bind]. unfold floordiv.
    apply Z.eqb_neq in Hm. rewrite Hm. reflexivity. }
  intros days Hd. unfold calculate_required_points.
  cbn. f_equal. lia.
Qed.

End PointsProps.

Module CacheProps.
Import Pandas Runtime DataFetcher Fetcher RunFacts FetcherFacts.
Local Open Scope run_scope.

(** The state once the clock has been read, or the outside asked. *)
Definition ticked (s : state) : state :=
  {| ticks := S (ticks s); cache_dir := cache_dir s; base_dir := base_dir s;
     trace := trace s |}.

Lemma is_cache_valid_run (name : string) (w : env) (s : state) :
  _is_cache_valid name w s
  = match find_cache (cache_dir s) name with
    | None =>
        if (NAME_MAX <? String.length name)%nat then (Raise OSError, s)
        else (Ok false, s)
    | Some f =>
        (Ok (clock w (ticks s) - cache_mtime f <? cache_duration), ticked s)
    end.
Proof.
  unfold _is_cache_valid, mbind, stat_cache.
  destruct (find_cache (cache_dir s) name); [reflexivity | ].
  destruct (NAME_MAX <? String.length name)%nat; reflexivity.
Qed.

(** Looking up a file that is there. *)
Lemma stat_cache_found (name : string) (w : env) (s : state)
  (f : cache_file) :
  find_cache (cache_dir s) name = Some f ->
  stat_cache name w s = (Ok (Some f), s).
Proof. intro H. unfold stat_cache. now rewrite H. Qed.

(** A name under which a file could be created is one the file system
    takes. *)
Lemma written_name_fits (w : env) (k : nat) (name : string) :
  write_fails w k name = false -> (String.length name <= NAME_MAX)%nat.
Proof.
  intro H. destruct (Nat.leb_spec (String.length name) NAME_MAX) as [L | G];
    [exact L | ].
  rewrite (long_names_refused w k name G) in H. discriminate.
Qed.

Lemma length_tail_rows {A : Type} (xs : list A) (n : Z) :
  0 <= n <= Z.of_nat (length xs) -> length (tail_rows xs n) = Z.to_nat n.
Proof.
  intros [H0 Hn]. unfold tail_rows.
  replace (n <? 0) with false by (symmetry; apply Z.ltb_ge; lia).
  rewrite length_skipn. lia.
Qed.

Lemma cache_hit (symbol : string) (interval : interval_arg) (days : Z)
  (w : env) (s : state) (f : cache_file) (df : table) (n : Z) :
  find_cache (cache_dir s) (_get_cache_path symbol interval) = Some f ->
  cache_data f = Parquet df ->
  clock w (ticks s) - cache_mtime f < cache_duration ->
  calculate_required_points days interval = Ok n ->
  n <= Z.of_nat (length df) ->
  get_kline_data symbol interval days true w s
  = (Ok (tail_rows df n), ticked s).
Proof.
  intros Hfile Hdata Hfresh Hpoints Henough.
  unfold get_kline_data, from_cache. unfold mbind at 1 2.
  rewrite is_cache_valid_run, Hfile.
  replace (clock w (ticks s) - cache_mtime f <? cache_duration) with true
    by (symmetry; now apply Z.ltb_lt).
  unfold try_except, read_parquet, mbind, stat_cache, lift, ret.
  cbn [cache_dir ticked]. rewrite Hfile.
  destruct f as [name mtime data]. cbn [cache_data] in Hdata. subst data.
  rewrite Hpoints.
  replace (n <=? Z.of_nat (length df)) with true
    by (symmetry; now apply Z.leb_le).
  reflexivity.
Qed.

Lemma cache_missing (symbol : string) (interval : interval_arg) (days : Z)
  (w : env) (s : state) :
  find_cache (cache_dir s) (_get_cache_path symbol interval) = None ->
  fits interval symbol ->
  get_kline_data symbol interval days true w s
  = fetch_fresh symbol interval days true w s.
Proof.
  intros Hnone Hfit. unfold get_kline_data, from_cache.
  unfold mbind at 1 2. rewrite is_cache_valid_run, Hnone.
  replace (NAME_MAX <? String.length (_get_cache_path symbol interval))%nat
    with false by (symmetry; apply Nat.ltb_ge; exact Hfit).
  reflexivity.
Qed.

(** And a name the file system does not take: the call raises. *)
Lemma cache_unnameable (symbol : string) (interval : interval_arg)
  (days : Z) (w : env) (s : state) :
  find_cache (cache_dir s) (_get_cache_path symbol interval) = None ->
  ~ fits interval symbol ->
  get_kline_data symbol interval days true w s = (Raise OSError, s).
Proof.
  intros Hnone Hfit. unfold get_kline_data, from_cache.
  unfold mbind at 1 2. rewrite is_cache_valid_run, Hnone.
  replace (NAME_MAX <? String.length (_get_cache_path symbol interval))%nat
    with true by (symmetry; apply Nat.ltb_lt; unfold fits in Hfit; lia).
  reflexivity.
Qed.

(** X2.  A cache hit.  When the cache file of the symbol and interval
    exists, is less than four hours old, reads as a table and holds at
    least the required number of rows, [get_kline_data] returns the last
    required rows of it (exactly that many when the number is not
    negative) and does nothing else: it reads the clock once, asks the
    exchange nothing, logs nothing and leaves the cache as it is. *)
Theorem get_kline_data_cache_hit (symbol : string) (interval : interval_arg)
  (days : Z) (w : env) (s : state) (f : cache_file) (df : table) (n : Z)
  (Hfile : find_cache (cache_dir s) (_get_cache_path symbol interval)
           = Some f)
  (Hdata : cache_data f = Parquet df)
  (Hfresh : clock w (ticks s) - cache_mtime f < cache_duration)
  (Hpoints : calculate_required_points days interval = Ok n)
  (Henough : n <= Z.of_nat (length df)) :
  get_kline_data symbol interval days true w s
  = (Ok (tail_rows df n), ticked s)
  /\ (0 <= n -> length (tail_rows df n) = Z.to_nat n).
Proof.
  split; [now apply (cache_hit symbol interval days w s f) | ].
  intro H0. apply length_tail_rows. lia.
Qed.

(** A fresh file of 25 hourly rows and a request for one day of hourly
    bars: the last 24 rows come back. *)
Definition cached25 : state :=
  {| ticks := 0;
     cache_dir := [ {| cache_name := "AUSDT_60.parquet"; cache_mtime := 0;
                       cache_data := Parquet Samples.rows25 |} ];
     base_dir := [];
     trace := [] |}.

Lemma get_kline_data_cache_hit_witness :
  get_kline_data "AUSDT" (IStr "60") 1 true Samples.silent cached25
  = (Ok (tail_rows Samples.rows25 24), ticked cached25)
  /\ length (tail_rows Samples.rows25 24) = 24%nat.
Proof.
  destruct (get_kline_data_cache_hit "AUSDT" (IStr "60") 1 Samples.silent
              cached25 _ Samples.rows25 24 eq_refl eq_refl eq_refl eq_refl
              ltac:(vm_compute; discriminate)) as [H L].
  split; [exact H | exact (L ltac:(lia))].
Defined.

(** *** When the exchange is asked *)

Lemma fetch_fresh_uncached_dir (symbol : string) (interval : interval_arg)
  (days : Z) (w : env) (s : state) :
  cache_dir (snd (fetch_fresh symbol interval days false w s)) = cache_dir s.
Proof.
  unfold fetch_fresh, try_except, mbind, now, ask, tick, ret, lift, raise,
    emit, mbind, build_frame, lift.
  cbn [fst snd ticks].
  destruct (calculate_required_points days interval) as [points | e];
    [ | reflexivity].
  destruct (is_calendar interval).
  - destruct (get_kline w _ symbol interval _ _ _)
      as [e | [[ | r rows] | ]]; try reflexivity.
    destruct (parse_rows w (r :: rows)); reflexivity.
  - destruct (interval_minutes interval) as [minutes | e]; [ | reflexivity].
    destruct (get_kline w _ symbol interval _ _ _)
      as [e | [[ | r rows] | ]]; try reflexivity.
    destruct (parse_rows w (r :: rows)); reflexivity.
Qed.

(** X3.  When the cache is passed over.  With [use_cache=False] the call
    is the fresh fetch and the cache directory stays as it was.  With the
    cache in use the exchange is asked whenever the file is missing (under a
    name the file system takes; under a longer one the call raises
    [OSError] and nothing is asked), is four hours old or older, does not
    read as a table, or holds fewer rows than required (so a symbol whose
    history is shorter than the request is fetched again on every call);
    and then nothing of the old file is served: when that fetch fails, the
    client raising, the response holding no rows or rows no frame is built
    from, the result is the empty table. *)
Theorem get_kline_data_cache_miss (symbol : string)
  (interval : interval_arg) (days : Z) (w : env) (s : state) :
  let path := _get_cache_path symbol interval in
  (get_kline_data symbol interval days false w s
   = fetch_fresh symbol interval days false w s
   /\ cache_dir (snd (get_kline_data symbol interval days false w s))
      = cache_dir s)
  /\ (find_cache (cache_dir s) path = None ->
      (fits interval symbol ->
       get_kline_data symbol interval days true w s
       = fetch_fresh symbol interval days true w s)
      /\ (~ fits interval symbol ->
          get_kline_data symbol interval days true w s
          = (Raise OSError, s)))
  /\ (forall f : cache_file,
        find_cache (cache_dir s) path = Some f ->
        cache_duration <= clock w (ticks s) - cache_mtime f ->
        get_kline_data symbol interval days true w s
        = fetch_fresh symbol interval days true w (ticked s))
  /\ (forall (f : cache_file) (df : table) (n : Z),
        find_cache (cache_dir s) path = Some f ->
        cache_data f = Parquet df ->
        calculate_required_points days interval = Ok n ->
        Z.of_nat (length df) < n ->
        get_kline_data symbol interval days true w s
        = fetch_fresh symbol interval days true w (ticked s))
  /\ (forall f : cache_file,
        find_cache (cache_dir s) path = Some f ->
        clock w (ticks s) - cache_mtime f < cache_duration ->
        (forall df : table, cache_data f <> Parquet df) ->
        get_kline_data symbol interval days true w s
        = fetch_fresh symbol interval days true w
            (after (Log_warning (Error_reading_cache symbol OSError))
               (ticked s)))
  /\ (forall f : cache_file,
        find_cache (cache_dir s) path = Some f ->
        (cache_duration <= clock w (ticks s) - cache_mtime f
         \/ exists (df : table) (n : Z),
              cache_data f = Parquet df
              /\ calculate_required_points days interval = Ok n
              /\ Z.of_nat (length df) < n) ->
        (forall start_time end_time limit : Z,
            fetch_fails w (get_kline w (S (S (ticks s))) symbol interval
                             start_time end_time limit) = true) ->
        fst (get_kline_data symbol interval days true w s) = Ok []).
Proof.
  intro path.
  assert (Hstale : forall f : cache_file,
             find_cache (cache_dir s) path = Some f ->
             cache_duration <= clock w (ticks s) - cache_mtime f ->
             get_kline_data symbol interval days true w s
             = fetch_fresh symbol interval days true w (ticked s)).
  { intros f Hf Hold. unfold get_kline_data, from_cache.
    unfold mbind at 1 2. fold path. rewrite is_cache_valid_run, Hf.
    replace (clock w (ticks s) - cache_mtime f <? cache_duration) with false
      by (symmetry; apply Z.ltb_ge; lia).
    reflexivity. }
  assert (Hshort : forall (f : cache_file) (df : table) (n : Z),
             find_cache (cache_dir s) path = Some f ->
             cache_data f = Parquet df ->
             calculate_required_points days interval = Ok n ->
             Z.of_nat (length df) < n ->
             get_kline_data symbol interval days true w s
             = fetch_fresh symbol interval days true w (ticked s)).
  { intros f df n Hf Hdata Hn Hlen.
    destruct (Z_lt_le_dec (clock w (ticks s) - cache_mtime f) cache_duration)
      as [Hfresh | Hold]; [ | now apply (Hstale f)].
    unfold get_kline_data, from_cache.
    unfold mbind at 1 2. fold path. rewrite is_cache_valid_run, Hf.
    replace (clock w (ticks s) - cache_mtime f <? cache_duration) with true
      by (symmetry; now apply Z.ltb_lt).
    unfold try_except, read_parquet, mbind, stat_cache, lift, ret.
    cbn [cache_dir ticked]. rewrite Hf.
    destruct f as [name mtime data]. cbn [cache_data] in Hdata. subst data.
    rewrite Hn.
    replace (n <=? Z.of_nat (length df)) with false
      by (symmetry; apply Z.leb_gt; lia).
    reflexivity. }
  split.
  { assert (E : get_kline_data symbol interval days false w s
                = fetch_fresh symbol interval days false w s) by reflexivity.
    split; [exact E | ]. rewrite E. apply fetch_fresh_uncached_dir. }
  split.
  { intro Hnone.
    split; [now apply cache_missing | now apply cache_unnameable]. }
  split; [exact Hstale | ]. split; [exact Hshort | ].
  split.
  { intros f Hf Hfresh Hbad. unfold get_kline_data, from_cache.
    unfold mbind at 1 2. fold path. rewrite is_cache_valid_run, Hf.
    replace (clock w (ticks s) - cache_mtime f <? cache_duration) with true
      by (symmetry; now apply Z.ltb_lt).
    unfold try_except, read_parquet, mbind, stat_cache, lift, ret, raise.
    cbn [cache_dir ticked]. rewrite Hf.
    destruct f as [name mtime [df | l | ]]; cbn [cache_data] in Hbad;
      [now destruct (Hbad df) | reflexivity | reflexivity]. }
  intros f Hf Hwhy Hfail.
  assert (E : get_kline_data symbol interval days true w s
              = fetch_fresh symbol interval days true w (ticked s)).
  { destruct Hwhy as [Hold | (df & n & Hdata & Hn & Hlen)];
      [now apply (Hstale f) | now apply (Hshort f df n)]. }
  rewrite E. apply fetch_fresh_empty. exact Hfail.
Qed.

(** *** What a fresh fetch returns and leaves behind *)

Lemma find_put_cache (files : list cache_file) (f : cache_file) :
  find_cache (put_cache files f) (cache_name f) = Some f.
Proof.
  induction files as [ | g files IH]; cbn [put_cache find_cache].
  - now rewrite String.eqb_refl.
  - destruct (String.eqb (cache_name g) (cache_name f)) eqn:E;
      cbn [find_cache].
    + now rewrite String.eqb_refl.
    + now rewrite E.
Qed.

(** Rows in time order, equal instants allowed. *)
Definition in_time_order (df : table) : Prop :=
  StronglySorted (fun a b => timestamp a <= timestamp b) df.

Lemma insert_in_time_order (x : candle) (l : table) :
  in_time_order l -> in_time_order (insert_by MarketA.by_timestamp x l).
Proof.
  unfold in_time_order. induction 1 as [ | y l Hl IH Hy]; cbn [insert_by].
  - repeat constructor.
  - unfold MarketA.by_timestamp at 1.
    destruct (Z.ltb_spec (timestamp y) (timestamp x)) as [Hlt | Hge].
    + constructor; [exact IH | ].
      apply (SortFacts.Forall_perm _ (x :: l));
        [symmetry; apply SortFacts.insert_by_perm | ].
      constructor; [lia | exact Hy].
    + constructor; [now constructor | ].
      constructor; [exact Hge | ].
      eapply Forall_impl; [ | exact Hy]. cbn. intros a Ha. lia.
Qed.

Lemma sort_in_time_order (l : table) :
  in_time_order (sort_by MarketA.by_timestamp l).
Proof.
  induction l as [ | x l IH]; [constructor | ].
  unfold sort_by in *. cbn [fold_right]. now apply insert_in_time_order.
Qed.

(** The fresh fetch up to the write, when the exchange answers with rows
    that parse. *)
Lemma fetch_fresh_run (symbol : string) (interval : interval_arg) (days : Z)
  (w : env) (s : state) (rows : list (list string)) (parsed : table) (n : Z)
  (use_cache : bool) :
  calculate_required_points days interval = Ok n ->
  (forall start_time end_time limit : Z,
      get_kline w (S (ticks s)) symbol interval start_time end_time limit
      = Kline_response (Some rows)) ->
  rows <> [] ->
  parse_rows w rows = Ok parsed ->
  let df := sort_by MarketA.by_timestamp parsed in
  let path := _get_cache_path symbol interval in
  fetch_fresh symbol interval days use_cache w s
  = (if use_cache
     then mbind
            (try_except (write_cache path (Parquet df))
               (fun e => emit (Log_warning (Error_saving_cache symbol e))))
            (fun _ => ret df)
     else ret df) w
      {| ticks := S (S (ticks s)); cache_dir := cache_dir s;
         base_dir := base_dir s;
         trace := trace s ++ [Log_info (Fetching_points n symbol)] |}.
Proof.
  intros Hpoints Hreply Hrows Hparsed df path.
  assert (Hmin : is_calendar interval = false ->
                 exists minutes : Z, interval_minutes interval = Ok minutes).
  { intro Hc. unfold calculate_required_points in Hpoints.
    rewrite Hc in Hpoints.
    destruct (interval_minutes interval) as [minutes | e];
      [now exists minutes | discriminate]. }
  destruct rows as [ | r rows]; [congruence | ].
  unfold fetch_fresh, try_except, mbind, now, ask, tick, ret, lift, raise,
    emit, mbind, build_frame, lift, write_cache, store_cache, mbind, ask,
    now, ask, mbind, tick, ret, raise.
  cbn [fst snd ticks cache_dir base_dir trace]. rewrite Hpoints.
  destruct (is_calendar interval) eqn:Hc.
  - rewrite Hreply, Hparsed. cbn [bind]. fold df. fold path.
    destruct use_cache; [ | reflexivity].
    cbn [ticks cache_dir base_dir trace].
    destruct (write_fails w (S (S (ticks s))) path); reflexivity.
  - destruct (Hmin eq_refl) as (minutes & Hm). rewrite Hm.
    cbn [ticks]. rewrite Hreply, Hparsed. cbn [bind].
    fold df. fold path.
    destruct use_cache; [ | reflexivity].
    cbn [ticks cache_dir base_dir trace].
    destruct (write_fails w (S (S (ticks s))) path); reflexivity.
Qed.

(** The same, through the write that succeeds. *)
Lemma fetch_fresh_written (symbol : string) (interval : interval_arg)
  (days : Z) (w : env) (s : state) (rows : list (list string))
  (parsed : table) (n : Z) :
  calculate_required_points days interval = Ok n ->
  (forall start_time end_time limit : Z,
      get_kline w (S (ticks s)) symbol interval start_time end_time limit
      = Kline_response (Some rows)) ->
  rows <> [] ->
  parse_rows w rows = Ok parsed ->
  write_fails w (S (S (ticks s))) (_get_cache_path symbol interval) = false ->
  fetch_fresh symbol interval days true w s
  = (Ok (sort_by MarketA.by_timestamp parsed),
     {| ticks := S (S (S (S (ticks s))));
        cache_dir :=
          put_cache (cache_dir s)
            {| cache_name := _get_cache_path symbol interval;
               cache_mtime := clock w (S (S (S (ticks s))));
               cache_data := Parquet (sort_by MarketA.by_timestamp parsed) |};
        base_dir := base_dir s;
        trace := trace s ++ [Log_info (Fetching_points n symbol)] |}).
Proof.
  intros Hpoints Hreply Hrows Hparsed Hw.
  rewrite (fetch_fresh_run symbol interval days w s rows parsed n true
             Hpoints Hreply Hrows Hparsed).
  unfold mbind, try_except, write_cache, mbind, ask, mbind, tick, ret, now,
    ask, mbind, tick, ret, store_cache.
  cbn [ticks cache_dir base_dir trace]. rewrite Hw. reflexivity.
Qed.

(** X4.  A fresh fetch that succeeds.  When the exchange answers with rows
    that all parse, the table returned holds exactly those rows, sorted by
    timestamp (rows with equal timestamps in the order received).  With
    the cache in use the table is written under the symbol's cache path,
    stamped with the time of writing; when that write fails the table is
    returned all the same, the failure logged as a warning and the cache
    left as it was; with [use_cache=False] nothing is written. *)
Theorem fetch_fresh_returns_sorted_rows (symbol : string)
  (interval : interval_arg) (days : Z) (w : env) (s : state)
  (rows : list (list string)) (parsed : table) (n : Z)
  (Hpoints : calculate_required_points days interval = Ok n)
  (Hreply : forall start_time end_time limit : Z,
      get_kline w (S (ticks s)) symbol interval start_time end_time limit
      = Kline_response (Some rows))
  (Hrows : rows <> [])
  (Hparsed : parse_rows w rows = Ok parsed) :
  let df := sort_by MarketA.by_timestamp parsed in
  let path := _get_cache_path symbol interval in
  let asked := trace s ++ [Log_info (Fetching_points n symbol)] in
  let file := {| cache_name := path;
                 cache_mtime := clock w (S (S (S (ticks s))));
                 cache_data := Parquet df |} in
  Permutation df parsed
  /\ in_time_order df
  /\ (write_fails w (S (S (ticks s))) path = false ->
      fetch_fresh symbol interval days true w s
      = (Ok df, {| ticks := S (S (S (S (ticks s))));
                   cache_dir := put_cache (cache_dir s) file;
                   base_dir := base_dir s;
                   trace := asked |})
      /\ find_cache (put_cache (cache_dir s) file) path = Some file)
  /\ (write_fails w (S (S (ticks s))) path = true ->
      fetch_fresh symbol interval days true w s
      = (Ok df, {| ticks := S (S (S (ticks s)));
                   cache_dir := cache_dir s;
                   base_dir := base_dir s;
                   trace := asked
                            ++ [Log_warning
                                  (Error_saving_cache symbol OSError)] |}))
  /\ fetch_fresh symbol interval days false w s
     = (Ok df, {| ticks := S (S (ticks s));
                  cache_dir := cache_dir s;
                  base_dir := base_dir s;
                  trace := asked |}).
Proof.
  intros df path asked file.
  split; [apply SortFacts.sort_by_perm | ].
  split; [apply sort_in_time_order | ].
  split.
  { intro Hw. split; [ | exact (find_put_cache (cache_dir s) file)].
    now apply (fetch_fresh_written symbol interval days w s rows parsed n). }
  split.
  { intro Hw.
    rewrite (fetch_fresh_run symbol interval days w s rows parsed n true
               Hpoints Hreply Hrows Hparsed).
    unfold mbind, try_except, write_cache, mbind, ask, mbind, tick, ret,
      raise, emit.
    cbn [ticks cache_dir base_dir trace]. fold path. rewrite Hw.
    reflexivity. }
  now rewrite (fetch_fresh_run symbol interval days w s rows parsed n false
                 Hpoints Hreply Hrows Hparsed).
Qed.

(** The exchange of [Samples.flaky] answers two rows, the newer first: they
    come back in time order and are found in the cache afterwards. *)
Lemma fetch_fresh_returns_sorted_rows_witness :
  exists df : table,
    fetch_fresh "AUSDT" (IStr "60") 1 true Samples.flaky
      Samples.nothing_on_disk
    = (Ok df,
       {| ticks := 4;
          cache_dir := [ {| cache_name := "AUSDT_60.parquet";
                            cache_mtime := 3000;
                            cache_data := Parquet df |} ];
          base_dir := [];
          trace := [Log_info (Fetching_points 24 "AUSDT")] |})
    /\ map timestamp df = [0; 3600000]
    /\ in_time_order df.
Proof.
  destruct (fetch_fresh_returns_sorted_rows "AUSDT" (IStr "60") 1
              Samples.flaky Samples.nothing_on_disk
              [Samples.candle_row "3600000" "2"; Samples.candle_row "0" "1"]
              _ 24 eq_refl (fun _ _ _ => eq_refl) ltac:(discriminate)
              eq_refl)
    as (_ & Hsorted & Hwrite & _).
  destruct (Hwrite eq_refl) as [Hrun _].
  eexists. split; [exact Hrun | ]. split; [reflexivity | exact Hsorted].
Defined.

(** X5.  The cache round trip.  After a fresh fetch that returned at least
    the required number of rows and wrote its cache file, a second call for
    the same symbol, interval and days within four hours returns the last
    required rows of the first call's table (the same table when the
    exchange sent exactly the required number) without asking the exchange:
    only the clock is read. *)
Theorem get_kline_data_second_call_cached (symbol : string)
  (interval : interval_arg) (days : Z) (w : env) (s : state)
  (rows : list (list string)) (parsed : table) (n : Z)
  (Hnone : find_cache (cache_dir s) (_get_cache_path symbol interval) = None)
  (Hpoints : calculate_required_points days interval = Ok n)
  (Hreply : forall start_time end_time limit : Z,
      get_kline w (S (ticks s)) symbol interval start_time end_time limit
      = Kline_response (Some rows))
  (Hrows : rows <> [])
  (Hparsed : parse_rows w rows = Ok parsed)
  (Hwrite : write_fails w (S (S (ticks s))) (_get_cache_path symbol interval)
            = false)
  (Henough : n <= Z.of_nat (length parsed))
  (Hsoon : clock w (S (S (S (S (ticks s))))) - clock w (S (S (S (ticks s))))
           < cache_duration) :
  exists (df : table) (s1 : state),
    get_kline_data symbol interval days true w s = (Ok df, s1)
    /\ Permutation df parsed
    /\ get_kline_data symbol interval days true w s1
       = (Ok (tail_rows df n), ticked s1)
    /\ (Z.of_nat (length parsed) = n -> tail_rows df n = df).
Proof.
  eexists. eexists.
  split.
  { rewrite (cache_missing symbol interval days w s Hnone
               (written_name_fits w _ _ Hwrite)).
    exact (fetch_fresh_written symbol interval days w s rows parsed n Hpoints
             Hreply Hrows Hparsed Hwrite). }
  assert (Hlen : length (sort_by MarketA.by_timestamp parsed) = length parsed)
    by (apply Permutation_length, SortFacts.sort_by_perm).
  split; [apply SortFacts.sort_by_perm | ].
  split.
  { eapply cache_hit.
    - cbn [cache_dir]. apply find_put_cache.
    - reflexivity.
    - exact Hsoon.
    - exact Hpoints.
    - rewrite Hlen. exact Henough. }
  intro E. unfold tail_rows.
  assert (H0 : 0 <= n) by lia.
  replace (n <? 0) with false by (symmetry; apply Z.ltb_ge; lia).
  rewrite Hlen.
  replace (length parsed - Z.to_nat n)%nat with 0%nat by lia.
  reflexivity.
Qed.

(** Two calls in a row against the exchange of [Samples.flaky], one day of
    twelve-hour bars wanted, which is two rows: the second call returns the
    first one's table and asks nothing. *)
Lemma get_kline_data_second_call_cached_witness :
  exists (df : table) (s1 : state),
    get_kline_data "AUSDT" (IStr "720") 1 true Samples.flaky
      Samples.nothing_on_disk = (Ok df, s1)
    /\ get_kline_data "AUSDT" (IStr "720") 1 true Samples.flaky s1
       = (Ok df, ticked s1)
    /\ length df = 2%nat.
Proof.
  destruct (get_kline_data_second_call_cached "AUSDT" (IStr "720") 1
              Samples.flaky Samples.nothing_on_disk
              [Samples.candle_row "3600000" "2"; Samples.candle_row "0" "1"]
              _ 2 eq_refl eq_refl (fun _ _ _ => eq_refl) ltac:(discriminate)
              eq_refl eq_refl ltac:(vm_compute; discriminate)
              ltac:(vm_compute; reflexivity))
    as (df & s1 & H1 & Hperm & H2 & Hsame).
  exists df, s1. split; [exact H1 | ].
  rewrite (Hsame eq_refl) in H2. split; [exact H2 | ].
  exact (Permutation_length Hperm).
Defined.

End CacheProps.

Module SymbolProps.
Import Pandas Runtime DataFetcher Fetcher RunFacts FetcherFacts CacheProps.
Local Open Scope run_scope.


End SymbolProps.

Module ScanProps.
Import Pandas Runtime DataFetcher Fetcher RunFacts FetcherFacts.
Local Open Scope run_scope.







End ScanProps.

(* ================================================================== *)
(** * Further properties of src/market_b.py *)
(* ================================================================== *)

Module TrendProps.
Import Pandas MarketB FloatFacts ListFacts PandasFacts MarketBFacts.
Import AnalyzeAssetFacts AnalyzeMarketFacts TrendChangesFacts.

Lemma classify_no_change (c s d : float) :
  isnan d = true -> classify c s d = 0.
Proof.
  intro H. pose proof (flt_nan_l d zero H) as A.
  pose proof (flt_nan_r zero d H) as B.
  unfold classify, fgt, flt in *. rewrite A, B.
  now rewrite !andb_false_r.
Qed.

(** The SMA's difference is undefined in each of the first [period] rows. *)
Lemma SMA_Change_early (self : TrendDetector) (df : table) (i : nat) :
  (i < length df)%nat -> (i < period (sma_indicator self))%nat ->
  isnan (nth i (SMA_Change (detect_trend self df)) nan) = true.
Proof.
  intros Hi Hp. unfold detect_trend, calculate.
  cbn [SMA_Change sma_SMA sma_rows].
  destruct i as [ | j]; [now rewrite nth_diff_0 | ].
  rewrite nth_diff_S by (rewrite length_rolling_mean, length_map; lia).
  apply fsub_nan_r.
  rewrite nth_rolling_mean_early by (rewrite ?length_map; lia).
  reflexivity.
Qed.

Lemma Trend_early (self : TrendDetector) (df : table) (i : nat) :
  (i < length df)%nat -> (i < period (sma_indicator self))%nat ->
  nth i (Trend (detect_trend self df)) 0 = 0.
Proof.
  intros Hi Hp. rewrite (nth_Trend self df i Hi).
  apply classify_no_change. now apply SMA_Change_early.
Qed.

Lemma Forall_nth_eq (c : Z) (l : list Z) :
  (forall i : nat, (i < length l)%nat -> nth i l 0 = c) -> Forall (eq c) l.
Proof.
  intro H. apply Forall_forall. intros x Hx.
  destruct (In_nth l x 0 Hx) as (i & Hi & <-). symmetry. now apply H.
Qed.

(** X8.  Too little history is neutral.  A table with a row but no more
    rows than the SMA period has no defined SMA difference in any row, so
    the Moving-Average [analyze_asset] reports it neutral
    ([current_trend] 0) with [trend_changes] 1; when it has fewer rows than
    the period its ['sma'] is NaN. *)
Theorem analyze_asset_short_history (b : MarketAnalyzer) (df : table)
  (Hne : df <> [])
  (Hshort : (length df <= period (sma_indicator (trend_detector b)))%nat) :
  exists r : dict value,
    analyze_asset b df = Ok r
    /\ dict_find r "current_trend" = Some (VInt 0)
    /\ dict_find r "trend_changes" = Some (VInt 1)
    /\ ((length df < period (sma_indicator (trend_detector b)))%nat ->
        dict_find r "sma" = Some (VFloat nan)).
Proof.
  assert (Hlen : (1 <= length df)%nat)
    by (destruct df; [contradiction | cbn; lia]).
  set (f := detect_trend (trend_detector b) df).
  assert (Hzero : Forall (eq 0) (Trend f)).
  { apply Forall_nth_eq. intros i Hi. unfold f in Hi.
    rewrite length_Trend in Hi. apply Trend_early; lia. }
  eexists. split; [exact (analyze_asset_b b df Hne) | ].
  cbn [dict_find String.eqb Ascii.eqb Bool.eqb]. fold f.
  split.
  { do 2 f_equal. apply Trend_early; lia. }
  split.
  { do 2 f_equal.
    rewrite count_changes_transitions.
    - now rewrite (transitions_constant 0 _ Hzero).
    - intro E. apply (f_equal (@length Z)) in E. unfold f in E.
      rewrite length_Trend in E. cbn in E. lia.
    - apply Trend_codes_b. }
  intro Hlt. do 2 f_equal. unfold f, detect_trend, calculate.
  cbn [SMA sma_SMA]. apply nth_rolling_mean_early; rewrite ?length_map; lia.
Qed.

(** Twenty-four rows under a 100-row average. *)
Lemma analyze_asset_short_history_witness :
  exists r : dict value,
    analyze_asset (Samples.ma_analyzer 100) Samples.rows24 = Ok r
    /\ dict_find r "current_trend" = Some (VInt 0)
    /\ dict_find r "trend_changes" = Some (VInt 1)
    /\ dict_find r "sma" = Some (VFloat nan).
Proof.
  destruct (analyze_asset_short_history (Samples.ma_analyzer 100)
              Samples.rows24 ltac:(discriminate) ltac:(vm_compute; lia))
    as (r & Hr & Ht & Hc & Hs).
  exists r. repeat split; try assumption. apply Hs. vm_compute. lia.
Defined.

End TrendProps.

(* ================================================================== *)
(** * Which assets a market analysis keeps *)
(* ================================================================== *)

Module MarketProps.
Import Pandas MarketB FloatFacts ListFacts AnalyzeAssetFacts.
Import AnalyzeMarketFacts.

Section Picked.

(** The analysis a loop body stores for an item, if it stores one. *)
Variable pick : string * table -> option (dict value).
Variable step : tally -> string * table -> result tally.

Hypothesis step_picks :
  forall (acc : tally) (item : string * table),
  exists t : tally,
    step acc item = Ok t
    /\ assets_analysis t
       = match pick item with
         | None => assets_analysis acc
         | Some r => dict_set (assets_analysis acc) (fst item) r
         end.

Definition picked (items : dict table) : dict (dict value) :=
  flat_map (fun item =>
              match pick item with
              | Some r => [(fst item, r)]
              | None => []
              end) items.

Lemma keys_picked (items : dict table) :
  keys (picked items)
  = keys (filter (fun item => match pick item with
                              | Some _ => true
                              | None => false
                              end) items).
Proof.
  induction items as [ | item items IH]; [reflexivity | ].
  cbn [picked flat_map filter]. destruct (pick item) as [r | ].
  - cbn [app keys map fst]. f_equal. exact IH.
  - exact IH.
Qed.

Lemma keys_picked_incl (items : dict table) (k : string) :
  In k (keys (picked items)) -> In k (keys items).
Proof.
  rewrite keys_picked. unfold keys. rewrite !in_map_iff.
  intros (item & E & H). apply filter_In in H. exists item. tauto.
Qed.

Lemma for_each_picked (items : dict table) :
  forall acc : tally,
    NoDup (keys items) ->
    (forall k, In k (keys (assets_analysis acc)) -> ~ In k (keys items)) ->
    exists t : tally,
      for_each step acc items = Ok t
      /\ assets_analysis t = assets_analysis acc ++ picked items.
Proof.
  induction items as [ | item items IH]; intros acc Hnd Hdisj.
  - exists acc. split; [reflexivity | ]. cbn. now rewrite app_nil_r.
  - cbn [keys map] in Hnd, Hdisj. apply NoDup_cons_iff in Hnd.
    destruct Hnd as [Hout Hnd].
    destruct (step_picks acc item) as (t1 & E1 & A1).
    cbn [for_each]. rewrite E1. cbn [bind].
    assert (Hfresh : ~ In (fst item) (keys (assets_analysis acc))).
    { intro Hin. apply (Hdisj _ Hin). now left. }
    destruct (IH t1 Hnd) as (t & E & A).
    + intros k Hk Hin. rewrite A1 in Hk.
      destruct (pick item) as [r | ].
      * rewrite (dict_set_fresh _ _ _ Hfresh) in Hk.
        unfold keys in Hk. rewrite map_app, in_app_iff in Hk.
        destruct Hk as [Hk | [Hk | []]].
        -- apply (Hdisj k Hk). now right.
        -- cbn in Hk. subst k. contradiction.
      * apply (Hdisj k Hk). now right.
    + exists t. split; [exact E | ]. rewrite A, A1.
      cbn [picked flat_map]. destruct (pick item) as [r | ].
      * rewrite (dict_set_fresh _ _ _ Hfresh), <- app_assoc. reflexivity.
      * reflexivity.
Qed.

End Picked.

Lemma dict_find_in {A : Type} (d : dict A) (k : string) (v : A) :
  NoDup (keys d) -> In (k, v) d -> dict_find d k = Some v.
Proof.
  induction d as [ | [k0 v0] d IH]; intros Hnd Hin; [destruct Hin | ].
  cbn [keys map fst] in Hnd. apply NoDup_cons_iff in Hnd.
  destruct Hnd as [Hout Hnd]. cbn [dict_find].
  destruct Hin as [E | Hin].
  - injection E as -> ->. now rewrite String.eqb_refl.
  - destruct (String.eqb_spec k0 k) as [E | NE].
    + subst k0. exfalso. apply Hout. unfold keys.
      apply in_map_iff. now exists (k, v).
    + now apply IH.
Qed.

Lemma NoDup_keys_filter {A : Type} (f : string * A -> bool) (d : dict A) :
  NoDup (keys d) -> NoDup (keys (filter f d)).
Proof.
  induction d as [ | [k v] d IH]; intro H; [constructor | ].
  cbn [keys map fst] in H. apply NoDup_cons_iff in H. destruct H as [Hk H].
  cbn [filter]. destruct (f (k, v)); [ | now apply IH].
  cbn [keys map fst]. constructor; [ | now apply IH].
  intro Hin. apply Hk. unfold keys in *. apply in_map_iff in Hin.
  destruct Hin as (x & E & Hx). apply filter_In in Hx.
  apply in_map_iff. exists x. tauto.
Qed.

(** *** The Moving-Average pipeline *)

Definition long_enough (b : MarketAnalyzer) (item : string * table) : bool :=
  (period (sma_indicator (trend_detector b)) <=? length (snd item))%nat.

Definition pick_b (b : MarketAnalyzer) (item : string * table)
  : option (dict value) :=
  if long_enough b item then
    match analyze_asset b (snd item) with
    | Ok r => Some r
    | Raise _ => None
    end
  else None.

Lemma analyze_step_picks (b : MarketAnalyzer) :
  (1 <= period (sma_indicator (trend_detector b)))%nat ->
  forall (acc : tally) (item : string * table),
  exists t : tally,
    analyze_step b acc item = Ok t
    /\ assets_analysis t
       = match pick_b b item with
         | None => assets_analysis acc
         | Some r => dict_set (assets_analysis acc) (fst item) r
         end.
Proof.
  intros Hp acc [symbol df]. unfold analyze_step, pick_b, long_enough.
  cbn [fst snd].
  destruct (Nat.ltb_spec (length df)
              (period (sma_indicator (trend_detector b)))) as [Hlt | Hge].
  - replace (_ <=? length df)%nat with false
      by (symmetry; apply Nat.leb_gt; lia).
    now exists acc.
  - replace (_ <=? length df)%nat with true
      by (symmetry; apply Nat.leb_le; lia).
    assert (Hne : df <> []) by (intro; subst; cbn in Hge; lia).
    rewrite (analyze_asset_b b df Hne). cbn [bind].
    eexists. split; reflexivity.
Qed.

(** X9.  Which assets the Moving-Average [analyze_market] keeps.  For a
    period of at least 1 it keeps exactly the symbols whose table has at
    least [period] rows, in the order of the input, each with the result of
    [analyze_asset] on its table; shorter tables are dropped without a
    trace, and [total_assets] is the number of symbols kept. *)
Theorem analyze_market_keeps_long_tables (b : MarketAnalyzer)
  (market_data : dict table)
  (Hkeys : NoDup (keys market_data))
  (Hperiod : (1 <= period (sma_indicator (trend_detector b)))%nat) :
  exists (stats : market_stats) (assets : dict (dict value)),
    analyze_market b market_data = Ok (stats, assets)
    /\ keys assets = keys (filter (long_enough b) market_data)
    /\ total_assets stats
       = Z.of_nat (length (filter (long_enough b) market_data))
    /\ (forall (symbol : string) (df : table),
          In (symbol, df) market_data ->
          if long_enough b (symbol, df)
          then exists r : dict value,
                 analyze_asset b df = Ok r
                 /\ dict_find assets symbol = Some r
          else dict_find assets symbol = None).
Proof.
  destruct (for_each_picked (pick_b b) (analyze_step b)
              (analyze_step_picks b Hperiod) market_data
              (Build_tally [] 0 0 0) Hkeys ltac:(intros k []))
    as (t & Et & At).
  cbn [assets_analysis app] in At.
  assert (Hpick : forall item : string * table,
             match pick_b b item with Some _ => true | None => false end
             = long_enough b item).
  { intros [symbol df]. unfold pick_b.
    destruct (long_enough b (symbol, df)) eqn:E; [ | reflexivity].
    unfold long_enough in E. cbn [snd] in *. apply Nat.leb_le in E.
    assert (Hne : df <> []) by (intro; subst; cbn in E; lia).
    now rewrite (analyze_asset_b b df Hne). }
  assert (Hk : keys (assets_analysis t)
               = keys (filter (long_enough b) market_data)).
  { rewrite At, keys_picked. f_equal. apply filter_ext. exact Hpick. }
  exists (Build_market_stats (valid_assets t)
            (percentage (uptrend_count t) (valid_assets t))
            (percentage (downtrend_count t) (valid_assets t))
            (percentage (valid_assets t - uptrend_count t
                         - downtrend_count t) (valid_assets t))),
    (assets_analysis t).
  split; [unfold analyze_market; now rewrite Et | ].
  split; [exact Hk | ].
  split.
  { cbn [total_assets].
    destruct (for_each_consistent _ market_data (well_behaved_b b Hperiod)
                (Build_tally [] 0 0 0) Hkeys ltac:(intros k [])
                ltac:(constructor; cbn; reflexivity || lia))
      as (t' & Et' & Ct).
    rewrite Et in Et'. injection Et' as <-.
    rewrite (c_valid t Ct), <- (length_map fst (assets_analysis t)).
    fold (keys (assets_analysis t)). rewrite Hk. unfold keys.
    now rewrite length_map. }
  intros symbol df Hin.
  assert (Hnd : NoDup (keys (assets_analysis t)))
    by (rewrite Hk; now apply NoDup_keys_filter).
  destruct (long_enough b (symbol, df)) eqn:E.
  - unfold long_enough in E. cbn [snd] in E. apply Nat.leb_le in E.
    assert (Hne : df <> []) by (intro; subst; cbn in E; lia).
    eexists. split; [exact (analyze_asset_b b df Hne) | ].
    apply dict_find_in; [exact Hnd | ]. rewrite At. unfold picked.
    apply in_flat_map. exists (symbol, df). split; [exact Hin | ].
    unfold pick_b, long_enough. cbn [fst snd].
    replace (_ <=? length df)%nat with true
      by (symmetry; apply Nat.leb_le; lia).
    rewrite (analyze_asset_b b df Hne). now left.
  - apply dict_find_None. rewrite Hk. unfold keys. intro Hk'.
    apply in_map_iff in Hk'. destruct Hk' as ([k' df'] & Ek & Hf).
    cbn [fst] in Ek. subst k'. apply filter_In in Hf.
    destruct Hf as [Hin' E'].
    assert (df' = df).
    { pose proof (dict_find_in market_data symbol df Hkeys Hin) as F1.
      pose proof (dict_find_in market_data symbol df' Hkeys Hin') as F2.
      congruence. }
    subst df'. congruence.
Qed.

(** Of the three assets of [Samples.market3], each three rows long, a
    period of 3 keeps all and a period of 4 would keep none. *)
Lemma analyze_market_keeps_long_tables_witness :
  exists (stats : market_stats) (assets : dict (dict value)),
    analyze_market (Samples.ma_analyzer 3) Samples.market3
    = Ok (stats, assets)
    /\ keys assets = ["UPUSDT"; "DOWNUSDT"; "FLATUSDT"]
    /\ total_assets stats = 3.
Proof.
  destruct (analyze_market_keeps_long_tables (Samples.ma_analyzer 3)
              Samples.market3
              ltac:(repeat constructor; cbn; intuition discriminate)
              ltac:(cbn; lia))
    as (stats & assets & H & Hk & Ht & _).
  exists stats, assets. split; [exact H | ].
  split; [exact Hk | exact Ht].
Defined.

End MarketProps.

(* ================================================================== *)
(** * Further properties of src/market_a.py *)
(* ================================================================== *)

Module NanFacts.
Import FloatFacts.

(** The kernel's floats have one [NaN]. *)
Lemma nan_unique (x : float) : isnan x = true -> x = nan.
Proof.
  intro H. apply FloatAxioms.Prim2SF_inj.
  rewrite (Prim2SF_isnan x H). reflexivity.
Qed.

Lemma fadd_nan_l (x y : float) : isnan x = true -> isnan (fadd x y) = true.
Proof.
  intro H. apply isnan_Prim2SF. unfold fadd.
  rewrite FloatAxioms.add_spec, (Prim2SF_isnan _ H). reflexivity.
Qed.

Lemma fadd_nan_r (x y : float) : isnan y = true -> isnan (fadd x y) = true.
Proof.
  intro H. apply isnan_Prim2SF. unfold fadd.
  rewrite FloatAxioms.add_spec, (Prim2SF_isnan _ H).
  unfold SF64add, SFadd. now destruct (Prim2SF x).
Qed.

Lemma fmul_nan_l (x y : float) : isnan x = true -> isnan (fmul x y) = true.
Proof.
  intro H. apply isnan_Prim2SF. unfold fmul.
  rewrite FloatAxioms.mul_spec, (Prim2SF_isnan _ H). reflexivity.
Qed.

Lemma fdiv_nan_l (x y : float) : isnan x = true -> isnan (fdiv x y) = true.
Proof.
  intro H. apply isnan_Prim2SF. unfold fdiv.
  rewrite FloatAxioms.div_spec, (Prim2SF_isnan _ H). reflexivity.
Qed.

Lemma fabs_nan (x : float) : isnan x = true -> isnan (fabs x) = true.
Proof.
  intro H. apply isnan_Prim2SF. unfold fabs.
  rewrite FloatAxioms.abs_spec, (Prim2SF_isnan _ H). reflexivity.
Qed.

End NanFacts.

Module BandProps.
Import Pandas MarketA FloatFacts NanFacts ListFacts PandasFacts MarketAFacts.

(** The value [detect_trend] leaves in a row, from the resampled close and
    the two bands: the downtrend assignment is the later one. *)
Definition classify_band (c upper lower : float) : Z :=
  if flt c lower then -1 else if fgt c upper then 1 else 0.

Lemma length_MA (self : TrendDetector) (df : table) :
  length (MA (frame_of self df)) = length df.
Proof.
  unfold frame_of, bands. cbn [MA].
  unfold merge_back. cbn [Resample_Close].
  now rewrite length_rolling_mean, length_carry_back.
Qed.

Lemma length_UpperBand (self : TrendDetector) (df : table) :
  length (UpperBand (frame_of self df)) = length df.
Proof.
  unfold frame_of, bands. cbn [UpperBand].
  rewrite length_zip_with, length_map, length_rolling_mean.
  unfold merge_back. cbn [Resample_ATR Resample_Close].
  rewrite !length_carry_back. lia.
Qed.

Lemma length_LowerBand (self : TrendDetector) (df : table) :
  length (LowerBand (frame_of self df)) = length df.
Proof.
  unfold frame_of, bands. cbn [LowerBand].
  rewrite length_zip_with, length_map, length_rolling_mean.
  unfold merge_back. cbn [Resample_ATR Resample_Close].
  rewrite !length_carry_back. lia.
Qed.

Lemma nth_bands (self : TrendDetector) (df : table) (i : nat) :
  (i < length df)%nat ->
  let f := frame_of self df in
  let ma := nth i (MA f) nan in
  let offset := fmul (nth i (Resample_ATR (frame f)) nan)
                  (volatility_multiplier self) in
  nth i (UpperBand f) nan = fadd ma offset
  /\ nth i (LowerBand f) nan = fsub ma offset.
Proof.
  intros Hi f ma offset.
  pose proof (length_MA self df) as Lma.
  pose proof (length_ATR_frame_of self df) as Latr.
  unfold ma, offset, f in *. unfold frame_of, bands in *.
  cbn [UpperBand LowerBand MA frame] in *.
  set (atr := Resample_ATR _) in *. set (m := rolling_mean _ _) in *.
  split.
  - rewrite (nth_zip_with fadd m _ i nan nan nan)
      by (rewrite ?length_map; lia).
    f_equal.
    rewrite (nth_indep _ nan
               ((fun a => fmul a (volatility_multiplier self)) nan))
      by (rewrite length_map; lia).
    apply (map_nth (fun a => fmul a (volatility_multiplier self))).
  - rewrite (nth_zip_with fsub m _ i nan nan nan)
      by (rewrite ?length_map; lia).
    f_equal.
    rewrite (nth_indep _ nan
               ((fun a => fmul a (volatility_multiplier self)) nan))
      by (rewrite length_map; lia).
    apply (map_nth (fun a => fmul a (volatility_multiplier self))).
Qed.

Lemma nth_Trend_bands (self : TrendDetector) (df : table) (i : nat) :
  (i < length df)%nat ->
  let f := frame_of self df in
  nth i (Trend f) 0
  = classify_band (nth i (Resample_Close (frame f)) nan)
      (nth i (UpperBand f) nan) (nth i (LowerBand f) nan).
Proof.
  intros Hi f.
  pose proof (length_UpperBand self df) as Lu.
  pose proof (length_LowerBand self df) as Ll.
  pose proof (length_Close_frame_of self df) as Lc.
  unfold f in *. unfold frame_of, bands in *.
  cbn [Trend UpperBand LowerBand frame] in *.
  set (closes := Resample_Close _) in *.
  set (upper := zip_with fadd _ _) in *.
  set (lower := zip_with fsub _ _) in *.
  rewrite nth_mask_set
    by (rewrite ?length_mask_set, ?length_zip_with, ?length_map; lia).
  rewrite nth_mask_set by (rewrite ?length_zip_with, ?length_map; lia).
  rewrite (nth_zip_with flt closes lower i nan nan false) by lia.
  rewrite (nth_zip_with fgt closes upper i nan nan false) by lia.
  rewrite nth_map_const. reflexivity.
Qed.

(** X10.  The Volatility-Band classification.  For a positive resample
    interval [detect_trend] returns one trend code per row; the bands of a
    row are its moving average plus and minus the carried-back ATR times
    the volatility multiplier; the row is a downtrend (-1) exactly when its
    carried-back resampled close is strictly below the lower band, an
    uptrend (+1) exactly when it is strictly above the upper band and not
    below the lower one, and neutral otherwise; a row whose moving average
    or ATR is undefined is neutral. *)
Theorem detect_trend_bands (self : TrendDetector) (df : table)
  (Hpos : 0 < resample_interval (volatility_indicator self)) :
  exists f : trend_frame,
    detect_trend self df = Ok f
    /\ length (Trend f) = length df
    /\ forall i : nat, (i < length df)%nat ->
       let c := nth i (Resample_Close (frame f)) nan in
       let atr := nth i (Resample_ATR (frame f)) nan in
       let ma := nth i (MA f) nan in
       let upper := nth i (UpperBand f) nan in
       let lower := nth i (LowerBand f) nan in
       let trend := nth i (Trend f) 0 in
       upper = fadd ma (fmul atr (volatility_multiplier self))
       /\ lower = fsub ma (fmul atr (volatility_multiplier self))
       /\ (trend = -1 <-> flt c lower = true)
       /\ (trend = 1 <-> fgt c upper = true /\ flt c lower = false)
       /\ (trend = 0 <-> fgt c upper = false /\ flt c lower = false)
       /\ (isnan ma = true \/ isnan atr = true -> trend = 0).
Proof.
  exists (frame_of self df).
  split; [now apply detect_trend_ok | ].
  split; [apply length_Trend_frame_of | ].
  intros i Hi c atr ma upper lower trend.
  destruct (nth_bands self df i Hi) as [Hu Hl].
  fold ma atr upper lower in Hu, Hl.
  assert (Ht : trend = classify_band c upper lower)
    by (apply nth_Trend_bands; exact Hi).
  split; [exact Hu | ]. split; [exact Hl | ].
  rewrite Ht. unfold classify_band.
  split; [ | split; [ | split]].
  - destruct (flt c lower); [tauto | ].
    destruct (fgt c upper); split; (discriminate || lia).
  - destruct (flt c lower);
      [split; [lia | intros [_ H]; discriminate] | ].
    destruct (fgt c upper); split; intuition (discriminate || lia).
  - destruct (flt c lower);
      [split; [lia | intros [_ H]; discriminate] | ].
    destruct (fgt c upper); split; intuition (discriminate || lia).
  - intro Hnan.
    assert (Hup : isnan upper = true).
    { rewrite Hu. destruct Hnan as [H | H];
        [now apply fadd_nan_l | apply fadd_nan_r; now apply fmul_nan_l]. }
    assert (Hlo : isnan lower = true).
    { rewrite Hl. destruct Hnan as [H | H];
        [now apply fsub_nan_l | apply fsub_nan_r; now apply fmul_nan_l]. }
    rewrite (flt_nan_r c lower Hlo). unfold fgt.
    pose proof (flt_nan_l upper c Hup) as E. unfold flt in E.
    now rewrite E.
Qed.

(** An hourly series rising 1, 2, 3, 4, 5 under the small analyzer of
    [Samples]: the last row is an uptrend. *)
Lemma detect_trend_bands_witness :
  exists f : trend_frame,
    detect_trend (trend_detector Samples.vb_small)
      (Samples.hourly [1; 2; 3; 4; 5]) = Ok f
    /\ length (Trend f) = 5%nat
    /\ (nth 4 (Trend f) 0 = 1
        <-> fgt (nth 4 (Resample_Close (frame f)) nan)
              (nth 4 (UpperBand f) nan) = true
            /\ flt (nth 4 (Resample_Close (frame f)) nan)
                 (nth 4 (LowerBand f) nan) = false)
    /\ nth 4 (Trend f) 0 = 1.
Proof.
  destruct (detect_trend_bands (trend_detector Samples.vb_small)
              (Samples.hourly [1; 2; 3; 4; 5]) ltac:(reflexivity))
    as (f & H & Hlen & Hrows).
  exists f. split; [exact H | ]. split; [exact Hlen | ].
  destruct (Hrows 4%nat ltac:(vm_compute; lia)) as (_ & _ & _ & Hup & _).
  split; [exact Hup | ].
  assert (E : detect_trend (trend_detector Samples.vb_small)
                (Samples.hourly [1; 2; 3; 4; 5]) = Ok f) by exact H.
  vm_compute in E. injection E as <-. reflexivity.
Defined.

(** *** Too few bins for an ATR *)

Lemma Trend_undefined_ATR (self : TrendDetector) (df : table) (i : nat) :
  (i < length df)%nat ->
  isnan (nth i (Resample_ATR (frame (frame_of self df))) nan) = true ->
  nth i (Trend (frame_of self df)) 0 = 0.
Proof.
  intros Hi Hnan. rewrite (nth_Trend_bands self df i Hi).
  destruct (nth_bands self df i Hi) as [Hu Hl].
  unfold classify_band. rewrite Hu, Hl.
  set (offset := fmul _ (volatility_multiplier self)).
  assert (Ho : isnan offset = true) by now apply fmul_nan_l.
  rewrite (flt_nan_r _ _ (fsub_nan_r _ offset Ho)). unfold fgt.
  pose proof (flt_nan_l _ (nth i (Resample_Close
                                    (frame (frame_of self df))) nan)
                (fadd_nan_r (nth i (MA (frame_of self df)) nan) offset Ho))
    as E.
  unfold flt in E. now rewrite E.
Qed.

Definition undefined (xs : list float) : Prop :=
  Forall (fun x => isnan x = true) xs.

Lemma cell_at_undefined (labels : list Z) (cells : list float) (t : Z) :
  undefined cells -> isnan (cell_at labels cells t) = true.
Proof.
  revert cells. induction labels as [ | l labels IH]; intros [ | c cells] H;
    cbn [cell_at]; try reflexivity.
  inversion H; subst. destruct (l =? t); [assumption | now apply IH].
Qed.

Lemma ffill_from_undefined (xs : list float) :
  forall prev : float,
    isnan prev = true -> undefined xs -> undefined (ffill_from prev xs).
Proof.
  induction xs as [ | x xs IH]; intros prev Hp H; [constructor | ].
  inversion H; subst. cbn [ffill_from].
  replace (isnan x) with true by (symmetry; assumption).
  constructor; [exact Hp | now apply IH].
Qed.

Lemma carry_back_undefined (labels : list Z) (cells : list float)
  (df : table) :
  undefined cells -> undefined (carry_back labels cells df).
Proof.
  intro H. unfold carry_back, ffill, reindex.
  apply ffill_from_undefined; [reflexivity | ].
  apply Forall_forall. intros x Hx. apply in_map_iff in Hx.
  destruct Hx as (t & <- & _). now apply cell_at_undefined.
Qed.

Lemma atr_column_early (self : ModifiedATR) (resampled : list ohlcv) :
  (length resampled < period self)%nat ->
  undefined (atr_column self resampled).
Proof.
  intro Hshort. unfold atr_column, _calculate_atr.
  apply Forall_forall. intros x Hx. apply in_map_iff in Hx.
  destruct Hx as (a & <- & Ha). apply fmul_nan_l.
  destruct (In_nth _ a nan Ha) as (i & Hi & <-).
  rewrite length_rolling_mean in Hi.
  rewrite nth_rolling_mean_early; [reflexivity | exact Hi | ].
  rewrite ResampleFacts.length_true_range in Hi by now rewrite !length_map.
  rewrite length_map in Hi. lia.
Qed.

Lemma valid_undefined (xs : list float) : undefined xs -> valid xs = [].
Proof.
  induction 1 as [ | x xs Hx _ IH]; [reflexivity | ].
  unfold valid in *. cbn [filter]. now rewrite Hx.
Qed.

(** X11.  Too few bins for an ATR.  When the table spans fewer resampling
    bins than the ATR period, the ATR is undefined in every row, every row
    is neutral, and the Volatility-Band [analyze_asset] reports
    [current_trend] 0, [trend_changes] 1 and NaN for both volatility
    figures. *)
Theorem analyze_asset_too_few_bins (a : MarketAnalyzer) (df : table)
  (Hne : df <> [])
  (Hpos : 0 < resample_interval (volatility_indicator (trend_detector a)))
  (Hbins : (bucket_count
              (resample_interval (volatility_indicator (trend_detector a))
               * minute_ms) (map timestamp df)
            < period (volatility_indicator (trend_detector a)))%nat) :
  exists (f : trend_frame) (r : dict value),
    detect_trend (trend_detector a) df = Ok f
    /\ undefined (Resample_ATR (frame f))
    /\ Forall (eq 0) (Trend f)
    /\ analyze_asset a df = Ok r
    /\ dict_find r "current_trend" = Some (VInt 0)
    /\ dict_find r "trend_changes" = Some (VInt 1)
    /\ dict_find r "avg_volatility" = Some (VFloat nan)
    /\ dict_find r "current_volatility" = Some (VFloat nan).
Proof.
  set (self := trend_detector a) in *.
  set (f := frame_of self df).
  assert (Hlen : (1 <= length df)%nat)
    by (destruct df; [contradiction | cbn; lia]).
  assert (Hatr : undefined (Resample_ATR (frame f))).
  { unfold f, frame_of, bands, merge_back. cbn [frame Resample_ATR].
    apply carry_back_undefined, atr_column_early.
    rewrite ResampleFacts.length_bucket_rows by exact Hne. exact Hbins. }
  assert (Hrow : forall i : nat, (i < length df)%nat ->
                 nth i (Trend f) 0 = 0).
  { intros i Hi. apply Trend_undefined_ATR; [exact Hi | ].
    pose proof (length_ATR_frame_of self df) as L.
    apply (proj1 (Forall_forall _ _) Hatr). apply nth_In. fold f in L. lia. }
  assert (Hzero : Forall (eq 0) (Trend f)).
  { apply TrendProps.Forall_nth_eq. intros i Hi. unfold f in Hi.
    rewrite length_Trend_frame_of in Hi. now apply Hrow. }
  exists f. eexists.
  split; [now apply detect_trend_ok | ].
  split; [exact Hatr | ]. split; [exact Hzero | ].
  split; [exact (AnalyzeAssetFacts.analyze_asset_a a df Hne Hpos) | ].
  cbn [dict_find String.eqb Ascii.eqb Bool.eqb]. fold self. fold f.
  split; [do 2 f_equal; apply Hrow; lia | ].
  split.
  { do 2 f_equal.
    rewrite TrendChangesFacts.count_changes_transitions.
    - now rewrite (TrendChangesFacts.transitions_constant 0 _ Hzero).
    - intro E. apply (f_equal (@length Z)) in E. unfold f in E.
      rewrite length_Trend_frame_of in E. cbn in E. lia.
    - apply TrendChangesFacts.Trend_codes_a. }
  split.
  { do 2 f_equal. unfold mean.
    rewrite (valid_undefined _ Hatr). reflexivity. }
  do 2 f_equal. apply nan_unique.
  apply (proj1 (Forall_forall _ _) Hatr). apply nth_In.
  pose proof (length_ATR_frame_of self df) as L. fold f in L. lia.
Qed.

(** Thirty hourly rows make eight four-hour bins, fewer than the fourteen
    the ATR of the script wants. *)
Lemma analyze_asset_too_few_bins_witness :
  exists r : dict value,
    analyze_asset Samples.vb_analyzer Samples.flat30 = Ok r
    /\ dict_find r "current_trend" = Some (VInt 0)
    /\ dict_find r "trend_changes" = Some (VInt 1)
    /\ dict_find r "avg_volatility" = Some (VFloat nan).
Proof.
  destruct (analyze_asset_too_few_bins Samples.vb_analyzer Samples.flat30
              ltac:(discriminate) ltac:(reflexivity)
              ltac:(vm_compute; lia))
    as (f & r & _ & _ & _ & Hr & Ht & Hc & Hv & _).
  exists r. repeat split; assumption.
Defined.

End BandProps.

Module RangeProps.
Import Pandas MarketA FloatFacts NanFacts ListFacts PandasFacts MarketAFacts.
Import BandProps ResampleFacts.

Lemma nth_shift_0 (xs : list float) : nth 0 (shift xs) nan = nan.
Proof. now destruct xs. Qed.

Lemma nth_shift_S (xs : list float) (i : nat) :
  (S i < length xs)%nat -> nth (S i) (shift xs) nan = nth i xs nan.
Proof.
  intro H. destruct xs as [ | x t]; [cbn in H; lia | ].
  unfold shift. cbn [nth].
  rewrite removelast_firstn_len, nth_firstn.
  cbn [length] in *.
  replace (i <? Nat.pred (S (length t)))%nat with true
    by (symmetry; apply Nat.ltb_lt; lia).
  reflexivity.
Qed.

(** A row of the true range, from the row's high and low and the close of
    the row above. *)
Lemma nth_true_range (high low close : list float) (i : nat) :
  length high = length close -> length low = length close ->
  (i < length close)%nat ->
  let pc := nth i (shift close) nan in
  nth i (_calculate_true_range high low close) nan
  = max_valid [ fsub (nth i high nan) (nth i low nan);
                fabs (fsub (nth i high nan) pc);
                fabs (fsub (nth i low nan) pc) ].
Proof.
  intros Hh Hl Hi pc. unfold _calculate_true_range.
  pose proof (length_shift close) as Ls.
  rewrite (nth_zip_with _ _ _ i nan (nan, nan) nan)
    by (rewrite ?length_combine, ?length_map, ?length_zip_with; lia).
  rewrite (nth_zip_with fsub high low i nan nan nan) by lia.
  rewrite combine_nth by (rewrite !length_map, !length_zip_with; lia).
  cbn [fst snd].
  rewrite (nth_indep (map fabs (zip_with fsub high _)) nan (fabs nan))
    by (rewrite length_map, length_zip_with; lia).
  rewrite (nth_indep (map fabs (zip_with fsub low _)) nan (fabs nan))
    by (rewrite length_map, length_zip_with; lia).
  rewrite !(map_nth fabs).
  rewrite (nth_zip_with fsub high (shift close) i nan nan nan) by lia.
  rewrite (nth_zip_with fsub low (shift close) i nan nan nan) by lia.
  reflexivity.
Qed.

Lemma max_valid_single (x : float) (ys : list float) :
  undefined ys -> max_valid (x :: ys) = x.
Proof.
  intro H. destruct (isnan x) eqn:E.
  - destruct (max_valid_spec (x :: ys)) as [Hnone _].
    rewrite Hnone; [symmetry; now apply nan_unique | ].
    unfold valid. cbn [filter]. rewrite E. exact (valid_undefined ys H).
  - destruct (max_valid_spec (x :: ys)) as [_ Hsome].
    assert (V : valid (x :: ys) = [x]).
    { unfold valid. cbn [filter]. rewrite E. cbn [negb].
      f_equal. exact (valid_undefined ys H). }
    destruct Hsome as [Hin _]; [rewrite V; discriminate | ].
    rewrite V in Hin. destruct Hin as [<- | []]. reflexivity.
Qed.

(** X12.  The true range.  It has one row per input row.  In the first
    row, where there is no previous close, it is [high - low]; in every
    later row it is the largest of [high - low], [|high - previous close|]
    and [|low - previous close|] that is defined, so it is never below any
    of the three, and it is undefined only when all three are. *)
Theorem true_range_rows (high low close : list float)
  (Hhigh : length high = length close)
  (Hlow : length low = length close) :
  let tr := _calculate_true_range high low close in
  length tr = length close
  /\ (close <> [] ->
      nth 0 tr nan = fsub (nth 0 high nan) (nth 0 low nan))
  /\ forall i : nat, (S i < length close)%nat ->
     let parts := [ fsub (nth (S i) high nan) (nth (S i) low nan);
                    fabs (fsub (nth (S i) high nan) (nth i close nan));
                    fabs (fsub (nth (S i) low nan) (nth i close nan)) ] in
     nth (S i) tr nan = max_valid parts
     /\ (forall v : float,
           In v parts -> isnan v = false ->
           In (nth (S i) tr nan) parts
           /\ isnan (nth (S i) tr nan) = false
           /\ fgt v (nth (S i) tr nan) = false)
     /\ (undefined parts -> nth (S i) tr nan = nan).
Proof.
  intro tr. split; [now apply length_true_range | ].
  split.
  { intro Hne. unfold tr.
    assert (H0 : (0 < length close)%nat)
      by (destruct close; [congruence | cbn; lia]).
    rewrite (nth_true_range high low close 0 Hhigh Hlow H0).
    rewrite nth_shift_0. apply max_valid_single.
    constructor; [apply fabs_nan, fsub_nan_r; reflexivity | ].
    constructor; [apply fabs_nan, fsub_nan_r; reflexivity | constructor]. }
  intros i Hi parts.
  assert (E : nth (S i) tr nan = max_valid parts).
  { unfold tr. rewrite nth_true_range by (assumption || lia).
    now rewrite nth_shift_S. }
  split; [exact E | ]. rewrite E.
  destruct (max_valid_spec parts) as [Hnone Hsome].
  split.
  - intros v Hv Hnan.
    assert (Hin : In v (valid parts))
      by (unfold valid; apply filter_In; split; [exact Hv | now rewrite Hnan]).
    destruct Hsome as [Hmax Hle]; [intro V; now rewrite V in Hin | ].
    split; [unfold valid in Hmax; apply filter_In in Hmax; tauto | ].
    split; [ | now apply Hle].
    exact (proj1 (Forall_forall _ _) (valid_not_nan parts) _ Hmax).
  - intro Hall. apply Hnone. now apply valid_undefined.
Qed.

(** Two bars: the first row's range is its high less its low, the second
    row's the largest of 3, 3 and 0. *)
Lemma true_range_rows_witness :
  let tr := _calculate_true_range [3; 5]%float [1; 2]%float [2; 4]%float in
  length tr = 2%nat /\ nth 0 tr nan = 2%float /\ nth 1 tr nan = 3%float.
Proof.
  destruct (true_range_rows [3; 5]%float [1; 2]%float [2; 4]%float
              eq_refl eq_refl) as (L & H0 & H1).
  split; [exact L | ]. split; [exact (H0 ltac:(discriminate)) | ].
  destruct (H1 0%nat ltac:(cbn; lia)) as (E & _). exact E.
Defined.

(** *** A gap in the data *)

(** X13.  A gap in the data.  A resampling bin that holds no row has
    undefined Open, High, Low and Close and Volume 0, and it leaves the ATR
    undefined in its own row of the resampled frame and in the
    [period - 1] rows after it. *)
Theorem empty_bin_undefined (self : ModifiedATR) (df : table) (k : nat)
  (Hpos : 0 < resample_interval self)
  (Hasc : ascending df)
  (Hne : df <> [])
  (Hk : (k < bucket_count (resample_interval self * minute_ms)
               (map timestamp df))%nat)
  (Hempty : filter (in_bucket (resample_interval self * minute_ms)
                      (bucket_label (resample_interval self * minute_ms)
                         (map timestamp df) k)) df = []) :
  exists resampled : list ohlcv,
    resample_to_interval self df = Ok resampled
    /\ (let b := nth k resampled no_bucket in
        Open b = nan /\ High b = nan /\ Low b = nan /\ Close b = nan
        /\ Volume b = zero)
    /\ forall j : nat,
         (k <= j < k + period self)%nat -> (j < length resampled)%nat ->
         isnan (nth j (atr_column self resampled) nan) = true.
Proof.
  set (width := resample_interval self * minute_ms) in *.
  exists (bucket_rows width df).
  assert (Hb : nth k (bucket_rows width df) no_bucket
               = aggregate (bucket_label width (map timestamp df) k) []).
  { rewrite (nth_bucket_rows width df k Hasc Hne Hk). now rewrite Hempty. }
  split.
  { exact (resample_to_interval_ok self df Hpos). }
  split; [rewrite Hb; repeat split | ].
  intros j Hj Hlen. unfold atr_column, _calculate_atr.
  set (resampled := bucket_rows width df) in *.
  set (tr := _calculate_true_range _ _ _).
  assert (Ltr : length tr = length resampled).
  { unfold tr. rewrite length_true_range; now rewrite !length_map. }
  rewrite (nth_indep _ nan ((fun a => fmul a (multiplier self)) nan))
    by (rewrite length_map, length_rolling_mean; lia).
  rewrite (map_nth (fun a => fmul a (multiplier self))).
  apply fmul_nan_l.
  apply (rolling_mean_undefined (period self) tr k j); [lia | exact Hj | ].
  unfold tr.
  rewrite nth_true_range by (rewrite ?length_map; lia).
  assert (HH : nth k (map High resampled) nan = nan).
  { change nan with (High no_bucket) at 1. rewrite map_nth.
    now rewrite Hb. }
  assert (HL : nth k (map Low resampled) nan = nan).
  { change nan with (Low no_bucket) at 1. rewrite map_nth.
    now rewrite Hb. }
  rewrite HH, HL.
  destruct (max_valid_spec
              [fsub nan nan;
               fabs (fsub nan (nth k (shift (map Close resampled)) nan));
               fabs (fsub nan (nth k (shift (map Close resampled)) nan))])
    as [Hnone _].
  rewrite Hnone; [reflexivity | ].
  apply valid_undefined.
  repeat constructor; apply fabs_nan, fsub_nan_l; reflexivity.
Qed.

(** Hourly bars at 00:00, 01:00 and 09:00 and four-hour bins: the bin from
    04:00 to 08:00 is empty. *)
Definition gappy : table :=
  [ Samples.hourly_bar 0 1; Samples.hourly_bar 1 2; Samples.hourly_bar 9 3 ].

Lemma empty_bin_undefined_witness :
  exists resampled : list ohlcv,
    resample_to_interval Samples.atr_4h gappy = Ok resampled
    /\ length resampled = 3%nat
    /\ Close (nth 1 resampled no_bucket) = nan
    /\ Volume (nth 1 resampled no_bucket) = zero
    /\ isnan (nth 1 (atr_column Samples.atr_4h resampled) nan) = true.
Proof.
  assert (Hasc : ascending gappy).
  { unfold ascending, gappy.
    repeat (constructor; [ | repeat constructor; cbn; lia]). constructor. }
  destruct (empty_bin_undefined Samples.atr_4h gappy 1 ltac:(reflexivity)
              Hasc ltac:(discriminate) ltac:(vm_compute; lia)
              ltac:(vm_compute; reflexivity))
    as (resampled & Hres & (_ & _ & _ & HC & HV) & Hatr).
  exists resampled.
  assert (L : length resampled = 3%nat).
  { assert (E : resample_to_interval Samples.atr_4h gappy = Ok resampled)
      by exact Hres.
    vm_compute in E. injection E as <-. reflexivity. }
  split; [exact Hres | ]. split; [exact L | ].
  split; [exact HC | ]. split; [exact HV | ].
  apply Hatr; [cbn; lia | rewrite L; lia].
Defined.

End RangeProps.

Module VolatilityProps.
Import Pandas MarketA FloatFacts NanFacts ListFacts AnalyzeAssetFacts.
Import AnalyzeMarketFacts MarketAFacts MarketProps.

(** The average of the carried-back ATR column of a table. *)
Definition avg_volatility_of (a : MarketAnalyzer) (df : table) : float :=
  mean (Resample_ATR (frame (frame_of (trend_detector a) df))).

(** Whether the threshold of the analyzer rules a table out. *)
Definition too_quiet (a : MarketAnalyzer) (df : table) : bool :=
  match min_volatility a with
  | Some threshold => flt (avg_volatility_of a df) threshold
  | None => false
  end.

Definition kept_a (a : MarketAnalyzer) (item : string * table) : bool :=
  (20 <=? length (snd item))%nat && negb (too_quiet a (snd item)).

Definition pick_a (a : MarketAnalyzer) (item : string * table)
  : option (dict value) :=
  if kept_a a item then
    match analyze_asset a (snd item) with
    | Ok r => Some r
    | Raise _ => None
    end
  else None.

Lemma analyze_step_picks_a (a : MarketAnalyzer) :
  0 < resample_interval (volatility_indicator (trend_detector a)) ->
  forall (acc : MarketB.tally) (item : string * table),
  exists t : MarketB.tally,
    analyze_step a acc item = Ok t
    /\ MarketB.assets_analysis t
       = match pick_a a item with
         | None => MarketB.assets_analysis acc
         | Some r => dict_set (MarketB.assets_analysis acc) (fst item) r
         end.
Proof.
  intros Hpos acc [symbol df].
  unfold analyze_step, pick_a, kept_a, too_quiet, avg_volatility_of.
  cbn [fst snd].
  destruct (Nat.ltb_spec (length df) 20) as [Hlt | Hge].
  - replace (20 <=? length df)%nat with false
      by (symmetry; apply Nat.leb_gt; lia).
    now exists acc.
  - replace (20 <=? length df)%nat with true
      by (symmetry; apply Nat.leb_le; lia).
    assert (Hne : df <> []) by (intro; subst; cbn in Hge; lia).
    rewrite (analyze_asset_a a df Hne Hpos). cbn [bind andb].
    destruct (min_volatility a) as [threshold | ].
    + cbn [dict_get dict_find String.eqb Ascii.eqb Bool.eqb bind
             below_threshold].
      destruct (flt _ threshold); cbn [negb bind].
      * now exists acc.
      * eexists. split; reflexivity.
    + cbn [negb bind]. eexists. split; reflexivity.
Qed.

(** X14.  Which assets the Volatility-Band [analyze_market] keeps.  For a
    positive resample interval it keeps exactly the symbols whose table
    has at least 20 rows and whose average volatility is not strictly
    below the threshold, in the order of the input; without a threshold
    only the 20 rows count; and an undefined (NaN) average volatility is
    never below the threshold, so such an asset is kept.  [total_assets] is
    the number of symbols kept.  The average is [Pandas.mean], the sum
    numpy takes pairwise over the number of cells that are not NaN. *)
Theorem analyze_market_volatility_filter (a : MarketAnalyzer)
  (market_data : dict table)
  (Hkeys : NoDup (keys market_data))
  (Hpos : 0 < resample_interval (volatility_indicator (trend_detector a))) :
  exists (stats : market_stats) (assets : dict (dict value)),
    analyze_market a market_data = Ok (stats, assets)
    /\ keys assets = keys (filter (kept_a a) market_data)
    /\ MarketB.total_assets stats
       = Z.of_nat (length (filter (kept_a a) market_data))
    /\ (min_volatility a = None ->
        forall item : string * table,
          kept_a a item = (20 <=? length (snd item))%nat)
    /\ (forall df : table,
          isnan (avg_volatility_of a df) = true -> too_quiet a df = false).
Proof.
  destruct (for_each_picked (pick_a a) (analyze_step a)
              (analyze_step_picks_a a Hpos) market_data
              (MarketB.Build_tally [] 0 0 0) Hkeys ltac:(intros k []))
    as (t & Et & At).
  cbn [MarketB.assets_analysis app] in At.
  assert (Hpick : forall item : string * table,
             match pick_a a item with Some _ => true | None => false end
             = kept_a a item).
  { intros [symbol df]. unfold pick_a.
    destruct (kept_a a (symbol, df)) eqn:E; [ | reflexivity].
    unfold kept_a in E. cbn [snd] in *. apply andb_true_iff in E.
    destruct E as [E _]. apply Nat.leb_le in E.
    assert (Hne : df <> []) by (intro; subst; cbn in E; lia).
    now rewrite (analyze_asset_a a df Hne Hpos). }
  assert (Hk : keys (MarketB.assets_analysis t)
               = keys (filter (kept_a a) market_data)).
  { rewrite At, keys_picked. f_equal. apply filter_ext. exact Hpick. }
  eexists. exists (MarketB.assets_analysis t).
  split; [unfold analyze_market; rewrite Et; reflexivity | ].
  split; [exact Hk | ].
  split.
  { cbn [MarketB.total_assets].
    destruct (for_each_consistent _ market_data (well_behaved_a a Hpos)
                (MarketB.Build_tally [] 0 0 0) Hkeys ltac:(intros k [])
                ltac:(constructor; cbn; reflexivity || lia))
      as (t' & Et' & Ct).
    rewrite Et in Et'. injection Et' as <-.
    rewrite (c_valid t Ct),
      <- (length_map fst (MarketB.assets_analysis t)).
    fold (keys (MarketB.assets_analysis t)). rewrite Hk. unfold keys.
    now rewrite length_map. }
  split.
  { intros Hnone item. unfold kept_a, too_quiet. rewrite Hnone.
    apply andb_true_r. }
  intros df Hnan. unfold too_quiet.
  destruct (min_volatility a) as [threshold | ]; [ | reflexivity].
  now apply flt_nan_l.
Qed.

(** Thirty flat hourly rows under the analyzer of the script: too few bins
    for its ATR, so the average volatility is undefined, and the asset is
    kept despite the threshold. *)
Lemma analyze_market_volatility_filter_witness :
  exists (stats : market_stats) (assets : dict (dict value)),
    analyze_market Samples.vb_analyzer [("FLATUSDT", Samples.flat30)]
    = Ok (stats, assets)
    /\ keys assets = ["FLATUSDT"]
    /\ MarketB.total_assets stats = 1.
Proof.
  destruct (analyze_market_volatility_filter Samples.vb_analyzer
              [("FLATUSDT", Samples.flat30)]
              ltac:(repeat constructor; cbn; intuition discriminate)
              ltac:(reflexivity))
    as (stats & assets & H & Hk & Ht & _).
  exists stats, assets. split; [exact H | ].
  split; [rewrite Hk | rewrite Ht]; vm_compute; reflexivity.
Defined.

End VolatilityProps.

(* ================================================================== *)
(** * Further properties of src/market_storage.py *)
(* ================================================================== *)

Module NameFacts.

Lemma append_assoc (a b c : string) :
  String.append (String.append a b) c = String.append a (String.append b c).
Proof. induction a as [ | x a IH]; cbn; [reflexivity | now rewrite IH]. Qed.

Lemma length_append (a b : string) :
  String.length (String.append a b)
  = (String.length a + String.length b)%nat.
Proof. induction a as [ | x a IH]; cbn; [reflexivity | now rewrite IH]. Qed.

Lemma prefix_append (a b : string) :
  String.prefix a (String.append a b) = true.
Proof.
  induction a as [ | x a IH]; cbn; [now destruct b | ].
  destruct (Ascii.ascii_dec x x); [exact IH | congruence].
Qed.

Lemma substring_all (b : string) :
  String.substring 0 (String.length b) b = b.
Proof. induction b as [ | x b IH]; cbn; [reflexivity | now rewrite IH]. Qed.

Lemma substring_append (a b : string) :
  String.substring (String.length a) (String.length b) (String.append a b)
  = b.
Proof. induction a as [ | x a IH]; cbn; [apply substring_all | exact IH]. Qed.

Lemma ends_with_append (a b : string) :
  ends_with b (String.append a b) = true.
Proof.
  unfold ends_with. rewrite length_append.
  replace (String.length a + String.length b - String.length b)%nat
    with (String.length a) by lia.
  rewrite substring_append, String.eqb_refl.
  replace (String.length b <=? String.length a + String.length b)%nat
    with true by (symmetry; apply Nat.leb_le; lia).
  reflexivity.
Qed.

(** A string without the separator of the file names. *)
Fixpoint underscore_free (s : string) : bool :=
  match s with
  | EmptyString => true
  | String c s' => negb (Ascii.eqb c "_") && underscore_free s'
  end.

Lemma prefix_separated (i j rest : string) :
  underscore_free i = true -> underscore_free j = true ->
  String.prefix (String.append i "_")
    (String.append j (String.append "_" rest)) = true ->
  i = j.
Proof.
  revert j. induction i as [ | a i IH]; intros [ | b j] Hi Hj H;
    cbn [String.append String.prefix underscore_free] in *.
  - reflexivity.
  - destruct (Ascii.ascii_dec "_" b) as [E | NE]; [ | discriminate].
    subst b. cbn in Hj. discriminate.
  - destruct (Ascii.ascii_dec a "_") as [E | NE]; [ | discriminate].
    subst a. cbn in Hi. discriminate.
  - destruct (Ascii.ascii_dec a b) as [E | NE]; [ | discriminate].
    subst b. apply andb_true_iff in Hi, Hj. f_equal.
    apply IH; tauto.
Qed.

End NameFacts.

Module StorageProps.
Import Runtime MarketStorage FloatFacts SortFacts StorageFacts LoadFacts.
Import NameFacts.
Local Open Scope run_scope.

Lemma matches_own_name (interval stamp : string) (t : Z)
  (data : snapshot_content) :
  matches interval
    {| snapshot_name := snapshot_filename interval stamp;
       snapshot_mtime := t; snapshot_data := data |} = true.
Proof.
  unfold matches, snapshot_filename. cbn [snapshot_name].
  set (prefix := String.append "market_analysis_" (String.append interval "_")).
  assert (E : String.append "market_analysis_"
                (String.append interval
                   (String.append "_" (String.append stamp ".json")))
              = String.append prefix (String.append stamp ".json")).
  { unfold prefix. now rewrite !append_assoc. }
  rewrite E, prefix_append. cbn [andb].
  rewrite <- append_assoc, ends_with_append. cbn [andb].
  apply Nat.leb_le. rewrite !length_append. cbn. lia.
Qed.

(** X15.  A snapshot is never loaded for another interval.  The file
    [save_analysis] names for an interval is found by
    [load_latest_analysis] for that interval; and when neither interval
    contains an underscore (none of the supported codes does), a file
    saved for one interval matches the pattern of another only if the two
    are the same. *)
Theorem snapshot_names_separate_intervals :
  (forall (interval stamp : string) (t : Z) (data : snapshot_content),
      matches interval
        {| snapshot_name := snapshot_filename interval stamp;
           snapshot_mtime := t; snapshot_data := data |} = true)
  /\ (forall (wanted saved stamp : string) (t : Z) (data : snapshot_content),
        underscore_free wanted = true ->
        underscore_free saved = true ->
        matches wanted
          {| snapshot_name := snapshot_filename saved stamp;
             snapshot_mtime := t; snapshot_data := data |} = true ->
        wanted = saved)
  /\ Forall (fun code => underscore_free (fst code) = true)
       DataFetcher.supported_intervals.
Proof.
  split; [exact matches_own_name | ]. split.
  - intros wanted saved stamp t data Hw Hs H.
    unfold matches, snapshot_filename in H. cbn [snapshot_name] in H.
    apply andb_true_iff in H. destruct H as [H _].
    apply andb_true_iff in H. destruct H as [H _].
    cbn in H. apply (prefix_separated wanted saved _ Hw Hs H).
  - repeat constructor.
Qed.

(** *** Saving, then loading *)

Definition names (files : list snapshot_file) : list string :=
  map snapshot_name files.

Lemma in_put_snapshot (files : list snapshot_file) (f g : snapshot_file) :
  NoDup (names files) ->
  In g (put_snapshot files f) ->
  g = f \/ (In g files /\ snapshot_name g <> snapshot_name f).
Proof.
  induction files as [ | h files IH]; intros Hnd Hin;
    cbn [put_snapshot] in Hin.
  - destruct Hin as [<- | []]. now left.
  - cbn [names map] in Hnd. apply NoDup_cons_iff in Hnd.
    destruct Hnd as [Hh Hnd].
    destruct (String.eqb_spec (snapshot_name h) (snapshot_name f))
      as [E | NE].
    + destruct Hin as [<- | Hin]; [now left | right].
      split; [now right | ]. intro Eg. apply Hh. rewrite E, <- Eg.
      unfold names. now apply in_map.
    + destruct Hin as [<- | Hin]; [right; split; [now left | exact NE] | ].
      destruct (IH Hnd Hin) as [-> | [Hg Hne]]; [now left | right].
      split; [now right | exact Hne].
Qed.

Lemma put_snapshot_in (files : list snapshot_file) (f : snapshot_file) :
  In f (put_snapshot files f).
Proof.
  induction files as [ | h files IH]; cbn [put_snapshot]; [now left | ].
  destruct (String.eqb (snapshot_name h) (snapshot_name f));
    [now left | now right].
Qed.

Lemma names_put_snapshot (files : list snapshot_file) (f : snapshot_file) :
  names (put_snapshot files f)
  = if in_dec String.string_dec (snapshot_name f) (names files)
    then names files else names files ++ [snapshot_name f].
Proof.
  induction files as [ | h files IH]; [reflexivity | ].
  cbn [put_snapshot].
  change (names (h :: files)) with (snapshot_name h :: names files).
  destruct (in_dec String.string_dec (snapshot_name f)
              (snapshot_name h :: names files)) as [Hin' | Hout'];
    destruct (String.eqb_spec (snapshot_name h) (snapshot_name f))
      as [E | NE].
  - cbn [names map]. now rewrite E.
  - change (names (h :: put_snapshot files f))
      with (snapshot_name h :: names (put_snapshot files f)).
    rewrite IH.
    destruct (in_dec String.string_dec (snapshot_name f) (names files))
      as [Hin | Hout]; [reflexivity | ].
    exfalso. destruct Hin' as [E | Hin']; [congruence | contradiction].
  - exfalso. apply Hout'. now left.
  - change (names (h :: put_snapshot files f))
      with (snapshot_name h :: names (put_snapshot files f)).
    rewrite IH.
    destruct (in_dec String.string_dec (snapshot_name f) (names files))
      as [Hin | Hout]; [ | reflexivity].
    exfalso. apply Hout'. now right.
Qed.

(** The newest of the files is the one [max] picks. *)
Lemma latest_of_newest (f : snapshot_file) (files : list snapshot_file) :
  forall best : snapshot_file,
    best = f \/ (snapshot_mtime best < snapshot_mtime f /\ In f files) ->
    (forall g, In g files -> g = f \/ snapshot_mtime g < snapshot_mtime f) ->
    latest_of best files = f.
Proof.
  induction files as [ | g files IH]; intros best Hbest Hall;
    cbn [latest_of].
  - destruct Hbest as [E | [_ []]]. exact E.
  - apply IH; [ | intros h Hh; apply Hall; now right].
    destruct (Hall g (or_introl eq_refl)) as [Eg | Hg].
    + subst g. destruct Hbest as [-> | [Hlt _]].
      * rewrite Z.ltb_irrefl. now left.
      * replace (snapshot_mtime best <? snapshot_mtime f) with true
          by (symmetry; now apply Z.ltb_lt).
        now left.
    + destruct Hbest as [-> | [Hlt Hin]].
      * replace (snapshot_mtime f <? snapshot_mtime g) with false
          by (symmetry; apply Z.ltb_ge; lia).
        now left.
      * right. destruct Hin as [E | Hin]; [subst g; lia | ].
        split; [ | exact Hin].
        destruct (snapshot_mtime best <? snapshot_mtime g); assumption.
Qed.

Lemma load_result_newest (interval : string) (files : list snapshot_file)
  (f : snapshot_file) :
  In f files ->
  matches interval f = true ->
  (forall g, In g files -> matches interval g = true ->
             g = f \/ snapshot_mtime g < snapshot_mtime f) ->
  load_result interval files
  = match snapshot_data f with
    | Json record => Some record
    | Unparsable => None
    end
  /\ load_events interval files
     = match snapshot_data f with
       | Json record => []
       | Unparsable => [Log_error (Error_loading_analysis ValueError)]
       end.
Proof.
  intros Hin Hm Hall. unfold load_result, load_events.
  assert (Hf : In f (filter (matches interval) files))
    by (apply filter_In; now split).
  assert (Hg : forall g, In g (filter (matches interval) files) ->
                         g = f \/ snapshot_mtime g < snapshot_mtime f).
  { intros g H. apply filter_In in H. now apply Hall. }
  destruct (filter (matches interval) files) as [ | best rest];
    [destruct Hf | ].
  rewrite (latest_of_newest f rest best).
  - split; reflexivity.
  - destruct Hf as [E | Hf]; [now left | ].
    destruct (Hg best (or_introl eq_refl)) as [E | Hlt]; [now left | ].
    right. now split.
  - intros g H. apply Hg. now right.
Qed.

(** What a call of [save_analysis] that returns has done. *)
Lemma save_analysis_returned (stats : MarketB.market_stats)
  (assets : dict (dict value)) (interval : string) (top_n : Z) (w : env)
  (s : state) :
  fst (save_analysis stats assets interval top_n w s) = Ok tt ->
  exists record : Snapshot.analysis_data,
    build_analysis_data (isoformat w (clock w (ticks s))) stats assets
      interval top_n = Ok record
    /\ serializable record = true
    /\ write_fails w (S (ticks s)) (filename_at interval w s) = false
    /\ dump_fails w (S (S (S (ticks s)))) (filename_at interval w s) = false.
Proof.
  intro H.
  unfold save_analysis, write_snapshot, mbind, now, ask, mbind, tick, ret,
    lift, raise, store_snapshot, emit in H.
  cbn [ticks] in H.
  destruct (build_analysis_data _ stats assets interval top_n)
    as [record | e]; [ | discriminate H].
  exists record. split; [reflexivity | ].
  cbn [ticks] in H. unfold filename_at.
  destruct (write_fails w (S (ticks s)) _); [discriminate H | ].
  destruct (serializable record); [ | discriminate H].
  cbn [ticks] in H.
  destruct (dump_fails w (S (S (S (ticks s)))) _); [discriminate H | ].
  repeat split.
Qed.

(** X16.  Save, then load.  When [save_analysis] returns and no other
    snapshot of the interval in the directory is as new as the file it
    wrote, [load_latest_analysis] for that interval returns the record
    just built, which carries the interval and the time of the call, and
    changes nothing. *)
Theorem save_then_load_latest (stats : MarketB.market_stats)
  (assets : dict (dict value)) (interval : string) (top_n : Z) (w : env)
  (s : state)
  (Hsaved : fst (save_analysis stats assets interval top_n w s) = Ok tt)
  (Hdir : NoDup (names (base_dir s)))
  (Hnewest : forall g : snapshot_file,
      In g (base_dir s) -> matches interval g = true ->
      snapshot_name g <> filename_at interval w s ->
      snapshot_mtime g < clock w (S (S (ticks s)))) :
  let s1 := snd (save_analysis stats assets interval top_n w s) in
  exists record : Snapshot.analysis_data,
    build_analysis_data (isoformat w (clock w (ticks s))) stats assets
      interval top_n = Ok record
    /\ load_latest_analysis interval w s1 = (Ok (Some record), s1)
    /\ Snapshot.interval record = interval
    /\ Snapshot.timestamp record = isoformat w (clock w (ticks s)).
Proof.
  intro s1.
  destruct (save_analysis_returned _ _ _ _ _ _ Hsaved)
    as (record & Hb & Hser & Hw & Hd).
  exists record. split; [exact Hb | ].
  set (file := {| snapshot_name := filename_at interval w s;
                  snapshot_mtime := clock w (S (S (ticks s)));
                  snapshot_data := Json record |}).
  assert (Hs1 : base_dir s1 = put_snapshot (base_dir s) file).
  { unfold s1.
    now rewrite (save_analysis_writes _ _ _ _ _ _ _ Hb Hser Hw Hd). }
  destruct (load_result_newest interval (base_dir s1) file) as [Hr He].
  - rewrite Hs1. apply put_snapshot_in.
  - apply matches_own_name.
  - intros g Hg Hm. rewrite Hs1 in Hg.
    destruct (in_put_snapshot _ _ _ Hdir Hg) as [E | [Hin Hne]];
      [now left | right].
    cbn [file snapshot_mtime]. now apply Hnewest.
  - split.
    + rewrite load_latest_analysis_run, Hr, He. cbn [file snapshot_data].
      now rewrite app_nil_r, with_trace_same.
    + unfold build_analysis_data in Hb.
      destruct (trending_assets_of assets); [ | discriminate].
      cbn [bind] in Hb.
      destruct (market_summary_of stats); [ | discriminate].
      injection Hb as <-. split; reflexivity.
Qed.

(** The fifteen assets of [Samples] saved beside two older daily
    snapshots: the load that follows returns the new record. *)
Lemma save_then_load_latest_witness :
  let s1 := snd (save_analysis Samples.fifteen_stats Samples.fifteen "D" 10
                   Samples.silent Samples.two_snapshots) in
  exists record : Snapshot.analysis_data,
    load_latest_analysis "D" Samples.silent s1 = (Ok (Some record), s1)
    /\ Snapshot.interval record = "D"
    /\ Snapshot.timestamp record = "0".
Proof.
  intro s1.
  destruct (save_then_load_latest Samples.fifteen_stats Samples.fifteen "D"
              10 Samples.silent Samples.two_snapshots
              ltac:(vm_compute; reflexivity)
              ltac:(repeat constructor; cbn; intuition discriminate)
              ltac:(intros g [<- | [<- | [<- | []]]] _ _; cbn; lia))
    as (record & _ & Hload & Hi & Ht).
  exists record. split; [exact Hload | ]. split; [exact Hi | exact Ht].
Defined.

(** *** What a save does to the directory *)

Lemma put_snapshot_fresh (files : list snapshot_file) (f : snapshot_file) :
  ~ In (snapshot_name f) (names files) -> put_snapshot files f = files ++ [f].
Proof.
  induction files as [ | h files IH]; intro H; cbn [put_snapshot];
    [reflexivity | ].
  destruct (String.eqb_spec (snapshot_name h) (snapshot_name f))
    as [E | NE].
  - exfalso. apply H. now left.
  - cbn [app]. f_equal. apply IH. intro Hin. apply H. now right.
Qed.

Lemma put_snapshot_keeps (files : list snapshot_file) (f g : snapshot_file) :
  In g files -> snapshot_name g <> snapshot_name f ->
  In g (put_snapshot files f).
Proof.
  induction files as [ | h files IH]; intros Hin Hne; [destruct Hin | ].
  cbn [put_snapshot].
  destruct (String.eqb_spec (snapshot_name h) (snapshot_name f))
    as [E | NE].
  - destruct Hin as [<- | Hin]; [congruence | now right].
  - destruct Hin as [<- | Hin]; [now left | right; now apply IH].
Qed.

Lemma NoDup_snoc (l : list string) (x : string) :
  NoDup l -> ~ In x l -> NoDup (l ++ [x]).
Proof.
  intros Hl Hx. apply NoDup_rev in Hl.
  rewrite <- (rev_involutive (l ++ [x])). apply NoDup_rev.
  rewrite rev_app_distr. cbn [rev app]. constructor; [ | exact Hl].
  intro H. apply in_rev in H. contradiction.
Qed.

(** X17.  What a save does to the snapshot directory.  A call of
    [save_analysis] that returns leaves the cache alone and every snapshot
    of another name in place, and keeps the file names distinct.  When the
    directory already holds a file of the name it chose (a snapshot of the
    same interval taken in the same second) that file is overwritten and no
    file is added; otherwise the new file is added after the others. *)
Theorem save_analysis_directory (stats : MarketB.market_stats)
  (assets : dict (dict value)) (interval : string) (top_n : Z) (w : env)
  (s : state)
  (Hsaved : fst (save_analysis stats assets interval top_n w s) = Ok tt)
  (Hdir : NoDup (names (base_dir s))) :
  let s1 := snd (save_analysis stats assets interval top_n w s) in
  let name := filename_at interval w s in
  exists record : Snapshot.analysis_data,
    let file := {| snapshot_name := name;
                   snapshot_mtime := clock w (S (S (ticks s)));
                   snapshot_data := Json record |} in
    cache_dir s1 = cache_dir s
    /\ NoDup (names (base_dir s1))
    /\ In file (base_dir s1)
    /\ (forall g : snapshot_file,
          In g (base_dir s) -> snapshot_name g <> name ->
          In g (base_dir s1))
    /\ (In name (names (base_dir s)) ->
        names (base_dir s1) = names (base_dir s)
        /\ forall g : snapshot_file,
             In g (base_dir s1) -> snapshot_name g = name -> g = file)
    /\ (~ In name (names (base_dir s)) ->
        base_dir s1 = base_dir s ++ [file]).
Proof.
  intros s1 name.
  destruct (save_analysis_returned _ _ _ _ _ _ Hsaved)
    as (record & Hb & Hser & Hw & Hd).
  exists record. intro file.
  assert (Hs1 : s1 = {| ticks := S (S (S (S (ticks s))));
                        cache_dir := cache_dir s;
                        base_dir := put_snapshot (base_dir s) file;
                        trace := trace s
                                 ++ [Log_info (Saved_analysis name)] |}).
  { unfold s1.
    now rewrite (save_analysis_writes _ _ _ _ _ _ _ Hb Hser Hw Hd). }
  rewrite Hs1. cbn [cache_dir base_dir].
  pose proof (names_put_snapshot (base_dir s) file) as Hnames.
  cbn [file snapshot_name] in Hnames. fold file in Hnames.
  split; [reflexivity | ].
  split.
  { rewrite Hnames.
    destruct (in_dec String.string_dec name (names (base_dir s)));
      [exact Hdir | now apply NoDup_snoc]. }
  split; [apply put_snapshot_in | ].
  split; [intros g Hg Hne; now apply put_snapshot_keeps | ].
  split.
  - intro Hin. split.
    + rewrite Hnames.
      destruct (in_dec String.string_dec name (names (base_dir s)));
        [reflexivity | contradiction].
    + intros g Hg Hname.
      destruct (in_put_snapshot _ _ _ Hdir Hg) as [E | [_ Hne]];
        [exact E | ].
      cbn [file snapshot_name] in Hne. contradiction.
  - intro Hout. now apply put_snapshot_fresh.
Qed.

(** A directory that already holds a snapshot of the name about to be
    chosen: the save replaces it. *)
Definition same_second : state :=
  {| ticks := 0;
     cache_dir := [];
     base_dir := [ {| snapshot_name := "market_analysis_D_0.json";
                      snapshot_mtime := 0;
                      snapshot_data := Json (Samples.snapshot_at "old") |} ];
     trace := [] |}.

Lemma save_analysis_directory_witness :
  let s1 := snd (save_analysis Samples.fifteen_stats Samples.fifteen "D" 10
                   Samples.silent same_second) in
  exists record : Snapshot.analysis_data,
    base_dir s1 = [ {| snapshot_name := "market_analysis_D_0.json";
                       snapshot_mtime := 2000;
                       snapshot_data := Json record |} ].
Proof.
  intro s1.
  destruct (save_analysis_directory Samples.fifteen_stats Samples.fifteen
              "D" 10 Samples.silent same_second
              ltac:(vm_compute; reflexivity)
              ltac:(repeat constructor; cbn; intuition discriminate))
    as (record & _ & _ & _ & _ & Hsame & _).
  destruct (Hsame ltac:(now left)) as [Hnames Hall].
  exists record. fold s1 in Hnames, Hall.
  destruct (base_dir s1) as [ | g [ | g' rest]]; try discriminate Hnames.
  injection Hnames as Hg.
  now rewrite (Hall g (or_introl eq_refl) Hg).
Defined.

(** *** Loading *)


(** *** The counts of the summary *)

(** Whether the count stored for [c] assets out of [n] is [c] or
    [c - 1]. *)
Definition count_survives (n c : nat) : bool :=
  match share_count (Z.of_nat n)
          (MarketB.percentage (Z.of_nat c) (Z.of_nat n)) with
  | Ok z => (z =? Z.of_nat c) || (z =? Z.of_nat c - 1)
  | Raise _ => false
  end.

Definition counts_survive (limit : nat) : bool :=
  forallb (fun n => forallb (count_survives n) (seq 0 (S n)))
    (seq 0 (S limit)).

Lemma counts_survive_spec (limit : nat) :
  counts_survive limit = true ->
  forall n c : nat, (c <= n <= limit)%nat -> count_survives n c = true.
Proof.
  unfold counts_survive. intros H n c [Hc Hn].
  rewrite forallb_forall in H.
  specialize (H n ltac:(apply in_seq; lia)).
  rewrite forallb_forall in H.
  apply H. apply in_seq. lia.
Qed.

Lemma counts_survive_500 : counts_survive 500 = true.
Proof. vm_compute. reflexivity. Qed.

(** X19.  Counts do not survive the round trip through percentages.
    [save_analysis] recomputes each count as
    [int(total * percentage / 100)] from the percentage that
    [analyze_market] computed as [count / total * 100]; for every market of
    up to 500 assets the conversion succeeds and the stored count is the
    true count or one less, and it is one less already for 1 asset out
    of 3. *)
Theorem stored_count_at_most_one_short :
  (forall n c : nat,
      (c <= n <= 500)%nat ->
      exists z : Z,
        share_count (Z.of_nat n)
          (MarketB.percentage (Z.of_nat c) (Z.of_nat n)) = Ok z
        /\ (z = Z.of_nat c \/ z = Z.of_nat c - 1))
  /\ share_count 3 (MarketB.percentage 1 3) = Ok 0
  /\ share_count 3 (MarketB.percentage 2 3) = Ok 1
  /\ share_count 4 (MarketB.percentage 1 4) = Ok 1.
Proof.
  split; [ | repeat split; vm_compute; reflexivity].
  intros n c Hcn.
  pose proof (counts_survive_spec 500 counts_survive_500 n c Hcn) as H.
  unfold count_survives in H.
  destruct (share_count _ _) as [z | e]; [ | discriminate].
  exists z. split; [reflexivity | ].
  apply orb_true_iff in H. destruct H as [H | H];
    apply Z.eqb_eq in H; [now left | now right].
Qed.

End StorageProps.

(* ================================================================== *)
(** * Further properties of src/main.py *)
(* ================================================================== *)

Module MainProps.
Import Pandas Runtime Main LoadFacts MarketProps.
Local Open Scope run_scope.

(** The test of line 52: a table with at least 100 rows (which has a row,
    so the emptiness test adds nothing). *)
Definition enough (item : string * table) : bool :=
  (100 <=? length (snd item))%nat.

(** The lines printed for the symbols dropped, in the order met. *)
Definition skipped_lines (market_data : dict table) : list event :=
  map (fun item => Printed (Skipping (fst item)))
      (filter (fun item => negb (enough item)) market_data).

Lemma validate_run (market_data : dict table) (w : env) :
  forall (valid_symbols : list string) (s : state),
    for_loop validate_step valid_symbols market_data w s
    = (Ok (valid_symbols ++ keys (filter enough market_data)),
       with_trace s (trace s ++ skipped_lines market_data)).
Proof.
  induction market_data as [ | [symbol df] market_data IH];
    intros valid_symbols s.
  - cbn. now rewrite !app_nil_r, with_trace_same.
  - cbn [for_loop]. unfold mbind at 1. unfold validate_step at 1.
    unfold skipped_lines, enough. cbn [filter snd fst].
    destruct df as [ | c df].
    + cbn [length Nat.leb negb map]. unfold mbind at 1, emit, ret.
      rewrite IH. cbn [trace]. unfold with_trace. cbn [ticks cache_dir
        base_dir trace]. unfold skipped_lines, enough.
      now rewrite <- app_assoc.
    + destruct (100 <=? length (c :: df))%nat eqn:E.
      * unfold ret at 1. rewrite IH. cbn [negb keys map fst].
        unfold skipped_lines, enough, keys. now rewrite <- app_assoc.
      * unfold mbind at 1, emit, ret. rewrite IH.
        cbn [negb map trace]. unfold with_trace. cbn [ticks cache_dir
          base_dir trace]. unfold skipped_lines, enough.
        now rewrite <- app_assoc.
Qed.

Lemma select_run (market_data : dict table) (w : env) (s : state) :
  NoDup (keys market_data) ->
  forall (items selected : dict table),
    incl items market_data ->
    NoDup (keys items) ->
    (forall k, In k (keys selected) -> ~ In k (keys items)) ->
    for_loop (select_step market_data) selected (keys items) w s
    = (Ok (selected ++ items), s).
Proof.
  intro Hnd. induction items as [ | [symbol df] items IH];
    intros selected Hincl Hitems Hdisj.
  - cbn. now rewrite app_nil_r.
  - cbn [keys map fst for_loop]. unfold mbind at 1.
    unfold select_step at 1, mbind at 1, lift, dict_get.
    rewrite (dict_find_in market_data symbol df Hnd)
      by (apply Hincl; now left).
    unfold ret at 1.
    cbn [keys map fst] in Hitems. apply NoDup_cons_iff in Hitems.
    destruct Hitems as [Hout Hitems].
    assert (Hfresh : ~ In symbol (keys selected)).
    { intro Hin. apply (Hdisj _ Hin). now left. }
    rewrite (AnalyzeMarketFacts.dict_set_fresh _ _ _ Hfresh).
    fold (keys items). rewrite IH.
    + now rewrite <- app_assoc.
    + intros x Hx. apply Hincl. now right.
    + exact Hitems.
    + intros k Hk Hin. unfold keys in Hk. rewrite map_app, in_app_iff in Hk.
      destruct Hk as [Hk | [Hk | []]].
      * apply (Hdisj k Hk). now right.
      * cbn in Hk. subst k. contradiction.
Qed.

(** X20.  The validation of [main].  From a dict of tables (its keys are
    distinct) the two loops of lines 48-57 keep exactly the entries whose
    table has at least 100 rows, in their order, print one "Skipping" line
    for each of the others, in their order, and never raise. *)
Theorem main_validation (market_data : dict table) (w : env) (s : state)
  (Hkeys : NoDup (keys market_data)) :
  for_loop validate_step [] market_data w s
  = (Ok (keys (filter enough market_data)),
     with_trace s (trace s ++ skipped_lines market_data))
  /\ (valid_symbols <~ for_loop validate_step [] market_data ;;
      for_loop (select_step market_data) [] valid_symbols) w s
     = (Ok (filter enough market_data),
        with_trace s (trace s ++ skipped_lines market_data)).
Proof.
  pose proof (validate_run market_data w [] s) as Hv. cbn [app] in Hv.
  split; [exact Hv | ].
  unfold mbind. rewrite Hv.
  rewrite (select_run market_data w _ Hkeys (filter enough market_data) []).
  - reflexivity.
  - intros x Hx. apply filter_In in Hx. tauto.
  - now apply NoDup_keys_filter.
  - intros k [].
Qed.

(** A hundred daily rows and three hourly ones: the first table is kept,
    the second announced as skipped. *)
Definition long_and_short : dict table :=
  [ ("AUSDT", MarketBFacts.ramp 1 1 100);
    ("BUSDT", Samples.hourly [1; 2; 3]) ].

Lemma main_validation_witness :
  (valid_symbols <~ for_loop validate_step [] long_and_short ;;
   for_loop (select_step long_and_short) [] valid_symbols)
    Samples.silent Samples.nothing_on_disk
  = (Ok [("AUSDT", MarketBFacts.ramp 1 1 100)],
     with_trace Samples.nothing_on_disk [Printed (Skipping "BUSDT")]).
Proof.
  destruct (main_validation long_and_short Samples.silent
              Samples.nothing_on_disk
              ltac:(repeat constructor; cbn; intuition discriminate))
    as [_ H].
  exact H.
Defined.

End MainProps.

Module PipelineProps.
Import Pandas Runtime Main LoadFacts MarketProps MainProps.
Import AnalyzeMarketFacts MarketStorage StorageFacts StorageProps.
Local Open Scope run_scope.










End PipelineProps.

(* ================================================================== *)
(** * Cache file names *)
(* ================================================================== *)

Module PathProps.
Import DataFetcher Fetcher NameFacts.

Lemma append_cancel_l (a b c : string) :
  String.append a b = String.append a c -> b = c.
Proof.
  induction a as [ | x a IH]; cbn; intro H; [exact H | ].
  injection H as H. now apply IH.
Qed.

Lemma append_cancel_r (a b c : string) :
  String.append a c = String.append b c -> a = b.
Proof.
  revert b. induction a as [ | x a IH]; intros [ | y b] H; cbn in H.
  - reflexivity.
  - exfalso. apply (f_equal String.length) in H. cbn in H.
    rewrite length_append in H. lia.
  - exfalso. apply (f_equal String.length) in H. cbn in H.
    rewrite length_append in H. lia.
  - injection H as -> H. f_equal. now apply IH.
Qed.

(** X22.  Cache file names.  For one interval, different symbols get
    different cache files, so no two symbols of a scan share one; no
    kline cache file is the symbol list's file; and the integer interval
    [n] (as the Volatility-Band script passes) and the string of the same
    digits name different files, so the two never share cached rows. *)
Theorem cache_paths_apart :
  (forall (interval : interval_arg) (symbol symbol' : string),
      _get_cache_path symbol interval = _get_cache_path symbol' interval ->
      symbol = symbol')
  /\ (forall (interval : interval_arg) (symbol : string),
        _get_cache_path symbol interval <> symbols_cache)
  /\ (forall (symbol : string) (n : Z),
        _get_cache_path symbol (IInt n)
        <> _get_cache_path symbol (IStr (string_of_Z n)))
  /\ _get_cache_path "BTCUSDT" (IInt 60) = "BTCUSDT_60min.parquet"
  /\ _get_cache_path "BTCUSDT" (IStr "60") = "BTCUSDT_60.parquet".
Proof.
  split.
  { intros interval symbol symbol' H. unfold _get_cache_path in H.
    now apply append_cancel_r in H. }
  split.
  { intros interval symbol H.
    assert (E : ends_with ".parquet" (_get_cache_path symbol interval)
                = true).
    { unfold _get_cache_path.
      rewrite <- !append_assoc. apply ends_with_append. }
    rewrite H in E. discriminate E. }
  split; [ | split; reflexivity].
  intros symbol n H. unfold _get_cache_path in H.
  apply append_cancel_l in H. apply append_cancel_l in H.
  rewrite append_assoc in H. apply append_cancel_l in H.
  discriminate H.
Qed.

End PathProps.

(* ================================================================== *)
(** * An undefined close under the moving average *)
(* ================================================================== *)

Module SmaProps.
Import Pandas MarketB FloatFacts NanFacts ListFacts PandasFacts MarketBFacts.
Import TrendProps RangeProps.

Lemma nth_SMA_undefined (self : TrendDetector) (df : table) (k j : nat) :
  (j < length df)%nat ->
  (k <= j < k + period (sma_indicator self))%nat ->
  isnan (close (nth k df ResampleFacts.no_candle)) = true ->
  isnan (nth j (SMA (detect_trend self df)) nan) = true.
Proof.
  intros Hj Hk Hnan. unfold detect_trend, calculate. cbn [SMA sma_SMA].
  apply (rolling_mean_undefined _ _ k j);
    [now rewrite length_map | exact Hk | ].
  change nan with (close ResampleFacts.no_candle) at 1.
  now rewrite map_nth.
Qed.

(** X23.  A close that is not a number.  When the close of row [k] is NaN
    (a cell the fetch could not read as a number) and the period is
    positive, the SMA is undefined in
    row [k] and in the [period - 1] rows after it, and the Moving-Average
    detector classifies row [k] and the [period] rows after it as
    neutral. *)
Theorem undefined_close_is_neutral (self : TrendDetector) (df : table)
  (k : nat)
  (Hp : (0 < period (sma_indicator self))%nat)
  (Hk : (k < length df)%nat)
  (Hnan : isnan (close (nth k df ResampleFacts.no_candle)) = true) :
  let f := detect_trend self df in
  let p := period (sma_indicator self) in
  (forall j : nat,
      (j < length df)%nat -> (k <= j < k + p)%nat ->
      isnan (nth j (SMA f) nan) = true)
  /\ (forall j : nat,
        (j < length df)%nat -> (k <= j <= k + p)%nat ->
        nth j (Trend f) 0 = 0).
Proof.
  intros f p.
  split; [intros j Hj Hr; now apply (nth_SMA_undefined self df k j) | ].
  intros j Hj Hr. unfold f. rewrite (nth_Trend self df j Hj).
  apply classify_no_change. fold f.
  unfold f, detect_trend, calculate. cbn [SMA_Change sma_SMA sma_rows].
  destruct j as [ | i]; [now rewrite nth_diff_0 | ].
  rewrite nth_diff_S by (rewrite length_rolling_mean, length_map; lia).
  pose proof (nth_SMA_undefined self df k) as H.
  unfold detect_trend, calculate in H. cbn [SMA sma_SMA] in H.
  destruct (Nat.eq_dec (S i) (k + p)) as [E | NE].
  - apply fsub_nan_r. apply H; [lia | fold p; lia | exact Hnan].
  - apply fsub_nan_l. apply H; [lia | fold p; lia | exact Hnan].
Qed.

(** Six rising hourly bars whose third close could not be read, under a
    two-row average. *)
Definition unread_close : table :=
  [ Samples.bar_oc 0 1 1; Samples.bar_oc 1 2 2; Samples.bar_oc 2 3 nan;
    Samples.bar_oc 3 4 4; Samples.bar_oc 4 5 5; Samples.bar_oc 5 6 6 ]%float.

Lemma undefined_close_is_neutral_witness :
  let f := detect_trend (trend_detector (Samples.ma_analyzer 2)) unread_close in
  isnan (nth 3 (SMA f) nan) = true /\ nth 4 (Trend f) 0 = 0.
Proof.
  destruct (undefined_close_is_neutral
              (trend_detector (Samples.ma_analyzer 2)) unread_close 2
              ltac:(cbn; lia) ltac:(cbn; lia) ltac:(reflexivity))
    as [A B].
  split; [apply A | apply B]; cbn; lia.
Defined.

End SmaProps.

(* ================================================================== *)
(** * Cells of a response that are no numbers *)
(* ================================================================== *)

Module ParseProps.
Import Py Pandas Runtime DataFetcher Fetcher ListFacts FetcherFacts.













End ParseProps.
